(** * A shallow embedding of the browser PDF tool (shell, viewer, merger, editor)

    The application is a React single-page program written in TypeScript.
    Each component is embedded as a record holding its [useState] cells and
    one function per event handler; a handler that only calls setters is a
    function from state to state, and a handler that awaits external
    libraries runs in a small state-and-exception monad over the component
    state and the log of browser effects (alerts, console errors, downloads).

    An asynchronous handler is run to completion in one step: its awaits
    are points where an external call may throw, not points where other
    events interleave.  What the environment decides (the clock, the random
    generator, the libraries) is an argument of the handler.

    JavaScript numbers are IEEE 754 binary64 values and are embedded as Rocq's
    primitive floats, so [NaN], the infinities and the two zeros behave as in
    the source.  Arrays written by index keep JavaScript's behaviour outside
    their bounds (the array grows and the gap is left empty). *)

From Stdlib Require Import Floats Ascii String ZArith Lia.
From stdpp Require Import base option list strings pretty.

Set Warnings "-inexact-float".

(** ** JavaScript values *)

Module Js.

(** [number] is the JavaScript number type. *)
Definition number := float.

(** One step of the scan that [Math.max] performs over its arguments:
    [number] replaces [highest] when it is larger, or when it is [+0] and
    [highest] is [-0]. *)
Definition max_step (highest number : float) : float :=
  if match classify number, classify highest with
     | PZero, NZero => true
     | _, _ => false
     end
     || (highest <? number)%float
  then number else highest.

(** [Math.max(a, b)]: [NaN] when an argument is [NaN]. *)
Definition Math_max (a b : float) : float :=
  if is_nan a || is_nan b then nan
  else max_step (max_step neg_infinity a) b.

(** One step of the scan of [Math.min]. *)
Definition min_step (lowest number : float) : float :=
  if match classify number, classify lowest with
     | NZero, PZero => true
     | _, _ => false
     end
     || (number <? lowest)%float
  then number else lowest.

(** [Math.min(a, b)]: [NaN] when an argument is [NaN]. *)
Definition Math_min (a b : float) : float :=
  if is_nan a || is_nan b then nan
  else min_step (min_step infinity a) b.

(** [Math.abs]. *)
Definition Math_abs (a : float) : float := abs a.

(** A number is falsy when it is [0], [-0] or [NaN]. *)
Definition falsy (a : float) : bool := is_nan a || (a =? 0)%float.

(** [a || b] where [a] may be [undefined] ([None]). *)
Definition or_else (a : option float) (b : float) : float :=
  match a with
  | Some v => if falsy v then b else v
  | None => b
  end.

(** A string is truthy when it is not empty; [null] ([None]) is falsy. *)
Definition truthy (s : option string) : bool :=
  match s with
  | Some v => negb (String.eqb v "")
  | None => false
  end.

(** [n.toString()] for a non-negative integer such as [Date.now()] or an
    array index: its decimal digits. *)
Definition toString (n : N) : string := pretty n.

(** The decimal digits. *)
Definition is_digit (c : ascii) : bool :=
  match c with
  | "0" | "1" | "2" | "3" | "4" | "5" | "6" | "7" | "8" | "9" => true
  | _ => false
  end%char.

(** A string that begins with a decimal digit. *)
Definition starts_with_digit (s : string) : bool :=
  match s with
  | String c _ => is_digit c
  | EmptyString => false
  end.

(** [lo <= x && x <= hi] on numbers; false when [x] is [NaN]. *)
Definition between (lo hi x : float) : bool :=
  (lo <=? x)%float && (x <=? hi)%float.

(** *** Strings

    A string is embedded as the UTF-8 encoding of its text, one [ascii]
    per byte. *)

(** The UTF-16 code units a byte of the encoding accounts for: one for an
    ASCII byte and for the first byte of a sequence of two or three bytes,
    two for the first byte of a sequence of four bytes (a surrogate pair),
    none for a continuation byte. *)
Definition code_units (c : ascii) : nat :=
  let n := N_of_ascii c in
  if (n <? 128)%N then 1
  else if (n <? 192)%N then 0
  else if (n <? 240)%N then 1
  else 2.

(** [s.length] as a natural number: the count of UTF-16 code units. *)
Fixpoint utf16_length (s : string) : nat :=
  match s with
  | String c s' => code_units c + utf16_length s'
  | EmptyString => 0
  end.

(** [s.length] as a number. *)
Definition length_number (s : string) : float :=
  PrimFloat.of_uint63 (Uint63.of_Z (Z.of_nat (utf16_length s))).

(** The white space and the line terminators that [trim] removes, by
    their encodings.  In one byte: TAB, LF, VT, FF, CR and the space. *)
Definition is_space (c : ascii) : bool :=
  match N_of_ascii c with
  | 9%N | 10%N | 11%N | 12%N | 13%N | 32%N => true
  | _ => false
  end.

(** In two bytes: U+00A0. *)
Definition is_space2 (a b : ascii) : bool :=
  match N_of_ascii a, N_of_ascii b with
  | 194%N, 160%N => true
  | _, _ => false
  end.

(** In three bytes: U+1680, U+2000 to U+200A, U+2028, U+2029, U+202F,
    U+205F, U+3000 and U+FEFF. *)
Definition is_space3 (a b c : ascii) : bool :=
  match N_of_ascii a, N_of_ascii b, N_of_ascii c with
  | 225%N, 154%N, 128%N => true
  | 226%N, 128%N, n => ((128 <=? n)%N && (n <=? 138)%N) || (n =? 168)%N
                       || (n =? 169)%N || (n =? 175)%N
  | 226%N, 129%N, 159%N => true
  | 227%N, 128%N, 128%N => true
  | 239%N, 187%N, 191%N => true
  | _, _, _ => false
  end.

(** The string without the white space it starts with.  With [backwards]
    set the bytes of [s] are read from the last to the first, so that the
    bytes of one character arrive in the reverse order. *)
Fixpoint drop_space (backwards : bool) (s : string) : string :=
  match s with
  | String a s1 =>
      if is_space a then drop_space backwards s1
      else
        match s1 with
        | String b s2 =>
            if (if backwards then is_space2 b a else is_space2 a b)
            then drop_space backwards s2
            else
              match s2 with
              | String c s3 =>
                  if (if backwards then is_space3 c b a else is_space3 a b c)
                  then drop_space backwards s3
                  else s
              | EmptyString => s
              end
        | EmptyString => s
        end
  | EmptyString => EmptyString
  end.

Definition trim_start (s : string) : string := drop_space false s.

Definition trim_end (s : string) : string :=
  String.rev (drop_space true (String.rev s)).

(** [s.trim()]. *)
Definition trim (s : string) : string := trim_end (trim_start s).

(** *** Arrays

    A JavaScript array indexed past its end grows: the written index holds
    the value and the indices in between are empty slots.  An empty slot and
    a slot holding [undefined] both read as [undefined]; [filter] and [map]
    skip the former and visit the latter. *)
Inductive slot (A : Type) : Type :=
  | Elem (a : A)
  | Undefined
  | Hole.
Arguments Elem {A} a.
Arguments Undefined {A}.
Arguments Hole {A}.

Abbreviation array A := (list (slot A)).

(** [arr[i]] as a value: [None] is [undefined]. *)
Definition get {A} (arr : array A) (i : nat) : option A :=
  match arr !! i with
  | Some (Elem a) => Some a
  | _ => None
  end.

Definition to_slot {A} (v : option A) : slot A :=
  match v with
  | Some a => Elem a
  | None => Undefined
  end.

(** [arr[i] = v]. *)
Definition set {A} (arr : array A) (i : nat) (v : option A) : array A :=
  if decide (i < length arr) then <[i := to_slot v]> arr
  else arr ++ replicate (i - length arr) Hole ++ [to_slot v].

(** The values an iteration over the array yields ([for ... of]): every
    index below the length, [undefined] ([None]) where nothing is stored. *)
Definition values {A} (arr : array A) : list (option A) :=
  fmap (fun s => match s with Elem a => Some a | _ => None end) arr.

(** The elements of an array, in order. *)
Definition elems {A} (arr : array A) : list A :=
  omap (fun s => match s with Elem a => Some a | _ => None end) arr.

(** An array without empty or [undefined] slots. *)
Definition dense {A} (arr : array A) : Prop :=
  Forall (fun s => match s with Elem _ => True | _ => False end) arr.

(** *** Completions

    A call either returns or throws. *)
Record exn := { instanceof_Error : bool; message : string }.

(** [new Error(msg)], as the libraries and the runtime throw it. *)
Definition Error (msg : string) : exn :=
  {| instanceof_Error := true; message := msg |}.

Inductive completion (A : Type) : Type :=
  | Normal (a : A)
  | Throw (e : exn).
Arguments Normal {A} a.
Arguments Throw {A} e.

(** The error raised when a property of [undefined] is read. *)
Definition TypeError : exn :=
  Error "Cannot read properties of undefined".

(** [arr.filter(f)] where [f] reads a property of its argument: empty slots
    are skipped and an [undefined] element throws. *)
Fixpoint filter {A} (f : A -> bool) (arr : array A) : completion (array A) :=
  match arr with
  | [] => Normal []
  | Hole :: rest => filter f rest
  | Undefined :: _ => Throw TypeError
  | Elem a :: rest =>
      match filter f rest with
      | Normal kept => Normal (if f a then Elem a :: kept else kept)
      | Throw e => Throw e
      end
  end.

(** *** Browser effects *)

(** A [File]: its name, MIME type and contents. *)
Module File.
Record t := { name : string; type : string; data : string }.
End File.

(** The contents of a file or of a serialised document. *)
Definition bytes := string.

Inductive effect : Type :=
  | ConsoleError (msg : string)
  | ConsoleWarn (msg : string)
  | Alert (msg : string)
  | Download (filename : string) (content : bytes).

(** *** Handlers that can throw

    [M S A] is a computation over a store [S] (the component state paired
    with the effect log) that returns an [A] or throws.  An [await] of a
    rejected promise throws at the [await]. *)
Definition M (S A : Type) : Type := S -> completion A * S.

Definition ret {S A} (a : A) : M S A := fun s => (Normal a, s).

Definition bind {S A B} (m : M S A) (k : A -> M S B) : M S B :=
  fun s =>
    match m s with
    | (Normal a, s') => k a s'
    | (Throw e, s') => (Throw e, s')
    end.

(** The result of an external call, returned or thrown. *)
Definition await {S A} (r : completion A) : M S A := fun s => (r, s).

Definition modify {S} (f : S -> S) : M S unit := fun s => (Normal tt, f s).

Definition read {S} : M S S := fun s => (Normal s, s).

(** [try { body } catch (e) { handler e }]. *)
Definition try_catch {S A} (body : M S A) (handler : exn -> M S A) : M S A :=
  fun s =>
    match body s with
    | (Normal a, s') => (Normal a, s')
    | (Throw e, s') => handler e s'
    end.

(** [try { body } finally { final }]: [final] runs either way, and the
    completion of [body] stands unless [final] itself throws. *)
Definition try_finally {S A} (body : M S A) (final : M S unit) : M S A :=
  fun s =>
    match body s with
    | (r, s') =>
        match final s' with
        | (Normal _, s'') => (r, s'')
        | (Throw e, s'') => (Throw e, s'')
        end
    end.

(** [for (const x of xs) { body }], where [acc] holds the locals the body
    mutates. *)
Fixpoint for_of {S A B} (xs : list A) (acc : B) (body : B -> A -> M S B)
  : M S B :=
  match xs with
  | [] => ret acc
  | x :: rest => bind (body acc x) (fun acc' => for_of rest acc' body)
  end.

(** A computation that leaves the store alone. *)
Definition silent {S A} (m : M S A) : Prop :=
  forall s, snd (m s) = s.

(** [[...arr]]: a copy in which an empty slot has become [undefined]. *)
Definition spread {A} (arr : array A) : array A :=
  fmap (fun s => match s with Hole => Undefined | _ => s end) arr.

(** An [<input type="file">] element. *)
Record file_input := { accept : string; multiple : bool }.

End Js.

Notation "'let!' x ':=' m 'in' k" := (Js.bind m (fun x => k))
  (at level 10, x pattern, m at level 100, k at level 200).
Notation "m ';;!' k" := (Js.bind m (fun _ => k))
  (at level 100, k at level 200, right associativity).

(** ** The external libraries

    The application delegates parsing, page copying, drawing, serialising and
    text extraction to pdf-lib and pdfjs-dist.  A pdf-lib document is
    modelled by its sequence of pages; every call into a library may throw,
    so the calls are fields of a record the handlers are parametrised by. *)

Module Lib.
Import Js.

Inductive DrawOp : Type :=
  | Rectangle (x y width height : float)
  | Text (text : string) (x y size : float).

Module PDFPage.
Record t := { height : float; content : string; drawn : list DrawOp }.
End PDFPage.

Abbreviation PDFDocument := (list PDFPage.t).

(** [doc.getPageIndices()]. *)
Definition getPageIndices (doc : PDFDocument) : list nat := seq 0 (length doc).

(** [doc.getPages()]. *)
Definition getPages (doc : PDFDocument) : list PDFPage.t := doc.

(** [doc.addPage(page)] appends the page. *)
Definition addPage (doc : PDFDocument) (page : PDFPage.t) : PDFDocument :=
  doc ++ [page].

(** An item of pdfjs-dist's text content. *)
Module TextItem.
Record t := {
  str : option string;
  transform : option (list float);
  width : option float;
  height : option float
}.
End TextItem.

Module Viewport.
Record t := { width : float; height : float }.
End Viewport.

Module PDFPageProxy.
Record t := { items : completion (list TextItem.t); viewport : Viewport.t }.
End PDFPageProxy.

Abbreviation PDFDocumentProxy := (list PDFPageProxy.t).

Record External := {
  (** [file.arrayBuffer()] *)
  file_arrayBuffer : File.t -> completion bytes;
  (** pdf-lib: [PDFDocument.create()], [PDFDocument.load(bytes)],
      [dst.copyPages(src, indices)], [doc.save()], [page.drawRectangle],
      [page.drawText] *)
  PDFDocument_create : completion PDFDocument;
  PDFDocument_load : bytes -> completion PDFDocument;
  copyPages : PDFDocument -> PDFDocument -> list nat -> completion (list PDFPage.t);
  save : PDFDocument -> completion bytes;
  drawRectangle : PDFPage.t -> DrawOp -> completion PDFPage.t;
  drawText : PDFPage.t -> DrawOp -> completion PDFPage.t;
  (** pdfjs-dist: [getDocument({data}).promise] *)
  getDocument : bytes -> completion PDFDocumentProxy
}.

(** [pdf.getPage(n)]: pages are numbered from 1. *)
Definition getPage (pdf : PDFDocumentProxy) (n : nat) : completion PDFPageProxy.t :=
  match n with
  | 0 => Throw (Error "Invalid page request.")
  | S i => match pdf !! i with
           | Some page => Normal page
           | None => Throw (Error "Invalid page request.")
           end
  end.

(** [page.getTextContent()]. *)
Definition getTextContent (page : PDFPageProxy.t) : completion (list TextItem.t) :=
  PDFPageProxy.items page.

(** The document pdf-lib parses from the contents of a file. *)
Definition pages_of (ext : External) (f : File.t) : completion PDFDocument :=
  match file_arrayBuffer ext f with
  | Normal buf => PDFDocument_load ext buf
  | Throw e => Throw e
  end.

(** What the merger relies on from pdf-lib: a new document has no page, and
    copying the pages of a document at all its indices returns them in
    order. *)
Definition faithful (ext : External) : Prop :=
  PDFDocument_create ext = Normal [] /\
  forall dst src, copyPages ext dst src (getPageIndices src) = Normal src.

End Lib.

(** ** The shell (App) *)

Module App.
Import Js.

Inductive Mode : Type := view | edit | merge.

Record State := { pdfFile : option File.t; mode : Mode; zoom : float }.

Definition initial : State :=
  {| pdfFile := None; mode := view; zoom := 1 |}.

(** [handleFileUpload]; [files] is [event.target.files]. *)
Definition handleFileUpload (files : option (list File.t)) (st : State) : State :=
  let file := match files with
              | Some fs => fs !! 0
              | None => None
              end in
  match file with
  | Some file =>
      if String.eqb (File.type file) "application/pdf" then
        {| pdfFile := Some file; mode := view; zoom := zoom st |}
      else st
  | None => st
  end.

Definition setZoom (z : float) (st : State) : State :=
  {| pdfFile := pdfFile st; mode := mode st; zoom := z |}.

Definition setMode (m : Mode) (st : State) : State :=
  {| pdfFile := pdfFile st; mode := m; zoom := zoom st |}.

(** The zoom buttons. *)
Definition zoomIn (st : State) : State := setZoom (zoom st * 1.2)%float st.
Definition zoomOut (st : State) : State := setZoom (zoom st / 1.2)%float st.

(** The hidden file input of the toolbar. *)
Definition fileInput : file_input := {| accept := ".pdf"; multiple := false |}.

End App.

(** ** The merger (PDFMerger) *)

Module PDFMerger.
Import Js Lib.

Module PDFFile.
Record t := { id : string; file : File.t; name : string; pages : float }.
End PDFFile.

Record State := { pdfFiles : array PDFFile.t; merging : bool }.

(** The initial state: the list holds the primary file. *)
Definition initial (primaryFile : File.t) : State :=
  {| pdfFiles := [Elem {| PDFFile.id := "1";
                          PDFFile.file := primaryFile;
                          PDFFile.name := File.name primaryFile;
                          PDFFile.pages := 0 |}];
     merging := false |}.

Definition setPdfFiles (v : array PDFFile.t) (st : State) : State :=
  {| pdfFiles := v; merging := merging st |}.

Definition setMerging (v : bool) (st : State) : State :=
  {| pdfFiles := pdfFiles st; merging := v |}.

(** What the environment answers during one call of [handleAddFiles]: the
    clock reading and the printed random number of the [i]-th callback. *)
Record Entropy := { Date_now : nat -> N; Math_random_toString : nat -> string }.

(** The entries [handleAddFiles] builds for the chosen files. *)
Definition newFiles (env : Entropy) (files : list File.t) : list PDFFile.t :=
  imap (fun i file =>
          {| PDFFile.id := toString (Date_now env i) +:+ Math_random_toString env i;
             PDFFile.file := file;
             PDFFile.name := File.name file;
             PDFFile.pages := 0 |}) files.

(** [handleAddFiles]; [files] is [event.target.files]. *)
Definition handleAddFiles (env : Entropy) (files : option (list File.t))
    (st : State) : State :=
  match files with
  | Some files =>
      setPdfFiles (spread (pdfFiles st) ++ fmap Elem (newFiles env files)) st
  | None => st
  end.

(** [removeFile]: a [TypeError] raised by the filter callback leaves the
    handler before the setter is called. *)
Definition removeFile (id : string) (st : State) : State :=
  if decide (1 < length (pdfFiles st)) then
    match Js.filter (fun file => negb (String.eqb (PDFFile.id file) id)) (pdfFiles st) with
    | Normal kept => setPdfFiles kept st
    | Throw _ => st
    end
  else st.

(** [moveFileUp]: the right-hand side of the destructuring assignment is
    read first, then [newFiles[index - 1]] and [newFiles[index]] are
    written in this order. *)
Definition moveFileUp (index : nat) (st : State) : State :=
  if decide (0 < index) then
    let newFiles := spread (pdfFiles st) in
    let a := get newFiles index in
    let b := get newFiles (index - 1) in
    let newFiles := set newFiles (index - 1) a in
    let newFiles := set newFiles index b in
    setPdfFiles newFiles st
  else st.

(** [moveFileDown]. *)
Definition moveFileDown (index : nat) (st : State) : State :=
  if decide (Z.of_nat index < Z.of_nat (length (pdfFiles st)) - 1)%Z then
    let newFiles := spread (pdfFiles st) in
    let a := get newFiles (index + 1) in
    let b := get newFiles index in
    let newFiles := set newFiles index a in
    let newFiles := set newFiles (index + 1) b in
    setPdfFiles newFiles st
  else st.

(** The component state together with the effects performed so far. *)
Record Store := { state : State; effects : list effect }.

Definition emit (e : effect) : M Store unit :=
  modify (fun s => {| state := state s; effects := effects s ++ [e] |}).

Definition update (f : State -> State) : M Store unit :=
  modify (fun s => {| state := f (state s); effects := effects s |}).

(** The body of the [try] block of [mergePDFs], over the list [pdfFiles]
    the handler closed over; [now] is the reading of [Date.now()] for the
    file name. *)
Definition merge_body (ext : External) (now : N) (pdfFiles : array PDFFile.t)
  : M Store unit :=
  update (setMerging true) ;;!
  let! mergedPdf := await (PDFDocument_create ext) in
  let! mergedPdf :=
    for_of (values pdfFiles) mergedPdf (fun mergedPdf pdfFile =>
      match pdfFile with
      | None => await (Throw TypeError)
      | Some pdfFile =>
          let! arrayBuffer := await (file_arrayBuffer ext (PDFFile.file pdfFile)) in
          let! pdf := await (PDFDocument_load ext arrayBuffer) in
          let! pages := await (copyPages ext mergedPdf pdf (getPageIndices pdf)) in
          ret (foldl addPage mergedPdf pages)
      end) in
  let! pdfBytes := await (save ext mergedPdf) in
  emit (Download ("merged_" +:+ toString now +:+ ".pdf") pdfBytes).

(** [mergePDFs]. *)
Definition mergePDFs (ext : External) (now : N) : M Store unit :=
  let! s := read in
  try_finally
    (try_catch
       (merge_body ext now (pdfFiles (state s)))
       (fun error =>
          emit (ConsoleError "Failed to merge PDFs:") ;;!
          emit (Alert "Failed to merge PDFs. Please try again.")))
    (update (setMerging false)).

(** *** The rendered controls *)

(** The hidden file input behind the add button. *)
Definition fileInput : file_input := {| accept := ".pdf"; multiple := true |}.

Inductive Action : Type :=
  | handleAddClick
  | onMerge
  | onMoveUp (index : nat)
  | onMoveDown (index : nat)
  | onRemove (id : string).

Record Button := { disabled : bool; onClick : Action }.

Record Row := {
  primary : string;
  moveUp : Button;
  moveDown : Button;
  delete : Button
}.

Record View := {
  addFilesInput : file_input;
  addButton : Button;
  mergeButton : Button;
  rows : list Row
}.

(** The row rendered for [pdfFile] at position [index] of a list of
    length [len]. *)
Definition row_of (len index : nat) (pdfFile : PDFFile.t) : Row :=
  {| primary := PDFFile.name pdfFile;
     moveUp := {| disabled := bool_decide (index = 0);
                  onClick := onMoveUp index |};
     moveDown := {| disabled := bool_decide (Z.of_nat index = Z.of_nat len - 1)%Z;
                    onClick := onMoveDown index |};
     delete := {| disabled := bool_decide (len <= 1);
                  onClick := onRemove (PDFFile.id pdfFile) |} |}.

(** The rows of [pdfFiles.map((pdfFile, index) => ...)], from position
    [index] on: an empty slot renders nothing and an [undefined] element
    throws when its [id] is read. *)
Fixpoint render_rows (len : nat) (index : nat) (arr : array PDFFile.t)
  : completion (list Row) :=
  match arr with
  | [] => Normal []
  | Hole :: rest => render_rows len (S index) rest
  | Undefined :: _ => Throw TypeError
  | Elem pdfFile :: rest =>
      match render_rows len (S index) rest with
      | Normal rs => Normal (row_of len index pdfFile :: rs)
      | Throw e => Throw e
      end
  end.

(** The controls the component renders in a state. *)
Definition render (st : State) : completion View :=
  match render_rows (length (pdfFiles st)) 0 (pdfFiles st) with
  | Normal rs =>
      Normal {| addFilesInput := fileInput;
                addButton := {| disabled := false; onClick := handleAddClick |};
                mergeButton := {| disabled := bool_decide (length (pdfFiles st) < 2) || merging st;
                                  onClick := onMerge |};
                rows := rs |}
  | Throw e => Throw e
  end.

(** A click reaches the handler of a button that is not disabled. *)
Definition click (b : Button) : option Action :=
  if disabled b then None else Some (onClick b).

(** *** Events *)

Inductive Control : Type :=
  | TheAddButton
  | TheMergeButton
  | UpOf (row : nat)
  | DownOf (row : nat)
  | DeleteOf (row : nat).

Inductive UserEvent : Type :=
  | Click (c : Control) (now : N)
  | PickFiles (env : Entropy) (files : option (list File.t)).

Definition control (v : View) (c : Control) : option Button :=
  match c with
  | TheAddButton => Some (addButton v)
  | TheMergeButton => Some (mergeButton v)
  | UpOf row => moveUp <$> rows v !! row
  | DownOf row => moveDown <$> rows v !! row
  | DeleteOf row => delete <$> rows v !! row
  end.

(** The handler an action stands for. *)
Definition perform (ext : External) (now : N) (a : Action) (s : Store) : Store :=
  match a with
  | handleAddClick => s
  | onMerge => snd (mergePDFs ext now s)
  | onMoveUp index => {| state := moveFileUp index (state s); effects := effects s |}
  | onMoveDown index => {| state := moveFileDown index (state s); effects := effects s |}
  | onRemove id => {| state := removeFile id (state s); effects := effects s |}
  end.

(** One user event: a click acts through the control rendered in the
    current state, if there is one and it is enabled. *)
Definition step (ext : External) (s : Store) (ev : UserEvent) : Store :=
  match ev with
  | Click c now =>
      match render (state s) with
      | Normal v =>
          match control v c ≫= click with
          | Some a => perform ext now a s
          | None => s
          end
      | Throw _ => s
      end
  | PickFiles env files =>
      {| state := handleAddFiles env files (state s); effects := effects s |}
  end.

Definition run (ext : External) (s : Store) (evs : list UserEvent) : Store :=
  foldl (step ext) s evs.

(** The ids [handleAddFiles] draws during a run. *)
Definition drawn_ids (evs : list UserEvent) : list string :=
  evs ≫= fun ev =>
    match ev with
    | PickFiles env (Some files) => PDFFile.id <$> newFiles env files
    | _ => []
    end.

(** *** Predicates used by the properties *)

(** A computation that never writes [pdfFiles]. *)
Definition keeps_files {A} (m : M Store A) : Prop :=
  forall s, pdfFiles (state (snd (m s))) = pdfFiles (state s).

(** What a run maintains: the list is dense and not empty, and the ids of
    its files differ from each other and from the ids still to be drawn. *)
Definition list_ok (st : State) (pending : list string) : Prop :=
  exists fs, pdfFiles st = Elem <$> fs /\ fs <> [] /\
             NoDup ((PDFFile.id <$> fs) ++ pending).

End PDFMerger.

(** ** The editor (PDFEditor) *)

Module PDFEditor.
Import Js Lib.

Inductive AnnotationType : Type := new | existing.

Module TextAnnotation.
Record t := {
  id : string;
  x : float;
  y : float;
  text : string;
  fontSize : float;
  isEditing : bool;
  type : AnnotationType;
  originalText : option string
}.
End TextAnnotation.

(** [Partial<TextAnnotation>]: the properties an update object holds. *)
Module Partial.
Record t := {
  id : option string;
  x : option float;
  y : option float;
  text : option string;
  fontSize : option float;
  isEditing : option bool;
  type : option AnnotationType;
  originalText : option (option string)
}.

Definition empty : t :=
  {| id := None; x := None; y := None; text := None; fontSize := None;
     isEditing := None; type := None; originalText := None |}.
End Partial.

(** The update objects the component builds. *)
Definition upd_isEditing (b : bool) : Partial.t :=
  {| Partial.id := None; Partial.x := None; Partial.y := None;
     Partial.text := None; Partial.fontSize := None;
     Partial.isEditing := Some b; Partial.type := None;
     Partial.originalText := None |}.

Definition upd_text (value : string) : Partial.t :=
  {| Partial.id := None; Partial.x := None; Partial.y := None;
     Partial.text := Some value; Partial.fontSize := None;
     Partial.isEditing := None; Partial.type := None;
     Partial.originalText := None |}.

Definition upd_position (x y : float) : Partial.t :=
  {| Partial.id := None; Partial.x := Some x; Partial.y := Some y;
     Partial.text := None; Partial.fontSize := None;
     Partial.isEditing := None; Partial.type := None;
     Partial.originalText := None |}.

(** [{ ...ann, ...updates }]. *)
Definition assign (ann : TextAnnotation.t) (updates : Partial.t) : TextAnnotation.t :=
  {| TextAnnotation.id := default (TextAnnotation.id ann) (Partial.id updates);
     TextAnnotation.x := default (TextAnnotation.x ann) (Partial.x updates);
     TextAnnotation.y := default (TextAnnotation.y ann) (Partial.y updates);
     TextAnnotation.text := default (TextAnnotation.text ann) (Partial.text updates);
     TextAnnotation.fontSize := default (TextAnnotation.fontSize ann) (Partial.fontSize updates);
     TextAnnotation.isEditing := default (TextAnnotation.isEditing ann) (Partial.isEditing updates);
     TextAnnotation.type := default (TextAnnotation.type ann) (Partial.type updates);
     TextAnnotation.originalText :=
       default (TextAnnotation.originalText ann) (Partial.originalText updates) |}.

Module ExtractedText.
Record t := {
  id : string;
  text : string;
  x : float;
  y : float;
  width : float;
  height : float;
  fontSize : float;
  pageIndex : float
}.
End ExtractedText.

Inductive EditMode : Type := add | replace.

Module Point.
Record t := { x : float; y : float }.
End Point.

Record Props := { file : File.t; zoom : float }.

(** The state cells of the component, but for [fileUrl] and the constant
    [sidebarWidth], which no handler reads. *)
Record State := {
  textAnnotations : list TextAnnotation.t;
  extractedTexts : list ExtractedText.t;
  selectedAnnotation : option string;
  sidebarCollapsed : bool;
  dragging : option string;
  dragOffset : Point.t;
  editMode : EditMode;
  loading : bool;
  pdfScale : float;
  fullscreen : bool
}.

Definition initial : State :=
  {| textAnnotations := [];
     extractedTexts := [];
     selectedAnnotation := None;
     sidebarCollapsed := false;
     dragging := None;
     dragOffset := {| Point.x := 0; Point.y := 0 |};
     editMode := add;
     loading := false;
     pdfScale := 0.8;
     fullscreen := false |}.

(** The setters of the state cells. *)
Definition setTextAnnotations (v : list TextAnnotation.t) (st : State) : State :=
  {| textAnnotations := v; extractedTexts := extractedTexts st;
     selectedAnnotation := selectedAnnotation st;
     sidebarCollapsed := sidebarCollapsed st; dragging := dragging st;
     dragOffset := dragOffset st; editMode := editMode st;
     loading := loading st; pdfScale := pdfScale st;
     fullscreen := fullscreen st |}.

Definition setExtractedTexts (v : list ExtractedText.t) (st : State) : State :=
  {| textAnnotations := textAnnotations st; extractedTexts := v;
     selectedAnnotation := selectedAnnotation st;
     sidebarCollapsed := sidebarCollapsed st; dragging := dragging st;
     dragOffset := dragOffset st; editMode := editMode st;
     loading := loading st; pdfScale := pdfScale st;
     fullscreen := fullscreen st |}.

Definition setSelectedAnnotation (v : option string) (st : State) : State :=
  {| textAnnotations := textAnnotations st; extractedTexts := extractedTexts st;
     selectedAnnotation := v;
     sidebarCollapsed := sidebarCollapsed st; dragging := dragging st;
     dragOffset := dragOffset st; editMode := editMode st;
     loading := loading st; pdfScale := pdfScale st;
     fullscreen := fullscreen st |}.

Definition setSidebarCollapsed (v : bool) (st : State) : State :=
  {| textAnnotations := textAnnotations st; extractedTexts := extractedTexts st;
     selectedAnnotation := selectedAnnotation st;
     sidebarCollapsed := v; dragging := dragging st;
     dragOffset := dragOffset st; editMode := editMode st;
     loading := loading st; pdfScale := pdfScale st;
     fullscreen := fullscreen st |}.

Definition setDragging (v : option string) (st : State) : State :=
  {| textAnnotations := textAnnotations st; extractedTexts := extractedTexts st;
     selectedAnnotation := selectedAnnotation st;
     sidebarCollapsed := sidebarCollapsed st; dragging := v;
     dragOffset := dragOffset st; editMode := editMode st;
     loading := loading st; pdfScale := pdfScale st;
     fullscreen := fullscreen st |}.

Definition setDragOffset (v : Point.t) (st : State) : State :=
  {| textAnnotations := textAnnotations st; extractedTexts := extractedTexts st;
     selectedAnnotation := selectedAnnotation st;
     sidebarCollapsed := sidebarCollapsed st; dragging := dragging st;
     dragOffset := v; editMode := editMode st;
     loading := loading st; pdfScale := pdfScale st;
     fullscreen := fullscreen st |}.

Definition setEditMode (v : EditMode) (st : State) : State :=
  {| textAnnotations := textAnnotations st; extractedTexts := extractedTexts st;
     selectedAnnotation := selectedAnnotation st;
     sidebarCollapsed := sidebarCollapsed st; dragging := dragging st;
     dragOffset := dragOffset st; editMode := v;
     loading := loading st; pdfScale := pdfScale st;
     fullscreen := fullscreen st |}.

Definition setLoading (v : bool) (st : State) : State :=
  {| textAnnotations := textAnnotations st; extractedTexts := extractedTexts st;
     selectedAnnotation := selectedAnnotation st;
     sidebarCollapsed := sidebarCollapsed st; dragging := dragging st;
     dragOffset := dragOffset st; editMode := editMode st;
     loading := v; pdfScale := pdfScale st;
     fullscreen := fullscreen st |}.

Definition setPdfScale (v : float) (st : State) : State :=
  {| textAnnotations := textAnnotations st; extractedTexts := extractedTexts st;
     selectedAnnotation := selectedAnnotation st;
     sidebarCollapsed := sidebarCollapsed st; dragging := dragging st;
     dragOffset := dragOffset st; editMode := editMode st;
     loading := loading st; pdfScale := v;
     fullscreen := fullscreen st |}.

Definition setFullscreen (v : bool) (st : State) : State :=
  {| textAnnotations := textAnnotations st; extractedTexts := extractedTexts st;
     selectedAnnotation := selectedAnnotation st;
     sidebarCollapsed := sidebarCollapsed st; dragging := dragging st;
     dragOffset := dragOffset st; editMode := editMode st;
     loading := loading st; pdfScale := pdfScale st;
     fullscreen := v |}.

(** *** Placeholder texts *)

Definition demo (id text : string) (x y width height fontSize : float)
  : ExtractedText.t :=
  {| ExtractedText.id := id; ExtractedText.text := text;
     ExtractedText.x := x; ExtractedText.y := y;
     ExtractedText.width := width; ExtractedText.height := height;
     ExtractedText.fontSize := fontSize; ExtractedText.pageIndex := 0 |}.

Definition timeoutDemoTexts : list ExtractedText.t :=
  [ demo "timeout_demo_1" "Timeout Demo 1 (Click me!)" 100 100 170 20 14;
    demo "timeout_demo_2" "Timeout Demo 2 (Click me!)" 200 200 170 20 14;
    demo "timeout_demo_3" "Text extraction took too long" 300 300 200 20 12 ].

Definition demoTexts : list ExtractedText.t :=
  [ demo "demo_1" "Demo Text 1 (Click me!)" 100 100 150 20 14;
    demo "demo_2" "Demo Text 2 (Click me!)" 200 200 150 20 14;
    demo "demo_3" "Demo Text 3 (Click me!)" 300 300 150 20 14 ].

Definition errorDemoTexts : list ExtractedText.t :=
  [ demo "error_demo_1" "Error Demo (Click me!)" 150 150 180 25 16;
    demo "error_demo_2" "PDF parsing failed" 150 200 180 25 14 ].

Definition testTexts : list ExtractedText.t :=
  [ demo "test_1" "Test Text 1 (Click me!)" 120 120 160 22 14;
    demo "test_2" "Test Text 2 (Click me!)" 220 220 160 22 14 ].

(** *** Mouse events *)

Module DOMRect.
Record t := { left : float; top : float; width : float; height : float }.
End DOMRect.

(** A mouse event: the pointer position and the bounding rectangle of the
    element the handler is attached to. *)
Module MouseEvent.
Record t := { clientX : float; clientY : float; rect : DOMRect.t }.
End MouseEvent.

(** [updateAnnotation]. *)
Definition updateAnnotation (id : string) (updates : Partial.t) (st : State) : State :=
  setTextAnnotations
    (fmap (fun ann => if String.eqb (TextAnnotation.id ann) id
                     then assign ann updates else ann)
         (textAnnotations st)) st.

(** [deleteAnnotation]. *)
Definition deleteAnnotation (id : string) (st : State) : State :=
  setSelectedAnnotation None
    (setTextAnnotations
       (List.filter (fun ann => negb (String.eqb (TextAnnotation.id ann) id))
                    (textAnnotations st)) st).

(** The click position in page coordinates, as [handlePDFClick] computes
    it. *)
Definition click_position (props : Props) (event : MouseEvent.t) (st : State)
  : Point.t :=
  let rect := MouseEvent.rect event in
  let clickX := (MouseEvent.clientX event - DOMRect.left rect)%float in
  let clickY := (MouseEvent.clientY event - DOMRect.top rect)%float in
  let pdfWidth := (800 * zoom props * pdfScale st)%float in
  let pdfHeight := (1000 * zoom props * pdfScale st)%float in
  let containerWidth := DOMRect.width rect in
  let containerHeight := DOMRect.height rect in
  let pdfOffsetX := ((containerWidth - pdfWidth) / 2)%float in
  let pdfOffsetY := Math_max 80 ((containerHeight - pdfHeight) / 2)%float in
  {| Point.x := ((clickX - pdfOffsetX) / (zoom props * pdfScale st))%float;
     Point.y := ((clickY - pdfOffsetY) / (zoom props * pdfScale st))%float |}.

(** The test that makes [handlePDFClick] ignore a click. *)
Definition outside (p : Point.t) : bool :=
  (Point.x p <? 0)%float || (800 <? Point.x p)%float ||
  (Point.y p <? 0)%float || (1000 <? Point.y p)%float.

(** The hit test of replace mode. *)
Definition isInBounds (p : Point.t) (text : ExtractedText.t) : bool :=
  let margin := 25%float in
  (ExtractedText.x text - margin <=? Point.x p)%float &&
  (Point.x p <=? ExtractedText.x text + ExtractedText.width text + margin)%float &&
  (ExtractedText.y text - margin <=? Point.y p)%float &&
  (Point.y p <=? ExtractedText.y text + ExtractedText.height text + margin)%float.

(** [handlePDFClick]; [now] is what [Date.now()] returns during the call. *)
Definition handlePDFClick (now : N) (props : Props) (event : MouseEvent.t)
    (st : State) : State :=
  if truthy (dragging st) then st
  else
    let p := click_position props event st in
    if outside p then st
    else
      match editMode st with
      | add =>
          let newAnnotation :=
            {| TextAnnotation.id := toString now;
               TextAnnotation.x := Point.x p;
               TextAnnotation.y := Point.y p;
               TextAnnotation.text := "New text";
               TextAnnotation.fontSize := 14;
               TextAnnotation.isEditing := true;
               TextAnnotation.type := new;
               TextAnnotation.originalText := None |} in
          setSelectedAnnotation (Some (TextAnnotation.id newAnnotation))
            (setTextAnnotations (textAnnotations st ++ [newAnnotation]) st)
      | replace =>
          match List.find (isInBounds p) (extractedTexts st) with
          | Some clickedText =>
              match List.find (fun ann => String.eqb (TextAnnotation.id ann)
                                                     (ExtractedText.id clickedText))
                              (textAnnotations st) with
              | None =>
                  let newAnnotation :=
                    {| TextAnnotation.id := ExtractedText.id clickedText;
                       TextAnnotation.x := ExtractedText.x clickedText;
                       TextAnnotation.y := ExtractedText.y clickedText;
                       TextAnnotation.text := ExtractedText.text clickedText;
                       TextAnnotation.fontSize := ExtractedText.fontSize clickedText;
                       TextAnnotation.isEditing := true;
                       TextAnnotation.type := existing;
                       TextAnnotation.originalText := Some (ExtractedText.text clickedText) |} in
                  setSelectedAnnotation (Some (TextAnnotation.id newAnnotation))
                    (setTextAnnotations (textAnnotations st ++ [newAnnotation]) st)
              | Some existingAnnotation =>
                  setSelectedAnnotation (Some (TextAnnotation.id existingAnnotation))
                    (updateAnnotation (TextAnnotation.id existingAnnotation)
                                      (upd_isEditing true) st)
              end
          | None => st
          end
      end.

(** [handleMouseDown]. *)
Definition handleMouseDown (props : Props) (event : MouseEvent.t)
    (annotationId : string) (st : State) : State :=
  let st1 := setSelectedAnnotation (Some annotationId)
               (setDragging (Some annotationId) st) in
  let rect := MouseEvent.rect event in
  match List.find (fun ann => String.eqb (TextAnnotation.id ann) annotationId)
                  (textAnnotations st) with
  | Some annotation =>
      setDragOffset
        {| Point.x := (MouseEvent.clientX event - DOMRect.left rect
                       - TextAnnotation.x annotation * zoom props * pdfScale st)%float;
           Point.y := (MouseEvent.clientY event - DOMRect.top rect
                       - TextAnnotation.y annotation * zoom props * pdfScale st)%float |}
        st1
  | None => st1
  end.

(** The position of the pointer in page coordinates, as [handleMouseMove]
    computes it before clamping ([x] and [y] in the source). *)
Definition drag_target (props : Props) (event : MouseEvent.t) (st : State)
  : Point.t :=
  let rect := MouseEvent.rect event in
  let containerWidth := DOMRect.width rect in
  let containerHeight := DOMRect.height rect in
  let pdfWidth := (800 * zoom props * pdfScale st)%float in
  let pdfHeight := (1000 * zoom props * pdfScale st)%float in
  let pdfOffsetX := ((containerWidth - pdfWidth) / 2)%float in
  let pdfOffsetY := Math_max 80 ((containerHeight - pdfHeight) / 2)%float in
  let relativeX := (MouseEvent.clientX event - DOMRect.left rect - pdfOffsetX
                    - Point.x (dragOffset st))%float in
  let relativeY := (MouseEvent.clientY event - DOMRect.top rect - pdfOffsetY
                    - Point.y (dragOffset st))%float in
  {| Point.x := (relativeX / (zoom props * pdfScale st))%float;
     Point.y := (relativeY / (zoom props * pdfScale st))%float |}.

(** The position [handleMouseMove] gives the dragged annotation
    ([clampedX] and [clampedY]). *)
Definition drag_position (props : Props) (event : MouseEvent.t) (st : State)
  : Point.t :=
  let p := drag_target props event st in
  {| Point.x := Math_max 0 (Math_min 800 (Point.x p));
     Point.y := Math_max 0 (Math_min 1000 (Point.y p)) |}.

(** [handleMouseMove]. *)
Definition handleMouseMove (props : Props) (event : MouseEvent.t) (st : State)
  : State :=
  match dragging st with
  | Some id =>
      if truthy (dragging st) then
        let p := drag_position props event st in
        updateAnnotation id (upd_position (Point.x p) (Point.y p)) st
      else st
  | None => st
  end.

(** [handleMouseUp]. *)
Definition handleMouseUp (st : State) : State :=
  setDragOffset {| Point.x := 0; Point.y := 0 |} (setDragging None st).

(** *** Effectful handlers *)

(** The props, the state and the effects performed so far. *)
Record Store := { props : Props; state : State; effects : list effect }.

Definition emit (e : effect) : M Store unit :=
  modify (fun s => {| props := props s; state := state s;
                      effects := effects s ++ [e] |}).

Definition update (f : State -> State) : M Store unit :=
  modify (fun s => {| props := props s; state := f (state s);
                      effects := effects s |}).

(** [Math.max(a, b, c)]. *)
Definition Math_max3 (a b c : float) : float :=
  if is_nan a || is_nan b || is_nan c then nan
  else max_step (max_step (max_step neg_infinity a) b) c.

(** The callback of the second [textContent.items.forEach]: the fragment
    built from an item, if the item has text left after trimming. *)
Definition extract_item (viewport : Viewport.t) (index : nat) (item : TextItem.t)
  : option ExtractedText.t :=
  match TextItem.str item with
  | Some str =>
      let text := trim str in
      if decide (0 < utf16_length text) then
        let transform := default [12; 0; 0; 12; 0; 0]%float (TextItem.transform item) in
        let x := or_else (transform !! 4) 0 in
        let y := or_else (transform !! 5) 0 in
        let scaleX := or_else (Math_abs <$> transform !! 0) 12 in
        let scaleY := or_else (Math_abs <$> transform !! 3) 12 in
        let calculatedWidth :=
          or_else (TextItem.width item)
                  (Math_max (length_number text * scaleX * 0.7)%float 30) in
        let calculatedHeight := Math_max3 scaleY scaleX 12 in
        let adjustedY :=
          Math_max 0 (Viewport.height viewport - y - calculatedHeight)%float in
        Some {| ExtractedText.id := "extracted_1_" +:+ toString (N.of_nat index);
                ExtractedText.text := text;
                ExtractedText.x := Math_max 0 x;
                ExtractedText.y := adjustedY;
                ExtractedText.width := calculatedWidth;
                ExtractedText.height := calculatedHeight;
                ExtractedText.fontSize := Math_max scaleX 10;
                ExtractedText.pageIndex := 0 |}
      else None
  | None => None
  end.

(** [allTexts] after the loop over the items. *)
Definition extract_items (viewport : Viewport.t) (items : list TextItem.t)
  : list ExtractedText.t :=
  omap (fun o => o) (imap (extract_item viewport) items).

(** The body of the [try] block of [extractTextFromPDF].  The tracing calls
    of [console.log] are left out, and console messages are given without
    the pictograph they start with. *)
Definition extract_body (ext : External) : M Store unit :=
  let! s := read in
  update (setLoading true) ;;!
  let! arrayBuffer := await (file_arrayBuffer ext (file (props s))) in
  let! pdf := await (getDocument ext arrayBuffer) in
  let! page := await (getPage pdf 1) in
  let! textContent := await (getTextContent page) in
  (if decide (length textContent = 0)
   then emit (ConsoleWarn "No text items found in PDF") else ret tt) ;;!
  let viewport := PDFPageProxy.viewport page in
  let allTexts := extract_items viewport textContent in
  if decide (0 < length allTexts)
  then update (setExtractedTexts allTexts)
  else update (setExtractedTexts demoTexts).

(** [extractTextFromPDF]. *)
Definition extractTextFromPDF (ext : External) : M Store unit :=
  try_finally
    (try_catch
       (extract_body ext)
       (fun error =>
          emit (ConsoleError "PDF text extraction failed:") ;;!
          (if instanceof_Error error
           then emit (ConsoleError "Error details:")
           else emit (ConsoleError "Unknown error type:")) ;;!
          update (setExtractedTexts errorDemoTexts)))
    (update (setLoading false)).

(** The callback of the five-second timer started with the extraction. *)
Definition extraction_timeout : M Store unit :=
  emit (ConsoleWarn "PDF text extraction timeout, showing demo texts") ;;!
  update (setLoading false) ;;!
  update (setExtractedTexts timeoutDemoTexts).

(** The body of the [try] block of [saveAnnotations]. *)
Definition save_body (ext : External) : M Store unit :=
  let! s := read in
  let file := file (props s) in
  let textAnnotations := textAnnotations (state s) in
  let extractedTexts := extractedTexts (state s) in
  let! existingPdfBytes := await (file_arrayBuffer ext file) in
  let! pdfDoc := await (PDFDocument_load ext existingPdfBytes) in
  let! pdfDoc :=
    match getPages pdfDoc with
    | page :: rest =>
        let! page :=
          for_of (List.filter (fun ann => match TextAnnotation.type ann with
                                          | existing => true
                                          | new => false
                                          end) textAnnotations)
                 page
                 (fun page annotation =>
                    match List.find (fun t => String.eqb (ExtractedText.id t)
                                                         (TextAnnotation.id annotation))
                                    extractedTexts with
                    | Some extractedText =>
                        await (drawRectangle ext page
                                 (Rectangle
                                    (ExtractedText.x extractedText)
                                    (PDFPage.height page - ExtractedText.y extractedText
                                     - ExtractedText.height extractedText)%float
                                    (ExtractedText.width extractedText)
                                    (ExtractedText.height extractedText)))
                    | None => ret page
                    end) in
        let! page :=
          for_of textAnnotations page
                 (fun page annotation =>
                    await (drawText ext page
                             (Text (TextAnnotation.text annotation)
                                   (TextAnnotation.x annotation)
                                   (PDFPage.height page - TextAnnotation.y annotation - 20)%float
                                   (TextAnnotation.fontSize annotation)))) in
        ret (page :: rest)
    | [] => ret pdfDoc
    end in
  let! pdfBytes := await (save ext pdfDoc) in
  emit (Download ("edited_" +:+ File.name file) pdfBytes).

(** [saveAnnotations]. *)
Definition saveAnnotations (ext : External) : M Store unit :=
  try_catch
    (save_body ext)
    (fun err =>
       emit (ConsoleError "Failed to save PDF:") ;;!
       emit (Alert "Failed to save PDF. Please try again.")).

(** *** Events

    One constructor per handler the rendered elements are wired to. *)
Inductive Event : Type :=
  | PageClick (now : N) (e : MouseEvent.t)
  | PageMouseMove (e : MouseEvent.t)
  | PageMouseUp
  | BoxMouseDown (e : MouseEvent.t) (id : string)
  | BoxClick (id : string)
  | FieldChange (id : string) (value : string)
  | FieldBlur (id : string)
  | FieldKeyDown (id : string) (key : string)
  | TextDoubleClick (id : string)
  | SidebarEdit
  | SidebarDelete
  | SidebarSelect (id : string)
  | ModeToggle (newMode : option EditMode)
  | ScaleOut
  | ScaleIn
  | FullscreenToggle
  | SidebarToggle
  | ShowDemoTexts
  | SaveClick
  | ExtractionSettles
  | ExtractionTimeout
  | ZoomProp (z : float).

Definition on_state (f : State -> State) (s : Store) : Store :=
  {| props := props s; state := f (state s); effects := effects s |}.

Definition step (ext : External) (s : Store) (ev : Event) : Store :=
  match ev with
  | PageClick now e => on_state (handlePDFClick now (props s) e) s
  | PageMouseMove e => on_state (handleMouseMove (props s) e) s
  | PageMouseUp => on_state handleMouseUp s
  | BoxMouseDown e id => on_state (handleMouseDown (props s) e id) s
  | BoxClick id =>
      if truthy (dragging (state s)) then s
      else on_state (setSelectedAnnotation (Some id)) s
  | FieldChange id value => on_state (updateAnnotation id (upd_text value)) s
  | FieldBlur id => on_state (updateAnnotation id (upd_isEditing false)) s
  | FieldKeyDown id key =>
      if String.eqb key "Enter"
      then on_state (updateAnnotation id (upd_isEditing false)) s
      else s
  | TextDoubleClick id => on_state (updateAnnotation id (upd_isEditing true)) s
  | SidebarEdit =>
      match selectedAnnotation (state s) with
      | Some id =>
          if truthy (selectedAnnotation (state s))
          then on_state (updateAnnotation id (upd_isEditing true)) s
          else s
      | None => s
      end
  | SidebarDelete =>
      match selectedAnnotation (state s) with
      | Some id =>
          if truthy (selectedAnnotation (state s))
          then on_state (deleteAnnotation id) s
          else s
      | None => s
      end
  | SidebarSelect id => on_state (setSelectedAnnotation (Some id)) s
  | ModeToggle newMode =>
      match newMode with
      | Some m => on_state (setEditMode m) s
      | None => s
      end
  | ScaleOut =>
      on_state (fun st => setPdfScale (Math_max 0.3 (pdfScale st - 0.1)%float) st) s
  | ScaleIn =>
      on_state (fun st => setPdfScale (Math_min 2 (pdfScale st + 0.1)%float) st) s
  | FullscreenToggle => on_state (fun st => setFullscreen (negb (fullscreen st)) st) s
  | SidebarToggle =>
      on_state (fun st => setSidebarCollapsed (negb (sidebarCollapsed st)) st) s
  | ShowDemoTexts =>
      on_state (fun st => setExtractedTexts testTexts (setLoading false st)) s
  | SaveClick => snd (saveAnnotations ext s)
  | ExtractionSettles => snd (extractTextFromPDF ext s)
  | ExtractionTimeout => snd (extraction_timeout s)
  | ZoomProp z =>
      {| props := {| file := file (props s); zoom := z |};
         state := state s; effects := effects s |}
  end.

Definition run (ext : External) (s : Store) (evs : list Event) : Store :=
  foldl (step ext) s evs.

(** The store of a freshly mounted editor. *)
Definition mount (p : Props) : Store :=
  {| props := p; state := initial; effects := [] |}.

(** *** Predicates used by the properties *)

(** An annotation with its editing flag set and nothing else changed. *)
Definition marked_editing (ann : TextAnnotation.t) : TextAnnotation.t :=
  {| TextAnnotation.id := TextAnnotation.id ann;
     TextAnnotation.x := TextAnnotation.x ann;
     TextAnnotation.y := TextAnnotation.y ann;
     TextAnnotation.text := TextAnnotation.text ann;
     TextAnnotation.fontSize := TextAnnotation.fontSize ann;
     TextAnnotation.isEditing := true;
     TextAnnotation.type := TextAnnotation.type ann;
     TextAnnotation.originalText := TextAnnotation.originalText ann |}.

(** The ids of the annotations, in list order. *)
Definition ids (st : State) : list string :=
  TextAnnotation.id <$> textAnnotations st.

(** A computation that maintains a property of the component state. *)
Definition maintains (P : State -> Prop) {A} (m : M Store A) : Prop :=
  forall s, P (state s) -> P (state (snd (m s))).

(** The ids of the extracted fragments are not numerals, and no such id is
    carried by two annotations. *)
Definition fragments_ok (st : State) : Prop :=
  Forall (fun t => starts_with_digit (ExtractedText.id t) = false)
         (extractedTexts st) /\
  NoDup (base.filter (fun i => starts_with_digit i = false) (ids st)).

(** The annotations that carry the id [i]. *)
Definition carrying (i : string) (st : State) : list TextAnnotation.t :=
  List.filter (fun ann => String.eqb (TextAnnotation.id ann) i)
              (textAnnotations st).

(** The annotation being dragged stays on the page: after a mouse move, its
    [x] lies in [0, 800] and its [y] in [0, 1000]. *)
Definition drag_within_page (props : Props) (event : MouseEvent.t) (st : State)
  : Prop :=
  forall id ann,
    dragging st = Some id ->
    ann ∈ textAnnotations (handleMouseMove props event st) ->
    TextAnnotation.id ann = id ->
    between 0 800 (TextAnnotation.x ann) = true /\
    between 0 1000 (TextAnnotation.y ann) = true.

(** Every add-mode click of the run reads a clock value whose decimal
    form is not yet the id of an annotation. *)
Fixpoint clock_fresh (ext : External) (s : Store) (evs : list Event) : Prop :=
  match evs with
  | [] => True
  | ev :: rest =>
      match ev with
      | PageClick now _ =>
          editMode (state s) = add -> toString now ∉ ids (state s)
      | _ => True
      end /\ clock_fresh ext (step ext s ev) rest
  end.

End PDFEditor.

(** ** The file pickers of the application *)

Definition file_pickers : list Js.file_input :=
  [App.fileInput; PDFMerger.fileInput].

(** ** A small environment for the examples

    A toy document format stands in for the libraries: a file whose
    contents start with [%PDF] holds one page per following character,
    and anything else fails to parse. *)

Module Sample.
Import Js Lib.

Definition page_of (c : ascii) : PDFPage.t :=
  {| PDFPage.height := 1000; PDFPage.content := String c EmptyString;
     PDFPage.drawn := [] |}.

Definition parse (b : bytes) : completion PDFDocument :=
  match b with
  | String "%" (String "P" (String "D" (String "F" rest))) =>
      Normal (page_of <$> list_ascii_of_string rest)
  | _ => Throw (Error "Failed to parse PDF document")
  end.

Definition serialise (doc : PDFDocument) : bytes :=
  foldr (fun page out => PDFPage.content page +:+ out) EmptyString doc.

Definition draw (page : PDFPage.t) (op : DrawOp) : completion PDFPage.t :=
  Normal {| PDFPage.height := PDFPage.height page;
            PDFPage.content := PDFPage.content page;
            PDFPage.drawn := PDFPage.drawn page ++ [op] |}.

Definition item (s : string) (x y : float) : TextItem.t :=
  {| TextItem.str := Some s;
     TextItem.transform := Some [12; 0; 0; 12; x; y]%float;
     TextItem.width := Some 60%float;
     TextItem.height := Some 12%float |}.

Definition text_layer (b : bytes) : completion PDFDocumentProxy :=
  match parse b with
  | Normal _ =>
      Normal [ {| PDFPageProxy.items := Normal [item "Hello" 100 800; item "  " 0 0;
                                                item "World" 300 600];
                  PDFPageProxy.viewport := {| Viewport.width := 800;
                                              Viewport.height := 1000 |} |} ]
  | Throw e => Throw e
  end.

Definition ext : External :=
  {| file_arrayBuffer := fun f => Normal (File.data f);
     PDFDocument_create := Normal [];
     PDFDocument_load := parse;
     copyPages := fun _ src indices =>
                    match mapM (fun i => src !! i) indices with
                    | Some pages => Normal pages
                    | None => Throw (Error "Invalid page index")
                    end;
     save := fun doc => Normal (serialise doc);
     drawRectangle := draw;
     drawText := draw;
     getDocument := text_layer |}.

Definition first_pdf : File.t :=
  {| File.name := "a.pdf"; File.type := "application/pdf"; File.data := "%PDFab" |}.

Definition second_pdf : File.t :=
  {| File.name := "b.pdf"; File.type := "application/pdf"; File.data := "%PDFc" |}.

Definition notes : File.t :=
  {| File.name := "notes.txt"; File.type := "text/plain"; File.data := "hello" |}.

(** The clock and the random generator during one file pick. *)
Definition entropy : PDFMerger.Entropy :=
  {| PDFMerger.Date_now := fun _ => 1700000000000%N;
     PDFMerger.Math_random_toString :=
       fun i => "0." +:+ toString (N.of_nat (S i)) |}.

(** A merge list of three files. *)
Definition three_files : PDFMerger.State :=
  PDFMerger.handleAddFiles entropy (Some [second_pdf; notes])
    (PDFMerger.initial first_pdf).

(** A merge list of two documents. *)
Definition two_files : PDFMerger.State :=
  PDFMerger.handleAddFiles entropy (Some [second_pdf])
    (PDFMerger.initial first_pdf).

(** A session in the merger: two files are added, the list is reordered,
    and every delete button is tried. *)
Definition merger_session : list PDFMerger.UserEvent :=
  [ PDFMerger.PickFiles entropy (Some [second_pdf; notes]);
    PDFMerger.Click (PDFMerger.UpOf 2) 1700000000001%N;
    PDFMerger.Click (PDFMerger.DownOf 0) 1700000000002%N;
    PDFMerger.Click (PDFMerger.DeleteOf 0) 1700000000003%N;
    PDFMerger.Click (PDFMerger.DeleteOf 0) 1700000000004%N;
    PDFMerger.Click (PDFMerger.DeleteOf 0) 1700000000005%N;
    PDFMerger.Click PDFMerger.TheMergeButton 1700000000006%N ].

(** The page element fills an 800 by 1000 rectangle at the origin. *)
Definition page_rect : PDFEditor.DOMRect.t :=
  {| PDFEditor.DOMRect.left := 0; PDFEditor.DOMRect.top := 0;
     PDFEditor.DOMRect.width := 800; PDFEditor.DOMRect.height := 1000 |}.

Definition mouse (x y : float) : PDFEditor.MouseEvent.t :=
  {| PDFEditor.MouseEvent.clientX := x; PDFEditor.MouseEvent.clientY := y;
     PDFEditor.MouseEvent.rect := page_rect |}.

Definition props : PDFEditor.Props :=
  {| PDFEditor.file := first_pdf; PDFEditor.zoom := 1 |}.

(** The rectangle of the annotation box placed by a click at (240, 260),
    and a press of the mouse button inside it. *)
Definition box_rect : PDFEditor.DOMRect.t :=
  {| PDFEditor.DOMRect.left := 240; PDFEditor.DOMRect.top := 260;
     PDFEditor.DOMRect.width := 150; PDFEditor.DOMRect.height := 30 |}.

Definition grab : PDFEditor.MouseEvent.t :=
  {| PDFEditor.MouseEvent.clientX := 245; PDFEditor.MouseEvent.clientY := 265;
     PDFEditor.MouseEvent.rect := box_rect |}.

(** An annotation is added and grabbed. *)
Definition drag_session : list PDFEditor.Event :=
  [ PDFEditor.PageClick 17 (mouse 240 260);
    PDFEditor.BoxMouseDown grab "17" ].

Definition dragging_store : PDFEditor.Store :=
  PDFEditor.run ext (PDFEditor.mount props) drag_session.


(** The zoom factor of the shell after 4000 clicks on its zoom-in button. *)
Definition endless_zoom : float :=
  App.zoom (Nat.iter 4000 App.zoomIn App.initial).

(** The same drag with the shell zoomed in that far. *)
Definition zoomed_drag_session : list PDFEditor.Event :=
  [ PDFEditor.PageClick 17 (mouse 240 260);
    PDFEditor.ZoomProp endless_zoom;
    PDFEditor.BoxMouseDown grab "17" ].

Definition zoomed_store : PDFEditor.Store :=
  PDFEditor.run ext (PDFEditor.mount props) zoomed_drag_session.

Definition after_zoomed_move : list PDFEditor.TextAnnotation.t :=
  PDFEditor.textAnnotations
    (PDFEditor.handleMouseMove (PDFEditor.props zoomed_store)
       (mouse 250 270) (PDFEditor.state zoomed_store)).

(** An annotation to fall back on where a list could be empty. *)
Definition no_annotation : PDFEditor.TextAnnotation.t :=
  {| PDFEditor.TextAnnotation.id := EmptyString;
     PDFEditor.TextAnnotation.x := 0; PDFEditor.TextAnnotation.y := 0;
     PDFEditor.TextAnnotation.text := EmptyString;
     PDFEditor.TextAnnotation.fontSize := 0;
     PDFEditor.TextAnnotation.isEditing := false;
     PDFEditor.TextAnnotation.type := PDFEditor.new;
     PDFEditor.TextAnnotation.originalText := None |}.

(** The text layer is extracted, replace mode is chosen and the fragment
    "Hello" is clicked: it now has an annotation. *)
Definition annotated_store : PDFEditor.Store :=
  PDFEditor.run ext (PDFEditor.mount props)
    [ PDFEditor.ExtractionSettles;
      PDFEditor.ModeToggle (Some PDFEditor.replace);
      PDFEditor.PageClick 1700000000000 (mouse 180 250);
      PDFEditor.FieldBlur "extracted_1_0" ].

Definition no_fragment : PDFEditor.ExtractedText.t :=
  PDFEditor.demo EmptyString EmptyString 0 0 0 0 0.

(** Two clicks in add mode for which the clock reads the same
    millisecond. *)
Definition same_millisecond : list PDFEditor.Event :=
  [ PDFEditor.PageClick 1700000000000 (mouse 240 260);
    PDFEditor.PageClick 1700000000000 (mouse 500 600) ].


Definition notes_merger : PDFMerger.Store :=
  {| PDFMerger.state := three_files; PDFMerger.effects := [] |}.

(** A file that is named and typed as a PDF document and does not parse. *)
Definition broken_pdf : File.t :=
  {| File.name := "broken.pdf"; File.type := "application/pdf";
     File.data := "oops" |}.

(** A merger opened on [first_pdf]. *)
Definition opened_merger : PDFMerger.Store :=
  {| PDFMerger.state := PDFMerger.initial first_pdf; PDFMerger.effects := [] |}.

(** A document and the broken file have been added in the merger. *)
Definition with_broken_file : PDFMerger.Store :=
  PDFMerger.run ext opened_merger
    [ PDFMerger.PickFiles entropy (Some [second_pdf; broken_pdf]) ].

(** The clock and the random generator answer the same for every file of
    one pick. *)
Definition stuck_entropy : PDFMerger.Entropy :=
  {| PDFMerger.Date_now := fun _ => 1700000000000%N;
     PDFMerger.Math_random_toString := fun _ => "0.5" |}.

(** Two files have been added while the clock and the generator were
    stuck. *)
Definition with_twin_ids : PDFMerger.Store :=
  PDFMerger.run ext opened_merger
    [ PDFMerger.PickFiles stuck_entropy (Some [second_pdf; broken_pdf]) ].

(** The delete button of the first row is clicked, once and twice. *)
Definition after_one_delete : PDFMerger.Store :=
  PDFMerger.step ext with_twin_ids
    (PDFMerger.Click (PDFMerger.DeleteOf 0) 1700000000001%N).

Definition after_two_deletes : PDFMerger.Store :=
  PDFMerger.step ext after_one_delete
    (PDFMerger.Click (PDFMerger.DeleteOf 0) 1700000000002%N).

(** The control a click on the delete button of the first row reaches in
    a state of the merger, if the button is there and enabled. *)
Definition first_delete (s : PDFMerger.Store) : option PDFMerger.Action :=
  match PDFMerger.render (PDFMerger.state s) with
  | Normal v => PDFMerger.control v (PDFMerger.DeleteOf 0) ≫= PDFMerger.click
  | Throw _ => None
  end.

End Sample.

(** ** The shell's events

    The toolbar of [App]: the upload input is always there, the zoom and
    mode buttons are rendered only while a file is loaded. *)

Module Shell.
Import Js App.

(** What [App] renders below the toolbar. *)
Inductive Content : Type :=
  | UploadPrompt
  | ShowViewer (file : File.t) (zoom : float)
  | ShowEditor (file : File.t) (zoom : float)
  | ShowMerger (primaryFile : File.t).

Definition content (st : State) : Content :=
  match pdfFile st with
  | None => UploadPrompt
  | Some file =>
      match mode st with
      | view => ShowViewer file (zoom st)
      | edit => ShowEditor file (zoom st)
      | merge => ShowMerger file
      end
  end.

(** [pdfFile && (...)]: the zoom and mode buttons are in the toolbar. *)
Definition controls_shown (st : State) : bool :=
  match pdfFile st with
  | Some _ => true
  | None => false
  end.

Inductive Event : Type :=
  | FilesChosen (files : option (list File.t))
  | ZoomInClick
  | ZoomOutClick
  | ModeClick (m : Mode).

Definition step (st : State) (ev : Event) : State :=
  match ev with
  | FilesChosen files => handleFileUpload files st
  | ZoomInClick => if controls_shown st then zoomIn st else st
  | ZoomOutClick => if controls_shown st then zoomOut st else st
  | ModeClick m => if controls_shown st then setMode m st else st
  end.

Definition run (st : State) (evs : list Event) : State := foldl step st evs.

End Shell.

(** ** The viewer (PDFViewer) *)

Module PDFViewer.
Import Js.

Record Props := { file : File.t; zoom : float }.

Record State := {
  fileUrl : option string;
  loading : bool;
  error : option string
}.

Definition initial : State :=
  {| fileUrl := None; loading := true; error := None |}.

Definition setFileUrl (v : option string) (st : State) : State :=
  {| fileUrl := v; loading := loading st; error := error st |}.

Definition setLoading (v : bool) (st : State) : State :=
  {| fileUrl := fileUrl st; loading := v; error := error st |}.

Definition setError (v : option string) (st : State) : State :=
  {| fileUrl := fileUrl st; loading := loading st; error := v |}.

Record Store := { state : State; effects : list effect }.

Definition emit (e : effect) : M Store unit :=
  modify (fun s => {| state := state s; effects := effects s ++ [e] |}).

Definition update (f : State -> State) : M Store unit :=
  modify (fun s => {| state := f (state s); effects := effects s |}).

(** The effect that runs when the component receives its file;
    [createObjectURL] is [URL.createObjectURL], which may throw. *)
Definition on_file (createObjectURL : File.t -> completion string)
    (props : Props) : M Store unit :=
  try_catch
    (let! url := await (createObjectURL (file props)) in
     update (setFileUrl (Some url)) ;;!
     update (setLoading false))
    (fun err =>
       emit (ConsoleError "Error creating object URL:") ;;!
       update (setError (Some "Failed to load PDF file")) ;;!
       update (setLoading false)).

(** What the component returns. *)
Inductive View : Type :=
  | Spinner
  | ErrorText (msg : string)
  | NoFileText
  | Frame (src : string) (scale : float).

Definition render (props : Props) (st : State) : View :=
  if loading st then Spinner
  else if truthy (error st) then ErrorText (default EmptyString (error st))
  else if negb (truthy (fileUrl st)) then NoFileText
  else Frame (default EmptyString (fileUrl st)) (zoom props).

Definition mount : Store := {| state := initial; effects := [] |}.

End PDFViewer.

(** ** Further predicates on the editor *)

Module OnPage.
Import Js PDFEditor.

(** A coordinate that is [NaN] or lies between [0] and [hi]. *)
Definition within (hi x : float) : bool := is_nan x || between 0 hi x.

(** An annotation placed on the 800 by 1000 page (or nowhere, at [NaN]). *)
Definition placed (ann : TextAnnotation.t) : bool :=
  within 800 (TextAnnotation.x ann) && within 1000 (TextAnnotation.y ann).

(** The annotations the user added by a click are placed on the page. *)
Definition added_on_page (st : State) : Prop :=
  Forall (fun ann => TextAnnotation.type ann = new -> placed ann = true)
         (textAnnotations st).

(** The ids of the extracted fragments, in list order. *)
Definition fragment_ids (st : State) : list string :=
  ExtractedText.id <$> extractedTexts st.

End OnPage.

(** ** The scale buttons of the editor *)

Module Scale.
Import Js.

(** What the two buttons compute from the current scale. *)
Definition out (v : float) : float := Math_max 0.3 (v - 0.1)%float.
Definition in_ (v : float) : float := Math_min 2 (v + 0.1)%float.

Definition mem (v : float) (l : list float) : bool :=
  existsb (PrimFloat.Leibniz.eqb v) l.

Definition add (l : list float) (v : float) : list float :=
  if mem v l then l else l ++ [v].

(** The scales reached from those of [l] by at most [n] clicks. *)
Fixpoint reach (n : nat) (l : list float) : list float :=
  match n with
  | 0 => l
  | S n => reach n (foldl add l (flat_map (fun v => [out v; in_ v]) l))
  end.

(** The scales the buttons reach from the initial scale. *)
Definition values : list float :=
  Eval vm_compute in reach 40 [PDFEditor.pdfScale PDFEditor.initial].

Definition closed (l : list float) : bool :=
  forallb (fun v => mem (out v) l && mem (in_ v) l) l.

End Scale.

(** ** Events of the pointer *)

Module Pointer.
Import PDFEditor.

(** The events a pointer fires between pressing the button on a box and
    releasing it. *)
Definition moves_or_clicks (ev : Event) : bool :=
  match ev with
  | PageClick _ _ | PageMouseMove _ | BoxClick _ => true
  | _ => false
  end.

End Pointer.

(** ** What saving draws *)

Module Saved.
Import Js Lib PDFEditor.

(** The page with one more drawing on it. *)
Definition with_op (page : PDFPage.t) (op : DrawOp) : PDFPage.t :=
  {| PDFPage.height := PDFPage.height page;
     PDFPage.content := PDFPage.content page;
     PDFPage.drawn := PDFPage.drawn page ++ [op] |}.

(** The drawing calls succeed and add what they are asked to draw. *)
Definition draws (ext : External) : Prop :=
  forall page op,
    drawRectangle ext page op = Normal (with_op page op) /\
    drawText ext page op = Normal (with_op page op).

(** The rectangle that hides the fragment an annotation replaces. *)
Definition cover (pageHeight : float) (extractedTexts : list ExtractedText.t)
    (ann : TextAnnotation.t) : option DrawOp :=
  match TextAnnotation.type ann with
  | existing =>
      match List.find (fun t => String.eqb (ExtractedText.id t) (TextAnnotation.id ann))
                      extractedTexts with
      | Some t =>
          Some (Rectangle (ExtractedText.x t)
                          (pageHeight - ExtractedText.y t - ExtractedText.height t)%float
                          (ExtractedText.width t) (ExtractedText.height t))
      | None => None
      end
  | new => None
  end.

(** The text drawn for an annotation. *)
Definition caption (pageHeight : float) (ann : TextAnnotation.t) : DrawOp :=
  Text (TextAnnotation.text ann) (TextAnnotation.x ann)
       (pageHeight - TextAnnotation.y ann - 20)%float
       (TextAnnotation.fontSize ann).

(** All the drawings of one save, in order. *)
Definition drawings (pageHeight : float) (st : State) : list DrawOp :=
  omap (cover pageHeight (extractedTexts st)) (textAnnotations st) ++
  (caption pageHeight <$> textAnnotations st).

(** The document that is saved: the drawings go on the first page. *)
Definition edited (doc : PDFDocument) (st : State) : PDFDocument :=
  match doc with
  | page :: rest =>
      foldl with_op page (drawings (PDFPage.height page) st) :: rest
  | [] => []
  end.

End Saved.

(** * Properties *)

(** ** Arrays *)

Section ArrayFacts.
Import Js.
Context {A : Type}.
Implicit Types (arr : array A) (s : slot A).

Lemma spread_length arr : length (spread arr) = length arr.
Proof. unfold spread. apply length_fmap. Qed.

Lemma elems_spread arr : elems (spread arr) = elems arr.
Proof.
  unfold elems, spread.
  induction arr as [|[a| |] arr IH]; simpl;
    [reflexivity | f_equal; exact IH | exact IH | exact IH].
Qed.

Lemma spread_dense arr : dense arr -> spread arr = arr.
Proof.
  unfold dense, spread.
  induction 1 as [|[a| |] arr Hs _ IH]; simpl;
    [reflexivity | f_equal; exact IH | tauto | tauto].
Qed.

Lemma to_slot_get_spread arr i s :
  spread arr !! i = Some s -> to_slot (get (spread arr) i) = s.
Proof.
  unfold get, spread. rewrite list_lookup_fmap.
  destruct (arr !! i) as [[a| |]|]; simpl; intros [= <-]; reflexivity.
Qed.

Lemma set_in_range arr i v :
  i < length arr -> set arr i v = <[i := to_slot v]> arr.
Proof. intros Hi. unfold set. destruct (decide _); [reflexivity | lia]. Qed.

(** Exchanging two neighbours of a list rearranges it. *)
Lemma swap_adjacent_Permutation (l : list (slot A)) i a b :
  l !! i = Some a -> l !! S i = Some b ->
  <[S i := a]> (<[i := b]> l) ≡ₚ l.
Proof.
  revert i. induction l as [|x l IH]; intros [|i] Ha Hb; simpl in *; try discriminate.
  - destruct l as [|y l]; simpl in *; [discriminate|].
    injection Ha as ->. injection Hb as ->. apply perm_swap.
  - constructor. apply IH; assumption.
Qed.

(** The destructuring swap of positions [i] and [i + 1] of a copy, both in
    range: the same slots in another order. *)
Lemma swap_slots arr i :
  S i < length arr ->
  let l := spread arr in
  set (set l i (get l (S i))) (S i) (get l i) ≡ₚ l.
Proof.
  intros Hi l.
  assert (Hl : length l = length arr) by apply spread_length.
  destruct (lookup_lt_is_Some_2 l i) as [a Ha]; [lia|].
  destruct (lookup_lt_is_Some_2 l (S i)) as [b Hb]; [lia|].
  rewrite (set_in_range l i) by lia.
  rewrite set_in_range by (rewrite length_insert; lia).
  subst l. rewrite (to_slot_get_spread _ _ _ Ha), (to_slot_get_spread _ _ _ Hb).
  apply swap_adjacent_Permutation; assumption.
Qed.

End ArrayFacts.

(** ** The shell *)

Section ShellProperties.
Import Js App.

(** C4. A chosen file whose MIME type is not [application/pdf] leaves the
    state of the shell (loaded file, mode, zoom) as it was, and every file
    input of the application, the merger's included, accepts [.pdf] only. *)
Theorem non_pdf_upload_is_rejected :
  (forall (file : File.t) (others : list File.t) (st : State),
      File.type file <> "application/pdf" ->
      handleFileUpload (Some (file :: others)) st = st) /\
  Forall (fun input => accept input = ".pdf") file_pickers.
Proof.
  split.
  - intros file others st Htype. unfold handleFileUpload. simpl.
    destruct (String.eqb_spec (File.type file) "application/pdf") as [Heq|Hne];
      [contradiction | reflexivity].
  - repeat constructor.
Qed.

Lemma non_pdf_upload_is_rejected_witness :
  handleFileUpload (Some [Sample.notes]) initial = initial.
Proof.
  apply (proj1 non_pdf_upload_is_rejected). vm_compute. discriminate.
Defined.

(** A file input without files changes nothing either. *)
Lemma upload_without_file st :
  handleFileUpload None st = st /\ handleFileUpload (Some []) st = st.
Proof. split; reflexivity. Qed.

End ShellProperties.

(** ** The merger *)

Section MergerProperties.
Import Js Lib PDFMerger.

Lemma moveFileUp_slots st index :
  index < length (pdfFiles st) ->
  pdfFiles (moveFileUp index st) ≡ₚ spread (pdfFiles st) \/
  moveFileUp index st = st.
Proof.
  intros Hi. unfold moveFileUp. destruct (decide (0 < index)) as [Hpos|]; [|by right].
  left. destruct index as [|i]; [lia|]. cbn [pdfFiles setPdfFiles].
  replace (S i - 1) with i by lia. apply swap_slots. exact Hi.
Qed.

Lemma moveFileDown_slots st index :
  pdfFiles (moveFileDown index st) ≡ₚ spread (pdfFiles st) \/
  moveFileDown index st = st.
Proof.
  unfold moveFileDown. destruct (decide _) as [Hlt|]; [|by right].
  left. cbn [pdfFiles setPdfFiles]. replace (index + 1) with (S index) by lia.
  apply swap_slots. lia.
Qed.

Lemma elems_Permutation (a b : array PDFFile.t) : a ≡ₚ b -> elems a ≡ₚ elems b.
Proof. intros H. unfold elems. apply omap_Permutation. exact H. Qed.

(** C7. For a valid index, moving a file up or down keeps the entries of
    the list: the files after the move are a rearrangement of the files
    before it, and the list keeps its length. *)
Theorem reordering_preserves_entries :
  forall (st : State) (index : nat),
    index < length (pdfFiles st) ->
    (elems (pdfFiles (moveFileUp index st)) ≡ₚ elems (pdfFiles st) /\
     length (pdfFiles (moveFileUp index st)) = length (pdfFiles st)) /\
    (elems (pdfFiles (moveFileDown index st)) ≡ₚ elems (pdfFiles st) /\
     length (pdfFiles (moveFileDown index st)) = length (pdfFiles st)).
Proof.
  intros st index Hi. split.
  - destruct (moveFileUp_slots st index Hi) as [Hp | ->]; [|done].
    split.
    + rewrite (elems_Permutation _ _ Hp). by rewrite elems_spread.
    + rewrite (Permutation_length Hp). apply spread_length.
  - destruct (moveFileDown_slots st index) as [Hp | ->]; [|done].
    split.
    + rewrite (elems_Permutation _ _ Hp). by rewrite elems_spread.
    + rewrite (Permutation_length Hp). apply spread_length.
Qed.

Lemma reordering_preserves_entries_witness :
  (elems (pdfFiles (moveFileUp 1 Sample.three_files))
     ≡ₚ elems (pdfFiles Sample.three_files) /\
   length (pdfFiles (moveFileUp 1 Sample.three_files))
     = length (pdfFiles Sample.three_files)) /\
  (elems (pdfFiles (moveFileDown 1 Sample.three_files))
     ≡ₚ elems (pdfFiles Sample.three_files) /\
   length (pdfFiles (moveFileDown 1 Sample.three_files))
     = length (pdfFiles Sample.three_files)).
Proof. apply reordering_preserves_entries. vm_compute. lia. Defined.

(** [handleAddFiles] itself looks at no file type: a file that is not a
    PDF document joins the list when the picker lets it through. *)
Example handleAddFiles_takes_any_file :
  PDFFile.file <$> elems (pdfFiles Sample.three_files) =
  [Sample.first_pdf; Sample.second_pdf; Sample.notes].
Proof. reflexivity. Qed.

(** Out of range, [moveFileUp] grows the array instead. *)
Example moveFileUp_past_the_end :
  pdfFiles (moveFileUp 3 (initial Sample.first_pdf)) =
  pdfFiles (initial Sample.first_pdf) ++ [Hole; Undefined; Undefined].
Proof. reflexivity. Qed.

(** C6. With at most one file in the list the merge button is rendered
    disabled, a click on it reaches no handler, and the click event leaves
    the store (state and effects) as it was: [mergePDFs] does not run. *)
Theorem merge_disabled_below_two_files :
  forall (ext : External) (s : Store) (now : N),
    length (pdfFiles (state s)) <= 1 ->
    (forall v, render (state s) = Normal v ->
               disabled (mergeButton v) = true /\ click (mergeButton v) = None) /\
    step ext s (Click TheMergeButton now) = s.
Proof.
  intros ext s now Hlen.
  assert (Hv : forall v, render (state s) = Normal v ->
                         disabled (mergeButton v) = true /\ click (mergeButton v) = None).
  { intros v. unfold render. destruct (render_rows _ _ _) as [rs|e]; [|discriminate].
    intros [= <-]. unfold click. cbn [mergeButton disabled].
    rewrite bool_decide_eq_true_2 by lia. split; reflexivity. }
  split; [exact Hv|].
  unfold step. destruct (render (state s)) as [v|e] eqn:Hr; [|reflexivity].
  cbn [control mbind option_bind]. rewrite (proj2 (Hv v eq_refl)). reflexivity.
Qed.

Lemma merge_disabled_below_two_files_witness :
  let s := {| state := initial Sample.first_pdf; effects := [] |} in
  (forall v, render (state s) = Normal v ->
             disabled (mergeButton v) = true /\ click (mergeButton v) = None) /\
  step Sample.ext s (Click TheMergeButton 1700000000000%N) = s.
Proof.
  intros s. apply merge_disabled_below_two_files. vm_compute. lia.
Defined.

(** *** Merging *)

Lemma foldl_addPage (doc : PDFDocument) (pages : list PDFPage.t) :
  foldl addPage doc pages = doc ++ pages.
Proof.
  revert doc. induction pages as [|p pages IH]; intros doc; simpl.
  - by rewrite app_nil_r.
  - rewrite IH. unfold addPage. by rewrite <- app_assoc.
Qed.

(** The loop of [mergePDFs] over files that all parse: the pages of each
    file are appended in list order, and the store is left alone. *)
Lemma merge_loop_appends ext (files : list PDFFile.t) (docs : list PDFDocument) :
  (forall dst src, copyPages ext dst src (getPageIndices src) = Normal src) ->
  Forall2 (fun f d => pages_of ext (PDFFile.file f) = Normal d) files docs ->
  forall (mergedPdf : PDFDocument) (s : Store),
    for_of (values (Elem <$> files)) mergedPdf
      (fun mergedPdf pdfFile =>
         match pdfFile with
         | None => await (Throw TypeError)
         | Some pdfFile =>
             let! arrayBuffer := await (file_arrayBuffer ext (PDFFile.file pdfFile)) in
             let! pdf := await (PDFDocument_load ext arrayBuffer) in
             let! pages := await (copyPages ext mergedPdf pdf (getPageIndices pdf)) in
             ret (foldl addPage mergedPdf pages)
         end) s
    = (Normal (mergedPdf ++ concat docs), s).
Proof.
  intros Hcopy Hall. induction Hall as [|f d files docs Hf _ IH]; intros mergedPdf s.
  - simpl. unfold ret. by rewrite app_nil_r.
  - cbn [fmap list_fmap values for_of]. unfold bind at 1. unfold bind at 1.
    unfold await at 1. unfold pages_of in Hf.
    destruct (file_arrayBuffer ext (PDFFile.file f)) as [buf|e]; [|discriminate].
    unfold bind at 1. unfold await at 1. rewrite Hf.
    unfold bind at 1. unfold await at 1. rewrite Hcopy. unfold ret at 1.
    rewrite foldl_addPage. fold (values (Elem <$> files)). rewrite IH.
    cbn [concat]. by rewrite app_assoc.
Qed.

(** C1 (amended). When the library creates an empty document and copies
    pages faithfully, every listed file is read and parsed, and the
    serialiser succeeds, merging hands the serialiser one document whose
    pages are the pages of the listed files, concatenated in list order,
    and then downloads the result under the name [merged_<clock>.pdf]; the
    handler returns normally and leaves the list as it was. *)
Theorem merge_concatenates_in_list_order :
  forall (ext : External) (now : N) (s : Store)
         (files : list PDFFile.t) (docs : list PDFDocument) (out : bytes),
    faithful ext ->
    pdfFiles (state s) = Elem <$> files ->
    Forall2 (fun f d => pages_of ext (PDFFile.file f) = Normal d) files docs ->
    save ext (concat docs) = Normal out ->
    mergePDFs ext now s =
      (Normal tt,
       {| state := setMerging false (state s);
          effects := effects s ++
                     [Download ("merged_" +:+ toString now +:+ ".pdf") out] |}).
Proof.
  intros ext now s files docs out [Hcreate Hcopy] Hfiles Hdocs Hsave.
  unfold mergePDFs, bind at 1, read, try_finally, try_catch, merge_body.
  unfold bind at 1. unfold update at 1, modify at 1.
  unfold bind at 1. unfold await at 1. rewrite Hcreate.
  unfold bind at 1. rewrite Hfiles.
  rewrite (merge_loop_appends ext files docs Hcopy Hdocs).
  cbn [app]. unfold bind at 1. unfold await at 1. rewrite Hsave.
  unfold emit, update, modify. cbn. reflexivity.
Qed.

(** *** Handlers keep the list unless they set it *)

Lemma keeps_ret {A} (a : A) : keeps_files (ret a).
Proof. intros s. reflexivity. Qed.

Lemma keeps_await {A} (r : completion A) : keeps_files (await r).
Proof. intros s. reflexivity. Qed.

Lemma keeps_read : keeps_files (@read Store).
Proof. intros s. reflexivity. Qed.

Lemma keeps_emit e : keeps_files (emit e).
Proof. intros s. reflexivity. Qed.

Lemma keeps_setMerging b : keeps_files (update (setMerging b)).
Proof. intros s. reflexivity. Qed.

Lemma keeps_bind {A B} (m : M Store A) (k : A -> M Store B) :
  keeps_files m -> (forall a, keeps_files (k a)) -> keeps_files (bind m k).
Proof.
  intros Hm Hk s. unfold bind. specialize (Hm s).
  destruct (m s) as [[a|e] s1]; simpl in *; [|exact Hm].
  rewrite (Hk a s1). exact Hm.
Qed.

Lemma keeps_try_catch {A} (m : M Store A) (h : exn -> M Store A) :
  keeps_files m -> (forall e, keeps_files (h e)) -> keeps_files (try_catch m h).
Proof.
  intros Hm Hh s. unfold try_catch. specialize (Hm s).
  destruct (m s) as [[a|e] s1]; simpl in *; [exact Hm|].
  rewrite (Hh e s1). exact Hm.
Qed.

Lemma keeps_try_finally {A} (m : M Store A) (f : M Store unit) :
  keeps_files m -> keeps_files f -> keeps_files (try_finally m f).
Proof.
  intros Hm Hf s. unfold try_finally. specialize (Hm s).
  destruct (m s) as [r s1]. specialize (Hf s1).
  destruct (f s1) as [[u|e] s2]; simpl in *; congruence.
Qed.

Lemma keeps_for_of {A B} (xs : list A) (acc : B) (body : B -> A -> M Store B) :
  (forall acc x, keeps_files (body acc x)) -> keeps_files (for_of xs acc body).
Proof.
  intros Hb. revert acc. induction xs as [|x xs IH]; intros acc; simpl.
  - apply keeps_ret.
  - apply keeps_bind; [apply Hb | intros acc'; apply IH].
Qed.

Lemma mergePDFs_keeps_files ext now : keeps_files (mergePDFs ext now).
Proof.
  unfold mergePDFs. apply keeps_bind; [apply keeps_read|]. intros s.
  apply keeps_try_finally; [|apply keeps_setMerging].
  apply keeps_try_catch.
  - unfold merge_body.
    repeat first
      [ apply keeps_bind; [|intros ?]
      | apply keeps_setMerging | apply keeps_await | apply keeps_emit
      | apply keeps_ret
      | apply keeps_for_of; intros ? [?|] ].
  - intros e. apply keeps_bind; [apply keeps_emit | intros _; apply keeps_emit].
Qed.

(** *** Dense lists *)

Lemma dense_elems (arr : array PDFFile.t) : dense arr -> arr = Elem <$> elems arr.
Proof.
  unfold dense, elems.
  induction 1 as [|[a| |] arr Hs _ IH]; simpl;
    [reflexivity | f_equal; exact IH | tauto | tauto].
Qed.

Lemma fmap_Elem_dense (fs : list PDFFile.t) : dense (Elem <$> fs).
Proof. unfold dense. induction fs; simpl; constructor; auto. Qed.

Lemma elems_fmap_Elem (fs : list PDFFile.t) : elems (Elem <$> fs) = fs.
Proof.
  unfold elems. induction fs as [|f fs IH]; simpl; [reflexivity | f_equal; exact IH].
Qed.

Lemma Permutation_dense (l : array PDFFile.t) (fs : list PDFFile.t) :
  l ≡ₚ Elem <$> fs -> exists fs', l = Elem <$> fs' /\ fs' ≡ₚ fs.
Proof.
  intros Hp. exists (elems l). split.
  - apply dense_elems. unfold dense. rewrite Hp. apply fmap_Elem_dense.
  - rewrite <- (elems_fmap_Elem fs). unfold elems. apply omap_Permutation, Hp.
Qed.

Lemma filter_dense (f : PDFFile.t -> bool) (fs : list PDFFile.t) :
  Js.filter f (Elem <$> fs) = Normal (Elem <$> List.filter f fs).
Proof.
  induction fs as [|g fs IH]; [reflexivity|].
  rewrite fmap_cons. cbn [Js.filter List.filter]. rewrite IH.
  destruct (f g); reflexivity.
Qed.

Lemma NoDup_fmap_filter {B} (g : PDFFile.t -> B) (f : PDFFile.t -> bool) fs :
  NoDup (g <$> fs) -> NoDup (g <$> List.filter f fs).
Proof.
  induction fs as [|x fs IH]; simpl; [done|].
  rewrite NoDup_cons. intros [Hx Hnd]. destruct (f x); simpl; [|auto].
  rewrite NoDup_cons. split; [|auto].
  intros Hin. apply Hx. apply list_elem_of_fmap in Hin as (y & -> & Hy).
  apply list_elem_of_fmap. exists y. split; [done|].
  apply list_elem_of_In, List.filter_In in Hy as [Hy _]. by apply list_elem_of_In.
Qed.

(** The rows rendered for a dense list stand at the positions of its
    files. *)
Lemma render_rows_dense len (fs : list PDFFile.t) :
  forall index, exists rs,
    render_rows len index (Elem <$> fs) = Normal rs /\
    forall k, rs !! k = row_of len (index + k) <$> fs !! k.
Proof.
  induction fs as [|f fs IH]; intros index.
  - exists []. split; [reflexivity|]. intros k. reflexivity.
  - rewrite fmap_cons. cbn [render_rows].
    destruct (IH (S index)) as (rs & -> & Hrs).
    exists (row_of len index f :: rs). split; [reflexivity|].
    intros [|k]; simpl.
    + by rewrite Nat.add_0_r.
    + rewrite Hrs. by rewrite Nat.add_succ_r.
Qed.


(** Deleting among at least two files with distinct ids leaves a file. *)
Lemma filter_other_nonempty (fs : list PDFFile.t) (id : string) :
  1 < length fs -> NoDup (PDFFile.id <$> fs) ->
  List.filter (fun file => negb (String.eqb (PDFFile.id file) id)) fs <> [].
Proof.
  destruct fs as [|f1 [|f2 fs]]; simpl; try lia. intros _ Hnd.
  apply NoDup_cons in Hnd as [Hne _].
  assert (Hd : PDFFile.id f1 <> PDFFile.id f2).
  { intros Heq. apply Hne. rewrite Heq. apply list_elem_of_here. }
  destruct (String.eqb_spec (PDFFile.id f1) id) as [H1|H1];
    destruct (String.eqb_spec (PDFFile.id f2) id) as [H2|H2]; simpl;
    try discriminate. congruence.
Qed.

Lemma list_ok_perm st st' pending :
  list_ok st pending -> pdfFiles st' ≡ₚ spread (pdfFiles st) ->
  list_ok st' pending.
Proof.
  intros (fs & Hfs & Hne & Hnd) Hp.
  rewrite Hfs, (spread_dense _ (fmap_Elem_dense fs)) in Hp.
  apply Permutation_dense in Hp as (fs' & Hfs' & Hperm).
  exists fs'. split; [exact Hfs'|]. split.
  - intros ->. apply Permutation_nil_l in Hperm. by subst.
  - by rewrite Hperm.
Qed.

Lemma step_list_ok ext s ev rest :
  list_ok (state s) (drawn_ids (ev :: rest)) ->
  list_ok (state (step ext s ev)) (drawn_ids rest).
Proof.
  intros Hok. destruct ev as [c now | env [files|]].
  - (* a click *)
    change (drawn_ids (Click c now :: rest)) with (drawn_ids rest) in Hok.
    unfold step. destruct (render (state s)) as [v|e] eqn:Hr; [|exact Hok].
    destruct (control v c ≫= click) as [a|] eqn:Ha; [|exact Hok].
    destruct Hok as (fs & Hfs & Hne & Hnd).
    assert (Hok : list_ok (state s) (drawn_ids rest)) by (exists fs; auto).
    unfold render in Hr. rewrite Hfs in Hr.
    destruct (render_rows_dense (length (Elem <$> fs)) fs 0) as (rs & Hrs & Hrows).
    rewrite Hrs in Hr. injection Hr as <-.
    destruct c as [| |row|row|row]; cbn [control rows addButton mergeButton] in Ha.
    + (* add *) injection Ha as <-. exact Hok.
    + (* merge *)
      cbn in Ha. destruct (_ || _); [discriminate|]. injection Ha as <-.
      cbn [perform]. destruct Hok as (fs0 & Hfs0 & Hne0 & Hnd0).
      exists fs0. rewrite mergePDFs_keeps_files. auto.
    + (* up *)
      rewrite Hrows in Ha. destruct (fs !! row) as [f|] eqn:Hf; [|discriminate].
      cbn in Ha. destruct (bool_decide _); [discriminate|]. injection Ha as <-.
      cbn [perform state]. apply lookup_lt_Some in Hf.
      destruct (moveFileUp_slots (state s) row) as [Hp | ->]; [|eauto using list_ok_perm|exact Hok].
      rewrite Hfs, length_fmap. exact Hf.
    + (* down *)
      rewrite Hrows in Ha. destruct (fs !! row) as [f|] eqn:Hf; [|discriminate].
      cbn in Ha. destruct (bool_decide _); [discriminate|]. injection Ha as <-.
      cbn [perform state].
      destruct (moveFileDown_slots (state s) row) as [Hp | ->]; [eauto using list_ok_perm|exact Hok].
    + (* delete *)
      rewrite Hrows in Ha. destruct (fs !! row) as [f|] eqn:Hf; [|discriminate].
      cbn in Ha. rewrite length_fmap in Ha.
      destruct (bool_decide_reflect (length fs <= 1)) as [|Hlen]; [discriminate|].
      injection Ha as <-. cbn [perform state]. unfold removeFile.
      rewrite Hfs, length_fmap. destruct (decide (1 < length fs)); [|lia].
      rewrite filter_dense. cbn [setPdfFiles pdfFiles].
      eexists. split; [reflexivity|]. split.
      * apply filter_other_nonempty; [lia|]. by apply NoDup_app in Hnd as [? _].
      * apply NoDup_app in Hnd as (Hnd1 & Hnd2 & Hnd3).
        apply NoDup_app. split; [by apply NoDup_fmap_filter|]. split; [|exact Hnd3].
        intros x Hx. apply Hnd2.
        apply list_elem_of_fmap in Hx as (y & -> & Hy).
        apply list_elem_of_fmap. exists y. split; [done|].
        apply list_elem_of_In, List.filter_In in Hy as [Hy _]. by apply list_elem_of_In.
  - (* files were picked *)
    destruct Hok as (fs & Hfs & Hne & Hnd).
    change (drawn_ids (PickFiles env (Some files) :: rest))
      with ((PDFFile.id <$> newFiles env files) ++ drawn_ids rest) in Hnd.
    cbn [step state handleAddFiles setPdfFiles pdfFiles].
    rewrite Hfs, (spread_dense _ (fmap_Elem_dense fs)), <- fmap_app.
    eexists. split; [reflexivity|]. split.
    + destruct fs; [done | discriminate].
    + by rewrite fmap_app, <- app_assoc.
  - (* the picker was dismissed *)
    exact Hok.
Qed.

Lemma run_list_ok ext evs :
  forall s, list_ok (state s) (drawn_ids evs) ->
            list_ok (state (run ext s evs)) [].
Proof.
  induction evs as [|ev evs IH]; intros s Hok; [exact Hok|].
  apply (IH (step ext s ev)). by apply step_list_ok.
Qed.

(** X21. The merge list starts with one entry, which holds the primary
    file; removing from a list of one entry changes nothing; and after any
    sequence of user events (picking files, merging, moving up or down,
    deleting) the list still holds at least one entry, provided the ids
    drawn from the clock and the random generator for added files do not
    repeat and differ from the primary entry's id. *)
Theorem merge_list_never_empty :
  forall (ext : External) (primaryFile : File.t),
    (length (pdfFiles (initial primaryFile)) = 1 /\
     PDFFile.file <$> elems (pdfFiles (initial primaryFile)) = [primaryFile]) /\
    (forall st id, length (pdfFiles st) = 1 -> removeFile id st = st) /\
    (forall evs effs,
        NoDup ("1" :: drawn_ids evs) ->
        0 < length (pdfFiles (state (run ext {| state := initial primaryFile;
                                                effects := effs |} evs)))).
Proof.
  intros ext primaryFile. split; [split; reflexivity|]. split.
  - intros st id Hlen. unfold removeFile. rewrite Hlen.
    destruct (decide (1 < 1)); [lia | reflexivity].
  - intros evs effs Hnd.
    destruct (run_list_ok ext evs {| state := initial primaryFile; effects := effs |})
      as (fs & -> & Hne & _).
    + eexists [_]. split; [reflexivity|]. split; [discriminate | exact Hnd].
    + rewrite length_fmap. destruct fs; [done | simpl; lia].
Qed.

Lemma merge_list_never_empty_witness :
  0 < length (pdfFiles (state (run Sample.ext
                                   {| state := initial Sample.first_pdf; effects := [] |}
                                   Sample.merger_session))).
Proof.
  apply (proj2 (proj2 (merge_list_never_empty Sample.ext Sample.first_pdf))).
  apply (bool_decide_unpack _). vm_compute. exact I.
Defined.

(** C2, at the failing input: two files are added while the clock and the
    random generator answer the same, so that their entries get one id.
    The delete button of the first row is enabled and removes the primary
    file; the delete button of the first row is enabled again, and as
    [removeFile] filters by id it removes both entries that are left: the
    merge list is empty. *)
Theorem equal_ids_empty_the_merge_list :
  PDFFile.id <$> elems (pdfFiles (state Sample.with_twin_ids))
    = ["1"; "17000000000000.5"; "17000000000000.5"] /\
  Sample.first_delete Sample.with_twin_ids = Some (onRemove "1") /\
  PDFFile.file <$> elems (pdfFiles (state Sample.after_one_delete))
    = [Sample.second_pdf; Sample.broken_pdf] /\
  Sample.first_delete Sample.after_one_delete = Some (onRemove "17000000000000.5") /\
  pdfFiles (state Sample.after_two_deletes) = [] /\
  ~ 0 < length (pdfFiles (state Sample.after_two_deletes)).
Proof.
  assert (H : pdfFiles (state Sample.after_two_deletes) = []) by (vm_compute; reflexivity).
  rewrite H. repeat split; try (vm_compute; reflexivity).
  simpl. lia.
Qed.

(** The toy library copies pages faithfully. *)
Lemma sample_ext_faithful : faithful Sample.ext.
Proof.
  split; [reflexivity|]. intros dst src. cbn [copyPages Sample.ext].
  assert (H : mapM (fun i => src !! i) (getPageIndices src) = Some src).
  { apply mapM_Some, Forall2_same_length_lookup. unfold getPageIndices. split.
    - by rewrite length_seq.
    - intros i x y Hx Hy. apply lookup_seq in Hx as [-> _]. exact Hy. }
  by rewrite H.
Qed.

Lemma merge_concatenates_in_list_order_witness :
  let s := {| state := Sample.two_files; effects := [] |} in
  mergePDFs Sample.ext 1700000000123 s =
    (Normal tt,
     {| state := setMerging false (state s);
        effects := effects s ++
                   [Download ("merged_" +:+ toString 1700000000123 +:+ ".pdf") "abc"] |}).
Proof.
  intros s.
  apply (merge_concatenates_in_list_order Sample.ext 1700000000123 s
           (elems (pdfFiles Sample.two_files))
           [Sample.page_of <$> ["a"; "b"]%char; Sample.page_of <$> ["c"]%char]
           "abc").
  - exact sample_ext_faithful.
  - reflexivity.
  - repeat constructor.
  - reflexivity.
Defined.

(** C1 does not hold for every merge list.  [handleAddFiles] takes any
    file; with a file in the list that does not parse, a click on the
    merge button downloads nothing, not even the pages of the files before
    it: the failure is logged and the alert is shown. *)
Lemma merge_with_a_broken_file_downloads_nothing :
  let s := Sample.with_broken_file in
  let s' := step Sample.ext s (Click TheMergeButton 1700000000123) in
  PDFFile.file <$> elems (pdfFiles (state s))
    = [Sample.first_pdf; Sample.second_pdf; Sample.broken_pdf] /\
  pages_of Sample.ext Sample.first_pdf = Normal (Sample.page_of <$> ["a"; "b"]%char) /\
  effects s' = [ConsoleError "Failed to merge PDFs:";
                Alert "Failed to merge PDFs. Please try again."] /\
  (forall filename content, Download filename content ∉ effects s').
Proof.
  assert (H : effects (step Sample.ext Sample.with_broken_file
                         (Click TheMergeButton 1700000000123))
              = [ConsoleError "Failed to merge PDFs:";
                 Alert "Failed to merge PDFs. Please try again."])
    by (vm_compute; reflexivity).
  cbv zeta. rewrite H. split; [reflexivity|]. split; [reflexivity|].
  split; [reflexivity|].
  intros filename content Hin.
  apply elem_of_cons in Hin as [Hin|Hin]; [discriminate Hin|].
  apply elem_of_cons in Hin as [Hin|Hin]; [discriminate Hin|].
  by apply elem_of_nil in Hin.
Qed.

End MergerProperties.

(** ** Numbers *)

Section NumberFacts.
Import Js.

Lemma ltb_leb (x y : float) : (x <? y)%float = true -> (x <=? y)%float = true.
Proof.
  rewrite ltb_spec, leb_spec. unfold SFltb, SFleb.
  destruct (SFcompare _ _) as [[]|]; auto.
Qed.

Lemma max_step_zero (x : float) :
  max_step 0 x = if (0 <? x)%float then x else 0%float.
Proof.
  unfold max_step. replace (classify 0) with PZero by reflexivity.
  destruct (classify x); reflexivity.
Qed.

(** [Math.max(0, Math.min(hi, x))] for an ordinary positive bound [hi]:
    [NaN] when [x] is [NaN], and between [0] and [hi] otherwise. *)
Lemma clamp_spec (hi x : float) :
  is_nan hi = false -> classify hi = PNormal -> (hi <? infinity)%float = true ->
  (0 <? hi)%float = true -> (hi <=? hi)%float = true ->
  if is_nan x
  then is_nan (Math_max 0 (Math_min hi x)) = true
  else between 0 hi (Math_max 0 (Math_min hi x)) = true.
Proof.
  intros Hnan Hcl Hinf Hpos Hrefl.
  unfold Math_min. rewrite Hnan. cbn [orb].
  destruct (is_nan x) eqn:Hx; [reflexivity|].
  assert (Hm : min_step infinity hi = hi).
  { unfold min_step. rewrite Hinf, orb_true_r. reflexivity. }
  rewrite Hm. unfold min_step at 1. rewrite Hcl.
  assert (Hz : match classify x with NZero => false | _ => false end = false)
    by (destruct (classify x); reflexivity).
  rewrite Hz. cbn [orb].
  destruct (x <? hi)%float eqn:Hlt.
  - unfold Math_max. rewrite Hx. replace (is_nan 0) with false by reflexivity.
    cbn [orb]. replace (max_step neg_infinity 0) with 0%float by reflexivity.
    rewrite max_step_zero. destruct (0 <? x)%float eqn:H0.
    + unfold between. rewrite (ltb_leb _ _ H0), (ltb_leb _ _ Hlt). reflexivity.
    + unfold between. rewrite (ltb_leb _ _ Hpos). reflexivity.
  - unfold Math_max. rewrite Hnan. replace (is_nan 0) with false by reflexivity.
    cbn [orb]. replace (max_step neg_infinity 0) with 0%float by reflexivity.
    rewrite max_step_zero, Hpos. unfold between.
    rewrite (ltb_leb _ _ Hpos), Hrefl. reflexivity.
Qed.

Lemma clamp_800 (x : float) :
  if is_nan x
  then is_nan (Math_max 0 (Math_min 800 x)) = true
  else between 0 800 (Math_max 0 (Math_min 800 x)) = true.
Proof. apply clamp_spec; reflexivity. Qed.

Lemma clamp_1000 (x : float) :
  if is_nan x
  then is_nan (Math_max 0 (Math_min 1000 x)) = true
  else between 0 1000 (Math_max 0 (Math_min 1000 x)) = true.
Proof. apply clamp_spec; reflexivity. Qed.

(** *** Decimal numerals *)

Lemma pretty_N_char_digit (x : N) : is_digit (pretty_N_char x) = true.
Proof. unfold pretty_N_char. repeat case_match; reflexivity. Qed.

Lemma pretty_N_go_digit (x : N) (s : string) :
  starts_with_digit s = true -> starts_with_digit (pretty_N_go x s) = true.
Proof.
  revert s. induction (N.lt_wf_0 x) as [x _ IH]; intros s Hs.
  destruct (decide (x = 0)%N) as [->|Hx]; [by rewrite pretty_N_go_0|].
  rewrite pretty_N_go_step by lia. apply IH.
  - apply N.div_lt; lia.
  - apply pretty_N_char_digit.
Qed.

(** The decimal form of a clock reading begins with a digit. *)
Lemma toString_digit (n : N) : starts_with_digit (toString n) = true.
Proof.
  unfold toString, pretty, pretty_N. destruct (decide (n = 0)%N) as [->|Hn]; [reflexivity|].
  rewrite pretty_N_go_step by lia. apply pretty_N_go_digit, pretty_N_char_digit.
Qed.

Lemma toString_truthy (n : N) : truthy (Some (toString n)) = true.
Proof.
  pose proof (toString_digit n) as H. unfold truthy.
  destruct (toString n); [discriminate | reflexivity].
Qed.

End NumberFacts.

(** ** The editor *)

Section EditorProperties.
Import Js Lib PDFEditor.

(** C8. From an empty annotation list, an add-mode click inside the page
    area (outside a drag) yields a list of exactly one annotation, whose id
    is the decimal clock reading, and deleting that id empties the list
    again; the same holds through the events: the click followed by the
    sidebar's delete button. *)
Theorem add_then_delete_returns_to_empty :
  forall (ext : External) (now : N) (s : Store) (event : MouseEvent.t),
    textAnnotations (state s) = [] ->
    editMode (state s) = add ->
    truthy (dragging (state s)) = false ->
    outside (click_position (props s) event (state s)) = false ->
    let st1 := handlePDFClick now (props s) event (state s) in
    (exists ann, textAnnotations st1 = [ann] /\
                 TextAnnotation.id ann = toString now /\
                 textAnnotations (deleteAnnotation (TextAnnotation.id ann) st1) = []) /\
    textAnnotations (state (run ext s [PageClick now event; SidebarDelete])) = [].
Proof.
  intros ext now s event Hempty Hmode Hdrag Hin st1.
  assert (Hst1 : st1 = setSelectedAnnotation (Some (toString now))
            (setTextAnnotations
               [ {| TextAnnotation.id := toString now;
                    TextAnnotation.x := Point.x (click_position (props s) event (state s));
                    TextAnnotation.y := Point.y (click_position (props s) event (state s));
                    TextAnnotation.text := "New text";
                    TextAnnotation.fontSize := 14;
                    TextAnnotation.isEditing := true;
                    TextAnnotation.type := new;
                    TextAnnotation.originalText := None |} ] (state s))).
  { subst st1. unfold handlePDFClick. rewrite Hdrag, Hin, Hmode, Hempty. reflexivity. }
  assert (Hdel : forall st, textAnnotations st = textAnnotations st1 ->
                   textAnnotations (deleteAnnotation (toString now) st) = []).
  { intros st Heq. unfold deleteAnnotation.
    cbn [textAnnotations setTextAnnotations setSelectedAnnotation].
    rewrite Heq, Hst1.
    cbn [textAnnotations setTextAnnotations setSelectedAnnotation List.filter
         TextAnnotation.id].
    by rewrite String.eqb_refl. }
  split.
  - eexists. split; [rewrite Hst1; reflexivity|]. split; [reflexivity|].
    cbn [TextAnnotation.id]. by apply Hdel.
  - cbn [run foldl step on_state state props]. fold st1.
    replace (selectedAnnotation st1) with (Some (toString now))
      by (rewrite Hst1; reflexivity).
    rewrite toString_truthy. cbn [on_state state]. by apply Hdel.
Qed.

Lemma add_then_delete_returns_to_empty_witness :
  let s := mount Sample.props in
  let event := Sample.mouse 240 260 in
  let now := 1700000000000%N in
  let st1 := handlePDFClick now (props s) event (state s) in
  (exists ann, textAnnotations st1 = [ann] /\
               TextAnnotation.id ann = toString now /\
               textAnnotations (deleteAnnotation (TextAnnotation.id ann) st1) = []) /\
  textAnnotations (state (run Sample.ext s [PageClick now event; SidebarDelete])) = [].
Proof.
  intros s event now.
  apply (add_then_delete_returns_to_empty Sample.ext now s event); reflexivity.
Defined.

(** *** Dragging *)




(** C9, at the failing input: a file is loaded and the editor is opened,
    an annotation is added at page position (200, 200), the shell's
    zoom-in button is clicked 4000 times, which makes the zoom factor
    infinite as nothing bounds it, and the annotation is grabbed and
    dragged.  The pointer position in page coordinates is
    then [NaN], [Math.min] and [Math.max] pass [NaN] on, and the mouse
    move stores [NaN] as [x] and as [y] of the annotation: it is not in
    [0, 800] by [0, 1000]. *)
Theorem drag_at_unbounded_zoom_leaves_page :
  App.zoom (Shell.run App.initial
              ([Shell.FilesChosen (Some [Sample.first_pdf]); Shell.ModeClick App.edit]
               ++ replicate 4000 Shell.ZoomInClick)) = infinity /\
  zoom (props Sample.zoomed_store) = infinity /\
  (fun ann => (TextAnnotation.id ann, TextAnnotation.x ann, TextAnnotation.y ann))
    <$> textAnnotations (state Sample.zoomed_store) = [("17", 200, 200)%float] /\
  dragging (state Sample.zoomed_store) = Some "17" /\
  (fun ann => (TextAnnotation.id ann, TextAnnotation.x ann, TextAnnotation.y ann))
    <$> textAnnotations (handleMouseMove (props Sample.zoomed_store)
                           (Sample.mouse 250 270) (state Sample.zoomed_store))
    = [("17", nan, nan)] /\
  ~ drag_within_page (props Sample.zoomed_store) (Sample.mouse 250 270)
                     (state Sample.zoomed_store).
Proof.
  split; [vm_compute; reflexivity|]. split; [vm_compute; reflexivity|].
  split; [vm_compute; reflexivity|]. split; [reflexivity|].
  split; [vm_compute; reflexivity|].
  intros H.
  destruct (H "17" (default Sample.no_annotation (head Sample.after_zoomed_move)))
    as [Hx _].
  - reflexivity.
  - vm_compute. apply list_elem_of_here.
  - reflexivity.
  - vm_compute in Hx. discriminate Hx.
Qed.

Example endless_zoom_is_infinite : Sample.endless_zoom = infinity.
Proof. vm_compute. reflexivity. Qed.

(** A zoom factor of zero has the same effect when the pointer stands
    where the division is 0 / 0. *)
Example drag_at_zero_zoom :
  let props := {| file := Sample.first_pdf; zoom := 0 |} in
  let st := setDragging (Some "17") (state Sample.dragging_store) in
  let st := setDragOffset {| Point.x := 0; Point.y := 0 |} st in
  (fun ann => (TextAnnotation.x ann, TextAnnotation.y ann))
    <$> textAnnotations (handleMouseMove props (Sample.mouse 400 500) st)
  = [(nan, nan)].
Proof. vm_compute. reflexivity. Qed.

End EditorProperties.

Section EditorInvariants.
Import Js Lib PDFEditor.

(** *** Computations that maintain a property of the state *)

Section Maintains.
Context (P : State -> Prop).

Lemma maintains_ret {A} (a : A) : maintains P (ret a).
Proof. intros s H. exact H. Qed.

Lemma maintains_await {A} (r : completion A) : maintains P (await r).
Proof. intros s H. exact H. Qed.

Lemma maintains_read : maintains P (@read Store).
Proof. intros s H. exact H. Qed.

Lemma maintains_emit e : maintains P (emit e).
Proof. intros s H. exact H. Qed.

Lemma maintains_update f : (forall st, P st -> P (f st)) -> maintains P (update f).
Proof. intros Hf s H. apply Hf, H. Qed.

Lemma maintains_bind {A B} (m : M Store A) (k : A -> M Store B) :
  maintains P m -> (forall a, maintains P (k a)) -> maintains P (bind m k).
Proof.
  intros Hm Hk s H. unfold bind. specialize (Hm s H).
  destruct (m s) as [[a|e] s1]; simpl in *; [|exact Hm].
  apply Hk, Hm.
Qed.

Lemma maintains_try_catch {A} (m : M Store A) (h : exn -> M Store A) :
  maintains P m -> (forall e, maintains P (h e)) -> maintains P (try_catch m h).
Proof.
  intros Hm Hh s H. unfold try_catch. specialize (Hm s H).
  destruct (m s) as [[a|e] s1]; simpl in *; [exact Hm|].
  apply Hh, Hm.
Qed.

Lemma maintains_try_finally {A} (m : M Store A) (f : M Store unit) :
  maintains P m -> maintains P f -> maintains P (try_finally m f).
Proof.
  intros Hm Hf s H. unfold try_finally. specialize (Hm s H).
  destruct (m s) as [r s1]. specialize (Hf s1 Hm).
  destruct (f s1) as [[u|e] s2]; exact Hf.
Qed.

Lemma maintains_for_of {A B} (xs : list A) (acc : B) (body : B -> A -> M Store B) :
  (forall acc x, maintains P (body acc x)) -> maintains P (for_of xs acc body).
Proof.
  intros Hb. revert acc. induction xs as [|x xs IH]; intros acc; simpl.
  - apply maintains_ret.
  - apply maintains_bind; [apply Hb | intros acc'; apply IH].
Qed.

End Maintains.

Ltac maintains_steps :=
  repeat first
    [ apply maintains_ret | apply maintains_await | apply maintains_read
    | apply maintains_emit
    | apply maintains_bind; [|intros ?]
    | apply maintains_for_of; intros ? ?
    | match goal with
      | |- maintains _ (match ?x with _ => _ end) => destruct x
      | |- maintains _ (if ?x then _ else _) => destruct x
      end ].

(** Saving writes no state cell. *)
Lemma saveAnnotations_maintains P ext : maintains P (saveAnnotations ext).
Proof.
  unfold saveAnnotations. apply maintains_try_catch.
  - unfold save_body. maintains_steps.
  - intros e. maintains_steps.
Qed.

(** The extraction writes [loading] and [extractedTexts] only. *)
Lemma extractTextFromPDF_maintains P ext :
  (forall b st, P st -> P (setLoading b st)) ->
  (forall v items st, P st -> P (setExtractedTexts (extract_items v items) st)) ->
  (forall st, P st -> P (setExtractedTexts demoTexts st)) ->
  (forall st, P st -> P (setExtractedTexts errorDemoTexts st)) ->
  maintains P (extractTextFromPDF ext).
Proof.
  intros Hl Hx Hd He. unfold extractTextFromPDF.
  apply maintains_try_finally; [|apply maintains_update; auto].
  apply maintains_try_catch.
  - unfold extract_body. maintains_steps; apply maintains_update; auto.
  - intros e. maintains_steps. apply maintains_update; auto.
Qed.

Lemma extraction_timeout_maintains P :
  (forall b st, P st -> P (setLoading b st)) ->
  (forall st, P st -> P (setExtractedTexts timeoutDemoTexts st)) ->
  maintains P extraction_timeout.
Proof.
  intros Hl Ht. unfold extraction_timeout. maintains_steps; apply maintains_update; auto.
Qed.


(** *** How the handlers change the ids *)

Lemma ids_updateAnnotation id updates st :
  Partial.id updates = None -> ids (updateAnnotation id updates st) = ids st.
Proof.
  intros Hupd. unfold ids, updateAnnotation. cbn [textAnnotations setTextAnnotations].
  rewrite <- list_fmap_compose. apply list_fmap_ext. intros _ ann _. cbn.
  destruct (String.eqb _ _); [|reflexivity].
  unfold assign. cbn [TextAnnotation.id]. by rewrite Hupd.
Qed.

Lemma ids_deleteAnnotation id st :
  ids (deleteAnnotation id st) `sublist_of` ids st.
Proof.
  unfold ids, deleteAnnotation. cbn [textAnnotations setTextAnnotations setSelectedAnnotation].
  induction (textAnnotations st) as [|ann l IH]; [done|].
  cbn [List.filter]. destruct (negb _); rewrite ?fmap_cons.
  - by apply sublist_skip.
  - by apply sublist_cons.
Qed.

Lemma find_id_None (i : string) (l : list TextAnnotation.t) :
  List.find (fun ann => String.eqb (TextAnnotation.id ann) i) l = None ->
  i ∉ TextAnnotation.id <$> l.
Proof.
  induction l as [|ann l IH]; cbn [List.find]; [intros _; apply not_elem_of_nil|].
  destruct (String.eqb_spec (TextAnnotation.id ann) i) as [|Hne]; [discriminate|].
  intros Hf. rewrite fmap_cons. apply not_elem_of_cons. split; [congruence | auto].
Qed.

Lemma find_id_Some (i : string) (l : list TextAnnotation.t) ann :
  List.find (fun ann => String.eqb (TextAnnotation.id ann) i) l = Some ann ->
  TextAnnotation.id ann = i.
Proof.
  intros Hf. apply List.find_some in Hf as [_ Heq]. by apply String.eqb_eq.
Qed.

(** A click on the page leaves the ids alone, appends an id no annotation
    carries (replace mode), or appends the decimal clock reading (add
    mode). *)
Lemma ids_handlePDFClick now props event st :
  ids (handlePDFClick now props event st) = ids st \/
  (exists i, (i ∉ ids st) /\
             ids (handlePDFClick now props event st) = ids st ++ [i]) \/
  (editMode st = add /\
   ids (handlePDFClick now props event st) = ids st ++ [toString now]).
Proof.
  unfold handlePDFClick.
  destruct (truthy (dragging st)); [by left|].
  destruct (outside _); [by left|].
  destruct (editMode st) eqn:Hmode.
  - right. right. split; [done|]. unfold ids.
    cbn [textAnnotations setTextAnnotations setSelectedAnnotation].
    by rewrite fmap_app.
  - destruct (List.find (isInBounds _) _) as [clickedText|]; [|by left].
    destruct (List.find _ (textAnnotations st)) as [existingAnnotation|] eqn:Hfind.
    + left. change (ids (setSelectedAnnotation ?v ?s)) with (ids s).
      by apply ids_updateAnnotation.
    + right. left. exists (ExtractedText.id clickedText).
      split; [by apply find_id_None|].
      unfold ids. cbn [textAnnotations setTextAnnotations setSelectedAnnotation].
      by rewrite fmap_app.
Qed.

Lemma ids_handleMouseDown props event id st :
  ids (handleMouseDown props event id st) = ids st.
Proof. unfold handleMouseDown. by destruct (List.find _ _). Qed.

Lemma ids_handleMouseMove props event st :
  ids (handleMouseMove props event st) = ids st.
Proof.
  unfold handleMouseMove. destruct (dragging st); [|done].
  destruct (truthy _); [|done]. by apply ids_updateAnnotation.
Qed.

(** One event changes the ids in one of three ways: some are removed, an
    id no annotation carries is appended, or an add-mode click appends the
    decimal clock reading. *)
Lemma ids_step ext s ev :
  ids (state (step ext s ev)) `sublist_of` ids (state s) \/
  (exists i, (i ∉ ids (state s)) /\
             ids (state (step ext s ev)) = ids (state s) ++ [i]) \/
  (exists now e, ev = PageClick now e /\ editMode (state s) = add /\
                 ids (state (step ext s ev)) = ids (state s) ++ [toString now]).
Proof.
  assert (Hsame : forall s', ids (state s') = ids (state s) ->
                             ids (state s') `sublist_of` ids (state s))
    by (intros s' ->; done).
  destruct ev; cbn [step].
  - (* the page is clicked *)
    cbn [on_state state].
    destruct (ids_handlePDFClick now (props s) e (state s))
      as [Heq | [(i & Hi & Heq) | [Hmode Heq]]].
    + left. by rewrite Heq.
    + right. left. eauto.
    + right. right. eauto.
  - left. apply Hsame. apply ids_handleMouseMove.
  - left. by apply Hsame.
  - left. apply Hsame. apply ids_handleMouseDown.
  - left. apply Hsame. by destruct (truthy _).
  - left. apply Hsame. by apply ids_updateAnnotation.
  - left. apply Hsame. by apply ids_updateAnnotation.
  - left. apply Hsame. destruct (String.eqb _ _); [|done]. by apply ids_updateAnnotation.
  - left. apply Hsame. by apply ids_updateAnnotation.
  - left. apply Hsame. destruct (selectedAnnotation _); [|done].
    destruct (truthy _); [|done]. by apply ids_updateAnnotation.
  - left. destruct (selectedAnnotation _); [|done].
    destruct (truthy _); [|done]. apply ids_deleteAnnotation.
  - left. by apply Hsame.
  - left. apply Hsame. by destruct newMode.
  - left. by apply Hsame.
  - left. by apply Hsame.
  - left. by apply Hsame.
  - left. by apply Hsame.
  - left. by apply Hsame.
  - left. apply Hsame.
    by apply (saveAnnotations_maintains (fun st => ids st = ids (state s))).
  - left. apply Hsame.
    by apply (extractTextFromPDF_maintains (fun st => ids st = ids (state s))).
  - left. apply Hsame.
    by apply (extraction_timeout_maintains (fun st => ids st = ids (state s))).
  - left. by apply Hsame.
Qed.


(** *** The ids of the extracted fragments *)

Lemma extract_item_id v index item t :
  extract_item v index item = Some t ->
  starts_with_digit (ExtractedText.id t) = false.
Proof.
  unfold extract_item. destruct (TextItem.str item); [|discriminate].
  destruct (decide _); [|discriminate]. by intros [= <-].
Qed.

Lemma Forall_omap_imap {A B} (P : B -> Prop) (l : list A) :
  forall f : nat -> A -> option B,
    (forall i x t, f i x = Some t -> P t) ->
    Forall P (omap (fun o => o) (imap f l)).
Proof.
  induction l as [|x l IH]; intros f Hf; [constructor|].
  cbn [imap omap list_omap]. destruct (f 0 x) as [t|] eqn:Ht.
  - constructor; [by apply (Hf 0 x) | apply IH]. intros i y. apply Hf.
  - apply IH. intros i y. apply Hf.
Qed.

Lemma extract_items_ids v items :
  Forall (fun t => starts_with_digit (ExtractedText.id t) = false)
         (extract_items v items).
Proof. apply Forall_omap_imap. intros i x t. apply extract_item_id. Qed.

(** Every source of fragments names them with ids that are not numerals. *)
Lemma fragment_ids_step ext s ev :
  Forall (fun t => starts_with_digit (ExtractedText.id t) = false)
         (extractedTexts (state s)) ->
  Forall (fun t => starts_with_digit (ExtractedText.id t) = false)
         (extractedTexts (state (step ext s ev))).
Proof.
  intros H. destruct ev; cbn [step on_state state].
  all: try exact H.
  all: try (unfold handlePDFClick, handleMouseMove, handleMouseDown;
            repeat case_match; exact H).
  - repeat constructor.
  - exact (saveAnnotations_maintains
             (fun st => Forall (fun t => starts_with_digit (ExtractedText.id t) = false)
                               (extractedTexts st)) ext s H).
  - apply (extractTextFromPDF_maintains
             (fun st => Forall (fun t => starts_with_digit (ExtractedText.id t) = false)
                               (extractedTexts st))); try done; intros;
      cbn [extractedTexts setExtractedTexts setLoading];
      [apply extract_items_ids | repeat constructor | repeat constructor].
  - apply (extraction_timeout_maintains
             (fun st => Forall (fun t => starts_with_digit (ExtractedText.id t) = false)
                               (extractedTexts st))); try done; intros.
    cbn [extractedTexts setExtractedTexts setLoading]. repeat constructor.
Qed.

Lemma filter_sublist_mono {A} (P : A -> Prop) `{!forall x, Decision (P x)}
    (l1 l2 : list A) :
  l1 `sublist_of` l2 -> base.filter P l1 `sublist_of` base.filter P l2.
Proof.
  induction 1 as [|x l1 l2 _ IH|x l1 l2 _ IH]; [done| |].
  - rewrite !filter_cons. destruct (decide (P x)); [by apply sublist_skip | done].
  - rewrite filter_cons. destruct (decide (P x)); [by apply sublist_cons | done].
Qed.

Lemma fragments_ok_step ext s ev :
  fragments_ok (state s) -> fragments_ok (state (step ext s ev)).
Proof.
  intros [Hfrag Hnd]. split; [by apply fragment_ids_step|].
  destruct (ids_step ext s ev) as [Hsub | [(i & Hi & ->) | (now & e & _ & _ & ->)]].
  - eapply sublist_NoDup; [exact Hnd|]. by apply filter_sublist_mono.
  - rewrite filter_app. apply NoDup_app. split; [exact Hnd|]. split.
    + intros x Hx Hx'. apply list_elem_of_filter in Hx as [_ Hx].
      apply list_elem_of_filter in Hx' as [_ Hx'].
      apply list_elem_of_singleton in Hx' as ->. contradiction.
    + apply NoDup_filter, NoDup_singleton.
  - rewrite filter_app, filter_cons_False, filter_nil, app_nil_r; [exact Hnd|].
    rewrite toString_digit. discriminate.
Qed.

Lemma fragments_ok_run ext evs : forall s,
  fragments_ok (state s) -> fragments_ok (state (run ext s evs)).
Proof.
  induction evs as [|ev evs IH]; intros s H; [exact H|].
  apply (IH (step ext s ev)). by apply fragments_ok_step.
Qed.

(** In a state where no id that is not a numeral repeats, at most one
    annotation carries the id of a fragment. *)
Lemma fragments_ok_carrying st t :
  fragments_ok st -> t ∈ extractedTexts st ->
  length (carrying (ExtractedText.id t) st) <= 1.
Proof.
  intros [Hfrag Hnd] Ht.
  rewrite Forall_forall in Hfrag. specialize (Hfrag t Ht).
  unfold carrying, ids in *. revert Hnd.
  induction (textAnnotations st) as [|ann l IH]; [simpl; lia|].
  rewrite fmap_cons. cbn [List.filter].
  destruct (String.eqb_spec (TextAnnotation.id ann) (ExtractedText.id t)) as [Heq|Hne].
  - rewrite filter_cons_True by congruence. rewrite NoDup_cons. intros [Hnotin Hnd].
    assert (Hnone : List.filter (fun ann0 => String.eqb (TextAnnotation.id ann0)
                                                        (ExtractedText.id t)) l = []).
    { destruct (List.filter _ l) as [|b r] eqn:Hf; [done|]. exfalso. apply Hnotin.
      assert (Hb : In b (List.filter (fun ann0 => String.eqb (TextAnnotation.id ann0)
                                                             (ExtractedText.id t)) l))
        by (rewrite Hf; left; done).
      apply List.filter_In in Hb as [Hb Hbid]. apply String.eqb_eq in Hbid.
      apply list_elem_of_filter. split; [congruence|].
      apply list_elem_of_fmap. exists b. split; [congruence | by apply list_elem_of_In]. }
    rewrite Hnone. simpl. lia.
  - intros Hnd. apply IH. destruct (decide (starts_with_digit (TextAnnotation.id ann) = false)).
    + rewrite filter_cons_True in Hnd by done. by apply NoDup_cons in Hnd as [_ ?].
    + by rewrite filter_cons_False in Hnd.
Qed.

End EditorInvariants.

Section EditorClaims.
Import Js Lib PDFEditor.

(** C10. A replace-mode click on a fragment whose id an annotation already
    carries adds nothing: the list keeps its length, the annotations with
    that id get their editing flag set and are otherwise unchanged, every
    other annotation is untouched, and the fragment's id becomes the
    selection.  And in every state the editor reaches from its mount, no
    fragment id is carried by two annotations. *)
Theorem replace_click_on_annotated_fragment :
  (forall (now : N) (props : Props) (event : MouseEvent.t) (st : State)
          (clickedText : ExtractedText.t) (existingAnnotation : TextAnnotation.t),
      editMode st = replace ->
      truthy (dragging st) = false ->
      outside (click_position props event st) = false ->
      List.find (isInBounds (click_position props event st)) (extractedTexts st)
        = Some clickedText ->
      List.find (fun ann => String.eqb (TextAnnotation.id ann)
                                       (ExtractedText.id clickedText))
                (textAnnotations st) = Some existingAnnotation ->
      let st' := handlePDFClick now props event st in
      length (textAnnotations st') = length (textAnnotations st) /\
      textAnnotations st' =
        (fun ann => if String.eqb (TextAnnotation.id ann) (ExtractedText.id clickedText)
                    then marked_editing ann else ann) <$> textAnnotations st /\
      selectedAnnotation st' = Some (ExtractedText.id clickedText)) /\
  (forall (ext : External) (p : Props) (evs : list Event) (t : ExtractedText.t),
      t ∈ extractedTexts (state (run ext (mount p) evs)) ->
      length (carrying (ExtractedText.id t) (state (run ext (mount p) evs))) <= 1).
Proof.
  split.
  - intros now props event st clickedText existingAnnotation
           Hmode Hdrag Hin Hclicked Hexisting st'.
    assert (Hid : TextAnnotation.id existingAnnotation = ExtractedText.id clickedText)
      by (by apply find_id_Some in Hexisting).
    assert (Hst' : st' = setSelectedAnnotation (Some (ExtractedText.id clickedText))
                           (updateAnnotation (ExtractedText.id clickedText)
                                             (upd_isEditing true) st)).
    { subst st'. unfold handlePDFClick.
      rewrite Hdrag, Hin, Hmode, Hclicked, Hexisting, Hid. reflexivity. }
    rewrite Hst'. cbn [textAnnotations setSelectedAnnotation selectedAnnotation
                       updateAnnotation setTextAnnotations].
    split; [by rewrite length_fmap|]. split; reflexivity.
  - intros ext p evs t Ht. apply fragments_ok_carrying; [|exact Ht].
    apply fragments_ok_run. split; [constructor | apply NoDup_nil_2].
Qed.

Lemma replace_click_on_annotated_fragment_witness :
  let st := state Sample.annotated_store in
  let event := Sample.mouse 180 250 in
  let clickedText := default Sample.no_fragment (head (extractedTexts st)) in
  let st' := handlePDFClick 1700000000500 Sample.props event st in
  length (textAnnotations st') = length (textAnnotations st) /\
  textAnnotations st' =
    (fun ann => if String.eqb (TextAnnotation.id ann) (ExtractedText.id clickedText)
                then marked_editing ann else ann) <$> textAnnotations st /\
  selectedAnnotation st' = Some (ExtractedText.id clickedText).
Proof.
  intros st event clickedText.
  apply (proj1 replace_click_on_annotated_fragment 1700000000500%N Sample.props
           event st clickedText
           (default Sample.no_annotation (head (textAnnotations st))));
    vm_compute; reflexivity.
Defined.

(** C3, at the failing input: two add-mode clicks that read the same clock
    value leave two annotations with one id. *)
Theorem same_clock_reading_repeats_an_id :
  let s := run Sample.ext (mount Sample.props) Sample.same_millisecond in
  ids (state s) = ["1700000000000"; "1700000000000"] /\
  length (textAnnotations (state s)) = 2 /\
  ~ NoDup (ids (state s)).
Proof.
  assert (H : ids (state (run Sample.ext (mount Sample.props) Sample.same_millisecond))
              = ["1700000000000"; "1700000000000"]) by (vm_compute; reflexivity).
  cbv zeta. rewrite H. split; [reflexivity|]. split; [vm_compute; reflexivity|].
  intros Hnd. apply NoDup_cons in Hnd as [Hnotin _]. apply Hnotin, list_elem_of_here.
Qed.

(** Short of a repeated clock reading the ids stay distinct. *)
Lemma unique_ids_step ext s ev :
  NoDup (ids (state s)) ->
  match ev with
  | PageClick now _ => editMode (state s) = add -> toString now ∉ ids (state s)
  | _ => True
  end ->
  NoDup (ids (state (step ext s ev))).
Proof.
  intros Hnd Hfresh.
  destruct (ids_step ext s ev) as [Hsub | [(i & Hi & ->) | (now & e & -> & Hmode & ->)]].
  - by eapply sublist_NoDup.
  - apply NoDup_app. split; [exact Hnd|]. split; [|apply NoDup_singleton].
    intros x Hx Hx'%list_elem_of_singleton. by subst.
  - apply NoDup_app. split; [exact Hnd|]. split; [|apply NoDup_singleton].
    intros x Hx Hx'%list_elem_of_singleton. subst. by apply Hfresh.
Qed.

Lemma unique_ids_while_clock_fresh ext evs : forall s,
  NoDup (ids (state s)) -> clock_fresh ext s evs ->
  NoDup (ids (state (run ext s evs))).
Proof.
  induction evs as [|ev evs IH]; intros s Hnd Hfresh; [exact Hnd|].
  destruct Hfresh as [Hev Hrest]. apply (IH (step ext s ev)); [|exact Hrest].
  by apply unique_ids_step.
Qed.

End EditorClaims.

(** ** Failures of the external libraries *)

Section Silent.
Import Js.
Context {S : Type}.

Lemma silent_ret {A} (a : A) : silent (@ret S A a).
Proof. intros s. reflexivity. Qed.

Lemma silent_await {A} (r : completion A) : silent (@await S A r).
Proof. intros s. reflexivity. Qed.

Lemma silent_bind {A B} (m : M S A) (k : A -> M S B) :
  silent m -> (forall a, silent (k a)) -> silent (bind m k).
Proof.
  intros Hm Hk s. unfold bind. specialize (Hm s).
  destruct (m s) as [[a|e] s1]; simpl in *; [|exact Hm].
  rewrite (Hk a s1). exact Hm.
Qed.

Lemma silent_for_of {A B} (xs : list A) (acc : B) (body : B -> A -> M S B) :
  (forall acc x, silent (body acc x)) -> silent (for_of xs acc body).
Proof.
  intros Hb. revert acc. induction xs as [|x xs IH]; intros acc; simpl.
  - apply silent_ret.
  - apply silent_bind; [apply Hb | intros acc'; apply IH].
Qed.

(** What a silent computation returns comes with the store it started
    from. *)
Lemma silent_result {A} (m : M S A) (s : S) :
  silent m -> m s = (fst (m s), s).
Proof. intros Hm. specialize (Hm s). destruct (m s) as [r s1]. simpl in *. by subst. Qed.

End Silent.

Ltac silent_steps :=
  repeat first
    [ apply silent_ret | apply silent_await
    | apply silent_bind; [|intros ?]
    | apply silent_for_of; intros ? ?
    | match goal with
      | |- Js.silent (match ?x with _ => _ end) => destruct x
      end ].

Section Failures.
Import Js Lib.

(** A failure inside the [try] block of [mergePDFs] happens before the
    download: only the merging flag has been set. *)
Lemma merge_body_throw ext now arr (s s' : PDFMerger.Store) e :
  PDFMerger.merge_body ext now arr s = (Throw e, s') ->
  s' = {| PDFMerger.state := PDFMerger.setMerging true (PDFMerger.state s);
          PDFMerger.effects := PDFMerger.effects s |}.
Proof.
  unfold PDFMerger.merge_body. unfold bind at 1.
  unfold PDFMerger.update at 1, modify at 1.
  set (s1 := {| PDFMerger.state := PDFMerger.setMerging true (PDFMerger.state s);
                PDFMerger.effects := PDFMerger.effects s |}).
  unfold bind at 1, await at 1.
  destruct (PDFDocument_create ext) as [mergedPdf|e0]; [|by intros [= _ <-]].
  unfold bind at 1.
  match goal with
  | |- context [for_of ?xs ?acc ?body s1] =>
      rewrite (silent_result (for_of xs acc body) s1)
        by (silent_steps);
      destruct (fst (for_of xs acc body s1)) as [merged|e1]
  end; [|by intros [= _ <-]].
  unfold bind at 1, await at 1.
  destruct (save ext merged) as [pdfBytes|e2]; [|by intros [= _ <-]].
  discriminate.
Qed.

(** A failure inside the [try] block of [saveAnnotations] happens before
    the download: the store is as it was. *)
Lemma save_body_throw ext (s s' : PDFEditor.Store) e :
  PDFEditor.save_body ext s = (Throw e, s') -> s' = s.
Proof.
  unfold PDFEditor.save_body. unfold bind at 1, read at 1.
  unfold bind at 1, await at 1.
  destruct (file_arrayBuffer ext _) as [existingPdfBytes|e0]; [|by intros [= _ <-]].
  unfold bind at 1, await at 1.
  destruct (PDFDocument_load ext _) as [pdfDoc|e1]; [|by intros [= _ <-]].
  unfold bind at 1.
  match goal with
  | |- context [match ?m s with _ => _ end] =>
      rewrite (silent_result m s) by (silent_steps);
      destruct (fst (m s)) as [doc|e2]
  end; [|by intros [= _ <-]].
  unfold bind at 1, await at 1.
  destruct (save ext doc) as [pdfBytes|e3]; [|by intros [= _ <-]].
  discriminate.
Qed.

(** A failure inside the [try] block of [extractTextFromPDF] happens in
    one of the awaited calls: only the loading flag has been set. *)
Lemma extract_body_throw ext (s s' : PDFEditor.Store) e :
  PDFEditor.extract_body ext s = (Throw e, s') ->
  s' = PDFEditor.on_state (PDFEditor.setLoading true) s.
Proof.
  unfold PDFEditor.extract_body. unfold bind at 1, read at 1.
  unfold bind at 1. unfold PDFEditor.update at 1, modify at 1.
  fold (PDFEditor.on_state (PDFEditor.setLoading true) s).
  unfold bind at 1, await at 1. cbn [PDFEditor.props PDFEditor.on_state].
  destruct (file_arrayBuffer ext _) as [arrayBuffer|e0]; [|by intros [= _ <-]].
  unfold bind at 1, await at 1.
  destruct (getDocument ext _) as [pdf|e1]; [|by intros [= _ <-]].
  unfold bind at 1, await at 1.
  destruct (getPage pdf 1) as [page|e2]; [|by intros [= _ <-]].
  unfold bind at 1, await at 1.
  destruct (getTextContent page) as [textContent|e3]; [|by intros [= _ <-]].
  unfold bind at 1.
  destruct (decide (length textContent = 0)); destruct (decide (0 < _));
    discriminate.
Qed.




(** The failures the libraries can raise do reach the [catch] blocks: an
    unreadable file or an unparsable document aborts each body. *)
Lemma unreadable_file_aborts_save ext (s : PDFEditor.Store) e :
  pages_of ext (PDFEditor.file (PDFEditor.props s)) = Throw e ->
  PDFEditor.save_body ext s = (Throw e, s).
Proof.
  unfold pages_of, PDFEditor.save_body. unfold bind at 1, read at 1.
  unfold bind at 1, await at 1.
  destruct (file_arrayBuffer ext _) as [buf|e0]; [|by intros [= ->]].
  unfold bind at 1, await at 1. by intros ->.
Qed.

Lemma unparsable_file_aborts_extraction ext (s : PDFEditor.Store) buf e :
  file_arrayBuffer ext (PDFEditor.file (PDFEditor.props s)) = Normal buf ->
  getDocument ext buf = Throw e ->
  PDFEditor.extract_body ext s = (Throw e, PDFEditor.on_state (PDFEditor.setLoading true) s).
Proof.
  intros Hbuf Hdoc. unfold PDFEditor.extract_body. unfold bind at 1, read at 1.
  unfold bind at 1. unfold PDFEditor.update at 1, modify at 1.
  unfold bind at 1, await at 1. cbn [PDFEditor.props]. rewrite Hbuf.
  unfold bind at 1, await at 1. rewrite Hdoc. reflexivity.
Qed.

Lemma unparsable_first_file_aborts_merge ext now pdfFile rest (s : PDFMerger.Store) e :
  PDFDocument_create ext = Normal [] ->
  pages_of ext (PDFMerger.PDFFile.file pdfFile) = Throw e ->
  PDFMerger.merge_body ext now (Elem pdfFile :: rest) s =
    (Throw e, {| PDFMerger.state := PDFMerger.setMerging true (PDFMerger.state s);
                 PDFMerger.effects := PDFMerger.effects s |}).
Proof.
  intros Hcreate. unfold pages_of, PDFMerger.merge_body. unfold bind at 1.
  unfold PDFMerger.update at 1, modify at 1.
  unfold bind at 1, await at 1. rewrite Hcreate.
  unfold bind at 1. cbn [values fmap list_fmap for_of].
  unfold bind at 1. unfold bind at 1, await at 1.
  destruct (file_arrayBuffer ext _) as [buf|e0]; [|by intros [= ->]].
  unfold bind at 1, await at 1. by intros ->.
Qed.

End Failures.

(** * Further properties *)

(** ** The merger's handlers *)

Section MergerHandlers.
Import Js Lib PDFMerger.

Lemma state_eta (st : State) : setPdfFiles (pdfFiles st) st = st.
Proof. by destruct st. Qed.

(** On a dense list a move between two positions in range is the exchange
    of the two entries. *)
Lemma dense_swap (fs : list PDFFile.t) (i : nat) (a b : PDFFile.t) :
  fs !! i = Some a -> fs !! S i = Some b ->
  let l := spread (Elem <$> fs) in
  set (set l i (get l (S i))) (S i) (get l i) =
  Elem <$> <[S i := a]> (<[i := b]> fs).
Proof.
  intros Ha Hb l. subst l. rewrite (spread_dense _ (fmap_Elem_dense fs)).
  assert (Hi : S i < length fs) by (by apply lookup_lt_Some in Hb).
  rewrite (set_in_range (Elem <$> fs) i) by (rewrite length_fmap; lia).
  rewrite set_in_range by (rewrite length_insert, length_fmap; lia).
  unfold get. rewrite !list_lookup_fmap, Ha, Hb. cbn [fmap option_fmap option_map to_slot].
  by rewrite !list_fmap_insert.
Qed.

Lemma moveFileUp_dense st fs i a b :
  pdfFiles st = Elem <$> fs -> fs !! i = Some a -> fs !! S i = Some b ->
  moveFileUp (S i) st = setPdfFiles (Elem <$> <[S i := a]> (<[i := b]> fs)) st.
Proof.
  intros Hfs Ha Hb. unfold moveFileUp. destruct (decide (0 < S i)); [|lia].
  cbv zeta. replace (S i - 1) with i by lia. rewrite Hfs.
  by rewrite (dense_swap fs i a b Ha Hb).
Qed.

Lemma moveFileDown_dense st fs i a b :
  pdfFiles st = Elem <$> fs -> fs !! i = Some a -> fs !! S i = Some b ->
  moveFileDown i st = setPdfFiles (Elem <$> <[S i := a]> (<[i := b]> fs)) st.
Proof.
  intros Hfs Ha Hb. unfold moveFileDown.
  assert (Hi : S i < length fs) by (by apply lookup_lt_Some in Hb).
  rewrite Hfs, length_fmap. destruct (decide _); [|lia].
  cbv zeta. replace (i + 1) with (S i) by lia.
  by rewrite (dense_swap fs i a b Ha Hb).
Qed.

Lemma swap_back {A} (l : list A) i a b :
  l !! i = Some a -> l !! S i = Some b ->
  <[S i := b]> (<[i := a]> (<[S i := a]> (<[i := b]> l))) = l.
Proof.
  revert i. induction l as [|x l IH]; intros [|i] Ha Hb; simpl in *; try discriminate.
  - destruct l as [|y l]; simpl in *; [discriminate|]. congruence.
  - f_equal. by apply IH.
Qed.

Lemma swap_lookups {A} (l : list A) i a b :
  l !! i = Some a -> l !! S i = Some b ->
  <[S i := a]> (<[i := b]> l) !! i = Some b /\
  <[S i := a]> (<[i := b]> l) !! S i = Some a.
Proof.
  intros Ha Hb. assert (Hi : S i < length l) by (by apply lookup_lt_Some in Hb).
  split.
  - rewrite list_lookup_insert_ne by lia. apply list_lookup_insert_eq. lia.
  - apply list_lookup_insert_eq. rewrite length_insert. lia.
Qed.

(** X1. On a list without gaps, moving the file at position [i + 1] up and
    then the file at position [i] down gives back the list, and so does
    moving down first and up after. *)
Theorem move_up_and_down_cancel :
  forall (st : State) (i : nat),
    dense (pdfFiles st) ->
    S i < length (pdfFiles st) ->
    moveFileDown i (moveFileUp (S i) st) = st /\
    moveFileUp (S i) (moveFileDown i st) = st.
Proof.
  intros st i Hdense Hi. pose proof (dense_elems _ Hdense) as Hfs.
  set (fs := elems (pdfFiles st)) in *. rewrite Hfs, length_fmap in Hi.
  destruct (lookup_lt_is_Some_2 fs i) as [a Ha]; [lia|].
  destruct (lookup_lt_is_Some_2 fs (S i)) as [b Hb]; [lia|].
  destruct (swap_lookups fs i a b Ha Hb) as [Ha' Hb'].
  split.
  - rewrite (moveFileUp_dense st fs i a b Hfs Ha Hb).
    rewrite (moveFileDown_dense
               (setPdfFiles (Elem <$> <[S i := a]> (<[i := b]> fs)) st)
               (<[S i := a]> (<[i := b]> fs)) i b a eq_refl Ha' Hb').
    rewrite (swap_back fs i a b Ha Hb). unfold setPdfFiles. cbn [pdfFiles merging].
    rewrite <- Hfs. by destruct st.
  - rewrite (moveFileDown_dense st fs i a b Hfs Ha Hb).
    rewrite (moveFileUp_dense
               (setPdfFiles (Elem <$> <[S i := a]> (<[i := b]> fs)) st)
               (<[S i := a]> (<[i := b]> fs)) i b a eq_refl Ha' Hb').
    rewrite (swap_back fs i a b Ha Hb). unfold setPdfFiles. cbn [pdfFiles merging].
    rewrite <- Hfs. by destruct st.
Qed.

Lemma move_up_and_down_cancel_witness :
  moveFileDown 1 (moveFileUp 2 Sample.three_files) = Sample.three_files /\
  moveFileUp 2 (moveFileDown 1 Sample.three_files) = Sample.three_files.
Proof.
  apply move_up_and_down_cancel.
  - vm_compute. repeat constructor.
  - vm_compute. lia.
Defined.

(** X2. On a list without gaps, moving the file at position [i + 1] up
    puts it at position [i], puts the file that was there at position
    [i + 1], and leaves every other position alone; the list stays without
    gaps. *)
Theorem moveFileUp_exchanges_neighbours :
  forall (st : State) (i : nat),
    dense (pdfFiles st) ->
    S i < length (pdfFiles st) ->
    let st' := moveFileUp (S i) st in
    dense (pdfFiles st') /\
    pdfFiles st' !! i = pdfFiles st !! S i /\
    pdfFiles st' !! S i = pdfFiles st !! i /\
    (forall j, j <> i -> j <> S i -> pdfFiles st' !! j = pdfFiles st !! j).
Proof.
  intros st i Hdense Hi st'. pose proof (dense_elems _ Hdense) as Hfs.
  set (fs := elems (pdfFiles st)) in *. rewrite Hfs, length_fmap in Hi.
  destruct (lookup_lt_is_Some_2 fs i) as [a Ha]; [lia|].
  destruct (lookup_lt_is_Some_2 fs (S i)) as [b Hb]; [lia|].
  destruct (swap_lookups fs i a b Ha Hb) as [Ha' Hb'].
  subst st'. rewrite (moveFileUp_dense st fs i a b Hfs Ha Hb).
  cbn [pdfFiles setPdfFiles]. rewrite Hfs. split; [apply fmap_Elem_dense|].
  rewrite !list_lookup_fmap, Ha', Hb', Ha, Hb. split; [done|]. split; [done|].
  intros j Hj HSj. rewrite !list_lookup_fmap. by rewrite !list_lookup_insert_ne by done.
Qed.

Lemma moveFileUp_exchanges_neighbours_witness :
  let st := Sample.three_files in
  let st' := moveFileUp 2 st in
  dense (pdfFiles st') /\
  pdfFiles st' !! 1 = pdfFiles st !! 2 /\
  pdfFiles st' !! 2 = pdfFiles st !! 1 /\
  (forall j, j <> 1 -> j <> 2 -> pdfFiles st' !! j = pdfFiles st !! j).
Proof.
  intros st. apply (moveFileUp_exchanges_neighbours st 1).
  - vm_compute. repeat constructor.
  - vm_compute. lia.
Defined.


Lemma filter_absent_id (fs : list PDFFile.t) (id : string) :
  id ∉ PDFFile.id <$> fs ->
  List.filter (fun file => negb (String.eqb (PDFFile.id file) id)) fs = fs.
Proof.
  induction fs as [|f fs IH]; [done|]. rewrite fmap_cons, not_elem_of_cons.
  intros [Hne Hnotin]. cbn [List.filter].
  destruct (String.eqb_spec (PDFFile.id f) id) as [Heq|_]; [congruence|].
  cbn [negb]. by rewrite IH.
Qed.

Lemma filter_unique_id (fs : list PDFFile.t) (k : nat) (f : PDFFile.t) :
  NoDup (PDFFile.id <$> fs) -> fs !! k = Some f ->
  List.filter (fun file => negb (String.eqb (PDFFile.id file) (PDFFile.id f))) fs
  = base.delete k fs.
Proof.
  revert k. induction fs as [|g fs IH]; intros k Hnd Hk; [done|].
  rewrite fmap_cons in Hnd. apply NoDup_cons in Hnd as [Hnotin Hnd].
  destruct k as [|k]; cbn [List.filter base.delete list_delete].
  - injection Hk as ->. rewrite String.eqb_refl. cbn [negb].
    by apply filter_absent_id.
  - cbn in Hk. destruct (String.eqb_spec (PDFFile.id g) (PDFFile.id f)) as [Heq|_].
    + exfalso. apply Hnotin. rewrite Heq. apply list_elem_of_fmap.
      exists f. split; [done|]. by eapply list_elem_of_lookup_2.
    + cbn [negb]. f_equal. by apply IH.
Qed.

(** X3. On a list without gaps and with more than one entry, [removeFile]
    keeps, in their order, exactly the files whose id differs from the
    given one.  If no file has the id the state is unchanged; if the ids
    are pairwise distinct, removing the id of the file at position [k]
    deletes that position and nothing else. *)
Theorem removeFile_removes_the_id :
  forall (st : State) (fs : list PDFFile.t) (id : string),
    pdfFiles st = Elem <$> fs ->
    1 < length fs ->
    pdfFiles (removeFile id st) =
      Elem <$> List.filter (fun file => negb (String.eqb (PDFFile.id file) id)) fs /\
    (id ∉ PDFFile.id <$> fs -> removeFile id st = st) /\
    (forall k f, NoDup (PDFFile.id <$> fs) -> fs !! k = Some f -> id = PDFFile.id f ->
                 pdfFiles (removeFile id st) = Elem <$> base.delete k fs).
Proof.
  intros st fs id Hfs Hlen.
  assert (Hrm : removeFile id st =
                setPdfFiles (Elem <$> List.filter
                               (fun file => negb (String.eqb (PDFFile.id file) id)) fs) st).
  { unfold removeFile. rewrite Hfs, length_fmap.
    destruct (decide (1 < length fs)); [|lia]. by rewrite filter_dense. }
  split; [by rewrite Hrm|]. split.
  - intros Hnotin. rewrite Hrm, filter_absent_id by done. rewrite <- Hfs. apply state_eta.
  - intros k f Hnd Hk ->. rewrite Hrm. cbn [pdfFiles setPdfFiles].
    by rewrite (filter_unique_id fs k f).
Qed.

Lemma removeFile_removes_the_id_witness :
  let st := Sample.three_files in
  let fs := elems (pdfFiles st) in
  let id := "17000000000000.1" in
  pdfFiles (removeFile id st) =
    Elem <$> List.filter (fun file => negb (String.eqb (PDFFile.id file) id)) fs /\
  (id ∉ PDFFile.id <$> fs -> removeFile id st = st) /\
  (forall k f, NoDup (PDFFile.id <$> fs) -> fs !! k = Some f -> id = PDFFile.id f ->
               pdfFiles (removeFile id st) = Elem <$> base.delete k fs).
Proof.
  intros st fs id. apply removeFile_removes_the_id.
  - reflexivity.
  - vm_compute. lia.
Defined.

Lemma imap_fmap_proj {A B C} (f : nat -> A -> B) (g : B -> C) (h : A -> C) (l : list A) :
  (forall i x, g (f i x) = h x) -> g <$> imap f l = h <$> l.
Proof.
  revert f. induction l as [|x l IH]; intros f Hf; [done|].
  cbn [imap]. rewrite !fmap_cons, Hf. f_equal. apply IH. intros i y. apply Hf.
Qed.

(** X4. [handleAddFiles] appends one entry per chosen file, in the order of
    the choice, each with the file itself and the file's name; the entries
    that were there keep their places.  Without a file list nothing
    changes. *)
Theorem handleAddFiles_appends_in_pick_order :
  forall (env : Entropy) (files : list File.t) (st : State),
    let st' := handleAddFiles env (Some files) st in
    elems (pdfFiles st') = elems (pdfFiles st) ++ newFiles env files /\
    length (pdfFiles st') = length (pdfFiles st) + length files /\
    PDFFile.file <$> newFiles env files = files /\
    PDFFile.name <$> newFiles env files = File.name <$> files /\
    handleAddFiles env None st = st.
Proof.
  intros env files st st'. subst st'. cbn [handleAddFiles pdfFiles setPdfFiles].
  split; [|split; [|split; [|split]]].
  - unfold elems. rewrite omap_app. fold (elems (spread (pdfFiles st))).
    rewrite elems_spread. f_equal. apply elems_fmap_Elem.
  - rewrite length_app, spread_length, length_fmap. unfold newFiles.
    by rewrite length_imap.
  - unfold newFiles. rewrite (imap_fmap_proj _ _ (fun x => x)); [apply list_fmap_id | done].
  - unfold newFiles. by apply imap_fmap_proj.
  - reflexivity.
Qed.

End MergerHandlers.

Section Outcomes.
Import Js Lib.

(** When the [try] block of [mergePDFs] completes, it has set the merging
    flag and downloaded one file. *)
Lemma merge_body_normal ext now arr (s s' : PDFMerger.Store) :
  PDFMerger.merge_body ext now arr s = (Normal tt, s') ->
  exists out,
    s' = {| PDFMerger.state := PDFMerger.setMerging true (PDFMerger.state s);
            PDFMerger.effects :=
              PDFMerger.effects s ++
              [Download ("merged_" +:+ toString now +:+ ".pdf") out] |}.
Proof.
  unfold PDFMerger.merge_body. unfold bind at 1.
  unfold PDFMerger.update at 1, modify at 1.
  set (s1 := {| PDFMerger.state := PDFMerger.setMerging true (PDFMerger.state s);
                PDFMerger.effects := PDFMerger.effects s |}).
  unfold bind at 1, await at 1.
  destruct (PDFDocument_create ext) as [mergedPdf|e0]; [|discriminate].
  unfold bind at 1.
  match goal with
  | |- context [for_of ?xs ?acc ?body s1] =>
      rewrite (silent_result (for_of xs acc body) s1)
        by (silent_steps);
      destruct (fst (for_of xs acc body s1)) as [merged|e1]
  end; [|discriminate].
  unfold bind at 1, await at 1.
  destruct (save ext merged) as [pdfBytes|e2]; [|discriminate].
  intros [= <-]. by exists pdfBytes.
Qed.

(** X5. Whatever the libraries do, [mergePDFs] leaves the merge list as it
    was, ends with the merging flag cleared, and performs exactly one of
    two things: it downloads one file named [merged_<clock>.pdf], or it
    logs the error and shows the alert. *)
Theorem mergePDFs_downloads_or_alerts :
  forall (ext : External) (now : N) (s : PDFMerger.Store),
    let s' := snd (PDFMerger.mergePDFs ext now s) in
    PDFMerger.pdfFiles (PDFMerger.state s') = PDFMerger.pdfFiles (PDFMerger.state s) /\
    PDFMerger.merging (PDFMerger.state s') = false /\
    ((exists out,
        PDFMerger.effects s' =
          PDFMerger.effects s ++
          [Download ("merged_" +:+ toString now +:+ ".pdf") out]) \/
     PDFMerger.effects s' =
       PDFMerger.effects s ++
       [ConsoleError "Failed to merge PDFs:";
        Alert "Failed to merge PDFs. Please try again."]).
Proof.
  intros ext now s s'. subst s'.
  unfold PDFMerger.mergePDFs, bind, read, try_finally, try_catch. cbv beta iota.
  destruct (PDFMerger.merge_body ext now _ s) as [[[]|e] s1] eqn:Hbody.
  - apply merge_body_normal in Hbody as [out ->]. cbn. eauto.
  - apply merge_body_throw in Hbody as ->. cbn.
    split; [done|]. split; [done|]. right. by rewrite <- List.app_assoc.
Qed.

(** When the [try] block of [saveAnnotations] completes, it has downloaded
    one file and changed nothing else. *)
Lemma save_body_normal ext (s s' : PDFEditor.Store) :
  PDFEditor.save_body ext s = (Normal tt, s') ->
  exists out,
    s' = {| PDFEditor.props := PDFEditor.props s;
            PDFEditor.state := PDFEditor.state s;
            PDFEditor.effects :=
              PDFEditor.effects s ++
              [Download ("edited_" +:+ File.name (PDFEditor.file (PDFEditor.props s)))
                        out] |}.
Proof.
  unfold PDFEditor.save_body. unfold bind at 1, read at 1.
  unfold bind at 1, await at 1.
  destruct (file_arrayBuffer ext _) as [existingPdfBytes|e0]; [|discriminate].
  unfold bind at 1, await at 1.
  destruct (PDFDocument_load ext _) as [pdfDoc|e1]; [|discriminate].
  unfold bind at 1.
  match goal with
  | |- context [match ?m s with _ => _ end] =>
      rewrite (silent_result m s) by (silent_steps);
      destruct (fst (m s)) as [doc|e2]
  end; [|discriminate].
  unfold bind at 1, await at 1.
  destruct (save ext doc) as [pdfBytes|e3]; [|discriminate].
  intros [= <-]. by exists pdfBytes.
Qed.

(** X6. Whatever the libraries do, [saveAnnotations] leaves the props and
    the state of the editor as they were and performs exactly one of two
    things: it downloads one file named [edited_<file name>], or it logs
    the error and shows the alert. *)
Theorem saveAnnotations_downloads_or_alerts :
  forall (ext : External) (s : PDFEditor.Store),
    let s' := snd (PDFEditor.saveAnnotations ext s) in
    PDFEditor.props s' = PDFEditor.props s /\
    PDFEditor.state s' = PDFEditor.state s /\
    ((exists out,
        PDFEditor.effects s' =
          PDFEditor.effects s ++
          [Download ("edited_" +:+ File.name (PDFEditor.file (PDFEditor.props s))) out]) \/
     PDFEditor.effects s' =
       PDFEditor.effects s ++
       [ConsoleError "Failed to save PDF:";
        Alert "Failed to save PDF. Please try again."]).
Proof.
  intros ext s s'. subst s'. unfold PDFEditor.saveAnnotations, try_catch.
  destruct (PDFEditor.save_body ext s) as [[[]|e] s1] eqn:Hbody.
  - apply save_body_normal in Hbody as [out ->]. cbn. eauto.
  - apply save_body_throw in Hbody as ->. cbn.
    split; [done|]. split; [done|]. right. by rewrite <- List.app_assoc.
Qed.

End Outcomes.

(** ** Comparisons of numbers *)

Section Comparisons.
Import Js.

(** Exchanging the arguments of a comparison reverses its outcome. *)
Lemma SFcompare_antisym (x y : spec_float) :
  SFcompare y x = option_map CompOpp (SFcompare x y).
Proof.
  destruct x as [sx|sx| |sx mx ex], y as [sy|sy| |sy my ey]; simpl;
    try reflexivity; try (destruct sx; reflexivity); try (destruct sy; reflexivity);
    try (destruct sx, sy; reflexivity).
  destruct sx, sy; simpl; try reflexivity.
  - rewrite (Z.compare_antisym ex ey). destruct (ex ?= ey)%Z; simpl; try reflexivity.
    f_equal. rewrite CompOpp_involutive. exact (Pos.compare_cont_antisym my mx Eq).
  - rewrite (Z.compare_antisym ex ey). destruct (ex ?= ey)%Z; simpl; try reflexivity.
    f_equal. symmetry. exact (Pos.compare_cont_antisym mx my Eq).
Qed.

Lemma is_nan_SF (x : float) : is_nan x = false -> Prim2SF x <> S754_nan.
Proof.
  unfold is_nan. rewrite FloatAxioms.eqb_spec. unfold SFeqb.
  intros H Hn. rewrite Hn in H. discriminate.
Qed.

(** Two numbers are comparable: if [x < y] is false then [y <= x]. *)
Lemma not_ltb_leb (x y : float) :
  is_nan x = false -> is_nan y = false ->
  (x <? y)%float = false -> (y <=? x)%float = true.
Proof.
  intros Hx%is_nan_SF Hy%is_nan_SF. rewrite ltb_spec, leb_spec. unfold SFltb, SFleb.
  rewrite (SFcompare_antisym (Prim2SF x) (Prim2SF y)).
  destruct (SFcompare (Prim2SF x) (Prim2SF y)) as [[]|] eqn:Hc; simpl; try done.
  exfalso.
  destruct (Prim2SF x) as [| | |[] ? ?], (Prim2SF y) as [| | |[] ? ?];
    simpl in Hc; congruence.
Qed.

Lemma leb_refl_number (x : float) : is_nan x = false -> (x <=? x)%float = true.
Proof.
  unfold is_nan. rewrite FloatAxioms.eqb_spec, leb_spec. unfold SFeqb, SFleb.
  destruct (SFcompare _ _) as [[]|]; simpl; done.
Qed.

(** A step of [Math.max] over numbers returns one of them, and not less
    than the new one. *)
Lemma max_step_number (h n : float) :
  is_nan h = false -> is_nan n = false ->
  is_nan (max_step h n) = false /\ (n <=? max_step h n)%float = true.
Proof.
  intros Hh Hn. unfold max_step.
  destruct (match classify n, classify h with PZero, NZero => true | _, _ => false end);
    cbn [orb]; [by split; [|apply leb_refl_number]|].
  destruct (h <? n)%float eqn:Hlt; [by split; [|apply leb_refl_number]|].
  split; [done|]. by apply not_ltb_leb.
Qed.

Lemma or_else_number (a : option float) (b : float) :
  is_nan b = false -> is_nan (or_else a b) = false.
Proof.
  intros Hb. unfold or_else, falsy. destruct a as [v|]; [|done].
  destruct (is_nan v) eqn:Hv; cbn [orb]; [done|]. by destruct (v =? 0)%float.
Qed.

(** [Math.max(a, b)] of a number [a] and an ordinary number [b] is a
    number not less than [b]. *)
Lemma Math_max_lower (a b : float) :
  is_nan a = false -> is_nan b = false ->
  is_nan (Math_max a b) = false /\ (b <=? Math_max a b)%float = true.
Proof.
  intros Ha Hb. unfold Math_max. rewrite Ha, Hb. cbn [orb].
  destruct (max_step_number neg_infinity a eq_refl Ha) as [Hh _].
  by apply max_step_number.
Qed.

(** [Math.max(0, v)] is [NaN] or not negative. *)
Lemma Math_max_zero (v : float) :
  is_nan v = true /\ is_nan (Math_max 0 v) = true \/
  is_nan v = false /\ (0 <=? Math_max 0 v)%float = true.
Proof.
  unfold Math_max. replace (is_nan 0) with false by reflexivity. cbn [orb].
  destruct (is_nan v) eqn:Hv; [by left|]. right. split; [done|].
  replace (max_step neg_infinity 0) with 0%float by reflexivity.
  rewrite max_step_zero. destruct (0 <? v)%float eqn:Hlt; [by apply ltb_leb | reflexivity].
Qed.

End Comparisons.

(** ** Extracted fragments *)

Section Fragments.
Import Js Lib PDFEditor.

(** X7. Every fragment that [extractTextFromPDF] builds from a text item
    has a text that is not empty, an [x] that is a number not below 0, a
    height that is a number not below 12, a font size that is a number
    not below 10, a [y] that is not negative (or [NaN], when the viewport
    height or the item's offset is not a number), and page index 0. *)
Theorem extracted_fragment_geometry :
  forall (viewport : Viewport.t) (index : nat) (item : TextItem.t)
         (t : ExtractedText.t),
    extract_item viewport index item = Some t ->
    ExtractedText.text t <> EmptyString /\
    (0 <=? ExtractedText.x t)%float = true /\
    (12 <=? ExtractedText.height t)%float = true /\
    (10 <=? ExtractedText.fontSize t)%float = true /\
    (is_nan (ExtractedText.y t) = true \/ (0 <=? ExtractedText.y t)%float = true) /\
    ExtractedText.pageIndex t = 0%float.
Proof.
  intros viewport index item t. unfold extract_item.
  destruct (TextItem.str item) as [str|]; [|discriminate].
  destruct (decide (0 < utf16_length (trim str))) as [Hlen|]; [|discriminate].
  intros [= <-]. cbn [ExtractedText.text ExtractedText.x ExtractedText.height
                      ExtractedText.fontSize ExtractedText.y ExtractedText.pageIndex].
  set (transform := default _ (TextItem.transform item)).
  assert (HsX : is_nan (or_else (Math_abs <$> transform !! 0) 12) = false)
    by (by apply or_else_number).
  assert (HsY : is_nan (or_else (Math_abs <$> transform !! 3) 12) = false)
    by (by apply or_else_number).
  split; [|split; [|split; [|split; [|split]]]].
  - intros Hempty. rewrite Hempty in Hlen. simpl in Hlen. lia.
  - destruct (Math_max_zero (or_else (transform !! 4) 0)) as [[Hn _]|[_ H]]; [|exact H].
    by rewrite or_else_number in Hn.
  - unfold Math_max3. rewrite HsX, HsY. cbn [orb].
    replace (is_nan 12) with false by reflexivity.
    destruct (max_step_number neg_infinity _ eq_refl HsY) as [H1 _].
    destruct (max_step_number _ _ H1 HsX) as [H2 _].
    by apply max_step_number.
  - by apply Math_max_lower.
  - match goal with
    | |- context [Math_max 0 ?v] =>
        destruct (Math_max_zero v) as [[_ H]|[_ H]]; [by left | by right]
    end.
  - reflexivity.
Qed.

Lemma extracted_fragment_geometry_witness :
  let t := default Sample.no_fragment
             (extract_item {| Viewport.width := 800; Viewport.height := 1000 |} 0
                           (Sample.item "Hello" 100 800)) in
  ExtractedText.text t <> EmptyString /\
  (0 <=? ExtractedText.x t)%float = true /\
  (12 <=? ExtractedText.height t)%float = true /\
  (10 <=? ExtractedText.fontSize t)%float = true /\
  (is_nan (ExtractedText.y t) = true \/ (0 <=? ExtractedText.y t)%float = true) /\
  ExtractedText.pageIndex t = 0%float.
Proof.
  intros t.
  apply (extracted_fragment_geometry {| Viewport.width := 800; Viewport.height := 1000 |}
           0 (Sample.item "Hello" 100 800) t).
  vm_compute. reflexivity.
Defined.

End Fragments.

(** ** The scale of the editor *)

Section ScaleBounds.
Import Js Lib PDFEditor.

Lemma mem_In (v : float) (l : list float) : Scale.mem v l = true <-> In v l.
Proof.
  unfold Scale.mem. rewrite List.existsb_exists. split.
  - intros (y & Hy & Heq). apply FloatAxioms.Leibniz.eqb_spec in Heq. by subst.
  - intros Hv. exists v. split; [done|]. by apply FloatAxioms.Leibniz.eqb_spec.
Qed.

Lemma closed_values (v : float) :
  In v Scale.values -> In (Scale.out v) Scale.values /\ In (Scale.in_ v) Scale.values.
Proof.
  intros Hv.
  assert (Hc : Scale.closed Scale.values = true) by (vm_compute; reflexivity).
  unfold Scale.closed in Hc. rewrite List.forallb_forall in Hc.
  specialize (Hc v Hv). apply andb_true_iff in Hc as [Ho Hi].
  split; by apply mem_In.
Qed.

Lemma scale_step ext s ev :
  In (pdfScale (state s)) Scale.values ->
  In (pdfScale (state (step ext s ev))) Scale.values.
Proof.
  intros H. destruct ev; cbn [step on_state state].
  all: try exact H.
  all: try (unfold handlePDFClick, handleMouseMove, handleMouseDown;
            repeat case_match; exact H).
  all: try (by apply (extractTextFromPDF_maintains (fun st => In (pdfScale st) Scale.values))).
  all: try (by apply (extraction_timeout_maintains (fun st => In (pdfScale st) Scale.values))).
  - by apply closed_values.
  - by apply closed_values.
  - exact (saveAnnotations_maintains (fun st => In (pdfScale st) Scale.values) ext s H).
Qed.

(** X8. Whatever the user does, the scale of the editor stays between
    0.3 and 2: it starts at 0.8 and only the two scale buttons change it,
    by steps of 0.1 cut off at these bounds. *)
Theorem scale_stays_within_bounds :
  forall (ext : External) (p : Props) (evs : list Event),
    between 0.3 2 (pdfScale (state (run ext (mount p) evs))) = true.
Proof.
  intros ext p evs.
  assert (Hin : In (pdfScale (state (run ext (mount p) evs))) Scale.values).
  { assert (H0 : In (pdfScale (state (mount p))) Scale.values) by (left; reflexivity).
    revert H0. generalize (mount p). unfold run.
    induction evs as [|ev evs IH]; intros s H0; [exact H0|].
    apply (IH (step ext s ev)). by apply scale_step. }
  assert (Hall : forallb (between 0.3 2) Scale.values = true) by (vm_compute; reflexivity).
  rewrite List.forallb_forall in Hall. by apply Hall.
Qed.

End ScaleBounds.

Section Extraction.
Import Js Lib PDFEditor.

(** The fragments the extraction would show for a file: those of the
    first page's items, or the placeholders. *)
Lemma extract_body_normal ext (s s' : Store) :
  extract_body ext s = (Normal tt, s') ->
  exists l, l <> [] /\ props s' = props s /\
            state s' = setExtractedTexts l (setLoading true (state s)).
Proof.
  unfold extract_body, bind, read, await, update, emit, modify, ret.
  destruct (file_arrayBuffer ext _) as [buf|]; [|discriminate].
  destruct (getDocument ext buf) as [pdf|]; [|discriminate].
  destruct (getPage pdf 1) as [page|]; [|discriminate].
  destruct (getTextContent page) as [items|]; [|discriminate].
  destruct (decide (length items = 0)); cbn [fst snd];
    destruct (decide (0 < length (extract_items _ items))) as [Hlen|];
    intros [= <-]; cbn [props state]; eexists; (split; [|split; reflexivity]);
    try discriminate.
  all: intros Hnil; rewrite Hnil in Hlen; simpl in Hlen; lia.
Qed.

(** The fragments the extraction leaves depend on the props only. *)
Lemma extraction_depends_on_props ext (s1 s2 : Store) :
  props s1 = props s2 ->
  extractedTexts (state (snd (extractTextFromPDF ext s1))) =
  extractedTexts (state (snd (extractTextFromPDF ext s2))).
Proof.
  intros Hp.
  unfold extractTextFromPDF, try_finally, try_catch, extract_body,
    bind, read, await, update, emit, modify, ret.
  cbn [props]. rewrite Hp.
  destruct (file_arrayBuffer ext _) as [buf|e]; [|by destruct (instanceof_Error e)].
  destruct (getDocument ext buf) as [pdf|e]; [|by destruct (instanceof_Error e)].
  destruct (getPage pdf 1) as [page|e]; [|by destruct (instanceof_Error e)].
  destruct (getTextContent page) as [items|e]; [|by destruct (instanceof_Error e)].
  destruct (decide (length items = 0)); cbn [fst snd];
    by destruct (decide (0 < length (extract_items _ items))).
Qed.

(** X9. When the extraction settles, in whatever state the editor is,
    the loading flag is off and there are fragments to click: the list is
    never left empty, the other cells of the state and the props are as
    before, and the fragments are those a freshly mounted editor would
    get for the same props, so that a late extraction replaces the
    placeholders of the timeout. *)
Theorem extraction_replaces_the_fragments :
  forall (ext : External) (s : Store),
    let s' := snd (extractTextFromPDF ext s) in
    props s' = props s /\
    state s' = setLoading false (setExtractedTexts (extractedTexts (state s')) (state s)) /\
    extractedTexts (state s') <> [] /\
    extractedTexts (state s') =
      extractedTexts (state (snd (extractTextFromPDF ext (mount (props s))))).
Proof.
  intros ext s. cbv zeta.
  split; [|split; [|split]]; [| | |by apply extraction_depends_on_props].
  all: unfold extractTextFromPDF, try_finally, try_catch.
  all: destruct (extract_body ext s) as [[[]|e] s0] eqn:Hbody.
  all: try (apply extract_body_normal in Hbody as (l & Hl & Hp & Hst)).
  all: try (apply extract_body_throw in Hbody as ->).
  all: unfold bind, emit, update, modify, on_state; try destruct (instanceof_Error e).
  all: cbn; try (rewrite Hst); try done.
Qed.

(** *** The fragments keep distinct ids *)

Lemma append_prefix_inj (p a b : string) : p +:+ a = p +:+ b -> a = b.
Proof. induction p as [|c p IH]; simpl; [done|]. intros [= H]. by apply IH. Qed.

Lemma extract_item_index v index item t :
  extract_item v index item = Some t ->
  ExtractedText.id t = "extracted_1_" +:+ toString (N.of_nat index).
Proof.
  unfold extract_item. destruct (TextItem.str item); [|discriminate].
  destruct (decide _); [|discriminate]. by intros [= <-].
Qed.

Lemma NoDup_omap_imap {A B C} (g : B -> C) (l : list A) :
  forall (f : nat -> A -> option B) (h : nat -> C),
    (forall i j, h i = h j -> i = j) ->
    (forall i x t, f i x = Some t -> g t = h i) ->
    NoDup (g <$> omap (fun o => o) (imap f l)).
Proof.
  induction l as [|x l IH]; intros f h Hh Hf; [apply NoDup_nil_2|].
  cbn [imap omap list_omap].
  assert (Hrest : Forall (fun t => exists j, g t = h (S j))
                         (omap (fun o => o) (imap (f ∘ S) l))).
  { apply Forall_omap_imap. intros i y t Ht. exists i. by apply (Hf (S i) y). }
  assert (Htail : NoDup (g <$> omap (fun o => o) (imap (f ∘ S) l))).
  { apply (IH (f ∘ S) (h ∘ S)).
    - intros i j Hij. apply Hh in Hij. lia.
    - intros i y t Ht. by apply (Hf (S i) y). }
  destruct (f 0 x) as [t|] eqn:Ht; [|exact Htail].
  rewrite fmap_cons. apply NoDup_cons. split; [|exact Htail].
  intros Hin. apply list_elem_of_fmap in Hin as (t' & Heq & Hin).
  rewrite Forall_forall in Hrest. destruct (Hrest t' Hin) as [j Hj].
  apply Hf in Ht. rewrite Heq, Hj in Ht. apply Hh in Ht. lia.
Qed.

Lemma extract_items_NoDup v items :
  NoDup (ExtractedText.id <$> extract_items v items).
Proof.
  apply (NoDup_omap_imap ExtractedText.id items (extract_item v)
           (fun i => "extracted_1_" +:+ toString (N.of_nat i))).
  - intros i j Hij. apply append_prefix_inj in Hij.
    unfold toString in Hij. apply (inj pretty) in Hij. lia.
  - intros i x t. apply extract_item_index.
Qed.

Lemma fragment_ids_NoDup_step ext s ev :
  NoDup (OnPage.fragment_ids (state s)) ->
  NoDup (OnPage.fragment_ids (state (step ext s ev))).
Proof.
  intros H. destruct ev; cbn [step on_state state].
  all: try exact H.
  all: try (unfold handlePDFClick, handleMouseMove, handleMouseDown;
            repeat case_match; exact H).
  - apply (bool_decide_unpack _). vm_compute. reflexivity.
  - exact (saveAnnotations_maintains (fun st => NoDup (OnPage.fragment_ids st)) ext s H).
  - apply (extractTextFromPDF_maintains (fun st => NoDup (OnPage.fragment_ids st)));
      try done; intros; unfold OnPage.fragment_ids;
      cbn [extractedTexts setExtractedTexts setLoading];
      [apply extract_items_NoDup | |]; apply (bool_decide_unpack _); vm_compute; reflexivity.
  - apply (extraction_timeout_maintains (fun st => NoDup (OnPage.fragment_ids st)));
      try done; intros. unfold OnPage.fragment_ids.
    cbn [extractedTexts setExtractedTexts setLoading].
    apply (bool_decide_unpack _). vm_compute. reflexivity.
Qed.

(** X10. In every state the editor reaches from its mount, the fragments
    shown for replacing have pairwise distinct ids, whether they come
    from the text items of the page (numbered by their position among
    the items) or from one of the four placeholder lists. *)
Theorem fragment_ids_stay_distinct :
  forall (ext : External) (p : Props) (evs : list Event),
    NoDup (OnPage.fragment_ids (state (run ext (mount p) evs))).
Proof.
  intros ext p evs.
  assert (H0 : NoDup (OnPage.fragment_ids (state (mount p)))) by apply NoDup_nil_2.
  revert H0. generalize (mount p). unfold run.
  induction evs as [|ev evs IH]; intros s H0; [exact H0|].
  apply (IH (step ext s ev)). by apply fragment_ids_NoDup_step.
Qed.

End Extraction.

Section Placement.
Import Js Lib PDFEditor.

Lemma within_not_outside (hi x : float) :
  is_nan hi = false -> (x <? 0)%float = false -> (hi <? x)%float = false ->
  OnPage.within hi x = true.
Proof.
  intros Hhi Hlo Hup. unfold OnPage.within, between.
  destruct (is_nan x) eqn:Hx; [done|]. cbn [orb].
  rewrite (not_ltb_leb x 0 Hx eq_refl Hlo), (not_ltb_leb hi x Hhi Hx Hup). done.
Qed.

Lemma within_clamp_800 (x : float) :
  OnPage.within 800 (Math_max 0 (Math_min 800 x)) = true.
Proof.
  unfold OnPage.within. pose proof (clamp_800 x) as H.
  destruct (is_nan x); rewrite H; [done | apply orb_true_r].
Qed.

Lemma within_clamp_1000 (x : float) :
  OnPage.within 1000 (Math_max 0 (Math_min 1000 x)) = true.
Proof.
  unfold OnPage.within. pose proof (clamp_1000 x) as H.
  destruct (is_nan x); rewrite H; [done | apply orb_true_r].
Qed.

Lemma added_on_page_update id updates st :
  (forall ann, (TextAnnotation.type ann = new -> OnPage.placed ann = true) ->
               TextAnnotation.type ann = new ->
               OnPage.placed (assign ann updates) = true) ->
  Partial.type updates = None ->
  OnPage.added_on_page st -> OnPage.added_on_page (updateAnnotation id updates st).
Proof.
  intros Hupd Hty H. unfold OnPage.added_on_page, updateAnnotation in *.
  cbn [textAnnotations setTextAnnotations]. rewrite Forall_fmap.
  eapply Forall_impl; [exact H|].
  intros ann Hann. cbn. destruct (String.eqb _ _); [|exact Hann].
  intros Hnew. unfold assign in Hnew. cbn [TextAnnotation.type] in Hnew.
  rewrite Hty in Hnew. by apply Hupd.
Qed.

Lemma added_on_page_flag id b st :
  OnPage.added_on_page st -> OnPage.added_on_page (updateAnnotation id (upd_isEditing b) st).
Proof. apply added_on_page_update; [|done]. intros ann H Hnew. by apply H. Qed.

Lemma added_on_page_text id v st :
  OnPage.added_on_page st -> OnPage.added_on_page (updateAnnotation id (upd_text v) st).
Proof. apply added_on_page_update; [|done]. intros ann H Hnew. by apply H. Qed.

Lemma added_on_page_delete id st :
  OnPage.added_on_page st -> OnPage.added_on_page (deleteAnnotation id st).
Proof.
  unfold OnPage.added_on_page, deleteAnnotation.
  cbn [textAnnotations setTextAnnotations setSelectedAnnotation].
  intros H. rewrite Forall_forall in *. intros ann Hin. apply H.
  apply list_elem_of_In in Hin. apply List.filter_In in Hin as [Hin _].
  by apply list_elem_of_In.
Qed.

Lemma added_on_page_click now props event st :
  OnPage.added_on_page st -> OnPage.added_on_page (handlePDFClick now props event st).
Proof.
  intros H. unfold handlePDFClick.
  destruct (truthy (dragging st)); [exact H|].
  destruct (outside _) eqn:Hout; [exact H|].
  destruct (editMode st).
  - unfold OnPage.added_on_page.
    cbn [textAnnotations setTextAnnotations setSelectedAnnotation].
    apply Forall_app. split; [exact H|]. constructor; [|constructor]. intros _.
    unfold outside in Hout.
    apply orb_false_iff in Hout as [Hout Hy2]. apply orb_false_iff in Hout as [Hout Hy1].
    apply orb_false_iff in Hout as [Hx1 Hx2].
    unfold OnPage.placed. cbn [TextAnnotation.x TextAnnotation.y].
    rewrite !within_not_outside; done.
  - destruct (List.find (isInBounds _) _) as [clickedText|]; [|exact H].
    destruct (List.find _ (textAnnotations st)) as [existingAnnotation|].
    + by apply added_on_page_flag.
    + unfold OnPage.added_on_page.
      cbn [textAnnotations setTextAnnotations setSelectedAnnotation].
      apply Forall_app. split; [exact H|]. constructor; [|constructor]. discriminate.
Qed.

Lemma added_on_page_move props event st :
  OnPage.added_on_page st -> OnPage.added_on_page (handleMouseMove props event st).
Proof.
  intros H. unfold handleMouseMove. destruct (dragging st); [|exact H].
  destruct (truthy _); [|exact H]. apply added_on_page_update; [|done|exact H].
  intros ann _ _. unfold OnPage.placed, assign, upd_position, drag_position.
  cbn [TextAnnotation.x TextAnnotation.y Partial.x Partial.y from_option Point.x Point.y id].
  by rewrite within_clamp_800, within_clamp_1000.
Qed.

Lemma added_on_page_step ext s ev :
  OnPage.added_on_page (state s) -> OnPage.added_on_page (state (step ext s ev)).
Proof.
  intros H. destruct ev; cbn [step on_state state].
  all: try exact H.
  all: try (by apply added_on_page_flag).
  all: try (by apply added_on_page_text).
  all: try (by apply added_on_page_click).
  all: try (by apply added_on_page_move).
  all: try (unfold handleMouseDown; by destruct (List.find _ _)).
  all: try (by destruct (truthy _)).
  all: try (destruct (String.eqb _ _); [|done]; by apply added_on_page_flag).
  all: try (destruct (selectedAnnotation _); [|done]; destruct (truthy _); [|done];
            first [by apply added_on_page_flag | by apply added_on_page_delete]).
  all: try (by destruct newMode).
  all: try (exact (saveAnnotations_maintains OnPage.added_on_page ext s H)).
  all: try (by apply (extractTextFromPDF_maintains OnPage.added_on_page)).
  all: try (by apply (extraction_timeout_maintains OnPage.added_on_page)).
Qed.

Lemma added_on_page_run ext evs : forall s,
  OnPage.added_on_page (state s) -> OnPage.added_on_page (state (run ext s evs)).
Proof.
  induction evs as [|ev evs IH]; intros s H; [exact H|].
  apply (IH (step ext s ev)). by apply added_on_page_step.
Qed.

(** X11. Whatever the user does and however the shell zooms, an
    annotation added by a click on the page never lies off the page: in
    every state the editor reaches from its mount, each annotation of
    type [new] has an [x] between 0 and 800 and a [y] between 0 and 1000,
    or [NaN] there.  Clicks off the page add nothing, and a drag is cut
    off at the page's sides. *)
Theorem added_annotations_stay_on_page :
  forall (ext : External) (p : Props) (evs : list Event) (ann : TextAnnotation.t),
    ann ∈ textAnnotations (state (run ext (mount p) evs)) ->
    TextAnnotation.type ann = new ->
    OnPage.within 800 (TextAnnotation.x ann) = true /\
    OnPage.within 1000 (TextAnnotation.y ann) = true.
Proof.
  intros ext p evs ann Hin Hnew.
  assert (H : OnPage.added_on_page (state (run ext (mount p) evs)))
    by (apply added_on_page_run; constructor).
  unfold OnPage.added_on_page in H. rewrite Forall_forall in H.
  specialize (H ann Hin Hnew). by apply andb_true_iff in H.
Qed.

Lemma added_annotations_stay_on_page_witness :
  let evs := Sample.drag_session ++ [PageMouseMove (Sample.mouse 2000 (-50))] in
  let ann := default Sample.no_annotation
               (head (textAnnotations (state (run Sample.ext (mount Sample.props) evs)))) in
  OnPage.within 800 (TextAnnotation.x ann) = true /\
  OnPage.within 1000 (TextAnnotation.y ann) = true.
Proof.
  intros evs ann.
  apply (added_annotations_stay_on_page Sample.ext Sample.props evs ann).
  - vm_compute. apply list_elem_of_here.
  - vm_compute. reflexivity.
Defined.

End Placement.

Section ById.
Import Js Lib PDFEditor.

Lemma filter_filter_same {A} (f : A -> bool) (l : list A) :
  List.filter f (List.filter f l) = List.filter f l.
Proof.
  induction l as [|a l IH]; [done|]. cbn [List.filter].
  destruct (f a) eqn:Hf; [|exact IH]. cbn [List.filter]. by rewrite Hf, IH.
Qed.

Lemma filter_filter_swap {A} (f g : A -> bool) (l : list A) :
  List.filter f (List.filter g l) = List.filter g (List.filter f l).
Proof.
  induction l as [|a l IH]; [done|]. cbn [List.filter].
  destruct (g a) eqn:Hg, (f a) eqn:Hf; cbn [List.filter];
    rewrite ?Hg, ?Hf, ?IH; done.
Qed.

Lemma filter_split_length {A} (f : A -> bool) (l : list A) :
  length (List.filter (fun a => negb (f a)) l) + length (List.filter f l) = length l.
Proof.
  induction l as [|a l IH]; [done|]. cbn [List.filter].
  destruct (f a); cbn [negb length]; lia.
Qed.

(** X12. [deleteAnnotation] removes every annotation that carries the
    id, however many there are, and keeps the others in their order: no
    annotation with the id is left, the annotations with any other id
    are the same, the list shrinks by the number removed, the selection
    is cleared even when another annotation was selected, and deleting
    the same id again changes nothing more. *)
Theorem deleteAnnotation_removes_every_carrier :
  forall (id : string) (st : State),
    let st' := deleteAnnotation id st in
    carrying id st' = [] /\
    (id ∉ ids st') /\
    (forall other, other <> id -> carrying other st' = carrying other st) /\
    length (textAnnotations st') + length (carrying id st) = length (textAnnotations st) /\
    selectedAnnotation st' = None /\
    deleteAnnotation id st' = st'.
Proof.
  intros id st. cbv zeta. unfold carrying, deleteAnnotation, ids.
  cbn [textAnnotations selectedAnnotation setTextAnnotations setSelectedAnnotation].
  assert (Hnone : List.filter (fun ann => String.eqb (TextAnnotation.id ann) id)
                    (List.filter (fun ann => negb (String.eqb (TextAnnotation.id ann) id))
                                 (textAnnotations st)) = []).
  { induction (textAnnotations st) as [|a l IH]; [done|]. cbn [List.filter].
    destruct (String.eqb (TextAnnotation.id a) id) eqn:Ha; cbn [negb List.filter];
      [exact IH | by rewrite Ha]. }
  split; [exact Hnone|]. split; [|split; [|split; [|split]]].
  - intros Hin. apply list_elem_of_fmap in Hin as (a & Hid & Hin).
    apply list_elem_of_In, List.filter_In in Hin as [_ Hne].
    rewrite <- Hid, String.eqb_refl in Hne. discriminate.
  - clear Hnone. intros other Hother. rewrite filter_filter_swap.
    induction (textAnnotations st) as [|a l IH]; [done|]. cbn [List.filter].
    destruct (String.eqb_spec (TextAnnotation.id a) other) as [Heq|Hne]; [|exact IH].
    cbn [List.filter].
    destruct (String.eqb_spec (TextAnnotation.id a) id) as [Heq'|_]; [congruence|].
    cbn [negb]. by rewrite IH.
  - apply filter_split_length.
  - reflexivity.
  - by rewrite filter_filter_same.
Qed.

Lemma fmap_unchanged {A} (f : A -> A) (l : list A) :
  (forall a, a ∈ l -> f a = a) -> f <$> l = l.
Proof.
  induction l as [|a l IH]; intros H; [done|]. rewrite fmap_cons, H, IH; [done| |].
  - intros b Hb. apply H. by apply list_elem_of_further.
  - apply list_elem_of_here.
Qed.

Lemma state_eta_editor (st : State) :
  setTextAnnotations (textAnnotations st) st = st.
Proof. by destruct st. Qed.

(** X13. [updateAnnotation] with an update that names no id changes
    only the annotations that carry the id: the ids and their order are
    kept, an annotation with another id is still at its place, and for
    an id no annotation carries the state is left as it was. *)
Theorem updateAnnotation_changes_only_carriers :
  forall (id : string) (updates : Partial.t) (st : State),
    Partial.id updates = None ->
    let st' := updateAnnotation id updates st in
    ids st' = ids st /\
    (forall k ann, textAnnotations st !! k = Some ann -> TextAnnotation.id ann <> id ->
                   textAnnotations st' !! k = Some ann) /\
    (forall k ann, textAnnotations st !! k = Some ann -> TextAnnotation.id ann = id ->
                   textAnnotations st' !! k = Some (assign ann updates)) /\
    (id ∉ ids st -> st' = st).
Proof.
  intros id updates st Hupd. cbv zeta.
  split; [by apply ids_updateAnnotation|].
  unfold updateAnnotation. cbn [textAnnotations setTextAnnotations].
  split; [|split].
  - intros k ann Hk Hne. rewrite list_lookup_fmap, Hk. cbn.
    by destruct (String.eqb_spec (TextAnnotation.id ann) id).
  - intros k ann Hk Heq. rewrite list_lookup_fmap, Hk. cbn.
    by destruct (String.eqb_spec (TextAnnotation.id ann) id).
  - intros Hnotin. rewrite fmap_unchanged; [apply state_eta_editor|].
    intros a Ha. destruct (String.eqb_spec (TextAnnotation.id a) id) as [Heq|]; [|done].
    exfalso. apply Hnotin. unfold ids. apply list_elem_of_fmap. by exists a.
Qed.

Lemma updateAnnotation_changes_only_carriers_witness :
  let st := state Sample.annotated_store in
  let st' := updateAnnotation "extracted_1_0" (upd_text "Hi") st in
  ids st' = ids st /\
  (forall k ann, textAnnotations st !! k = Some ann ->
                 TextAnnotation.id ann <> "extracted_1_0" ->
                 textAnnotations st' !! k = Some ann) /\
  (forall k ann, textAnnotations st !! k = Some ann ->
                 TextAnnotation.id ann = "extracted_1_0" ->
                 textAnnotations st' !! k = Some (assign ann (upd_text "Hi"))) /\
  ("extracted_1_0" ∉ ids st -> st' = st).
Proof.
  intros st.
  apply (updateAnnotation_changes_only_carriers "extracted_1_0" (upd_text "Hi") st).
  reflexivity.
Defined.

End ById.

Section Gestures.
Import Js Lib PDFEditor.

(** What a drag keeps: the annotation held, the selection, the ids, the
    fragments and the mode. *)
Lemma held_step ext s ev id (l : list string) :
  truthy (Some id) = true ->
  Pointer.moves_or_clicks ev = true ->
  dragging (state s) = Some id /\ selectedAnnotation (state s) = Some id /\
  ids (state s) = l ->
  dragging (state (step ext s ev)) = Some id /\
  selectedAnnotation (state (step ext s ev)) = Some id /\
  ids (state (step ext s ev)) = l.
Proof.
  intros Hid Hev (Hdrag & Hsel & Hids). destruct ev; try discriminate;
    cbn [step on_state state].
  - unfold handlePDFClick. by rewrite Hdrag, Hid.
  - rewrite ids_handleMouseMove. unfold handleMouseMove. by rewrite Hdrag, Hid.
  - by rewrite Hdrag, Hid.
Qed.

(** X14. Between the press of the mouse button on an annotation box and
    its release, no annotation is added or removed: clicks on the page
    are ignored, clicks on boxes do not change the selection, and moves
    keep the ids, so that the dragged annotation stays the selected
    one.  Once the button is released, moves of the mouse change
    nothing. *)
Theorem no_annotation_is_added_during_a_drag :
  forall (ext : External) (s : Store) (e : MouseEvent.t) (id : string)
         (evs : list Event),
    truthy (Some id) = true ->
    forallb Pointer.moves_or_clicks evs = true ->
    let s' := run ext (step ext s (BoxMouseDown e id)) evs in
    dragging (state s') = Some id /\
    selectedAnnotation (state s') = Some id /\
    ids (state s') = ids (state s) /\
    (forall e', step ext (step ext s' PageMouseUp) (PageMouseMove e')
                = step ext s' PageMouseUp).
Proof.
  intros ext s e id evs Hid Hevs. cbv zeta.
  assert (H : dragging (state (run ext (step ext s (BoxMouseDown e id)) evs)) = Some id /\
              selectedAnnotation (state (run ext (step ext s (BoxMouseDown e id)) evs))
                = Some id /\
              ids (state (run ext (step ext s (BoxMouseDown e id)) evs)) = ids (state s)).
  { assert (H0 : dragging (state (step ext s (BoxMouseDown e id))) = Some id /\
                 selectedAnnotation (state (step ext s (BoxMouseDown e id))) = Some id /\
                 ids (state (step ext s (BoxMouseDown e id))) = ids (state s)).
    { cbn [step on_state state]. rewrite ids_handleMouseDown.
      unfold handleMouseDown. by destruct (List.find _ _). }
    revert H0. generalize (step ext s (BoxMouseDown e id)). unfold run.
    induction evs as [|ev evs IH]; intros s0 H0; [exact H0|].
    cbn [forallb] in Hevs. apply andb_true_iff in Hevs as [Hev Hevs].
    apply (IH Hevs (step ext s0 ev)). by apply held_step. }
  destruct H as (H1 & H2 & H3). split; [done|]. split; [done|]. split; [done|].
  intros e'. by destruct (run ext (step ext s (BoxMouseDown e id)) evs).
Qed.

Lemma no_annotation_is_added_during_a_drag_witness :
  let s := run Sample.ext (mount Sample.props) [PageClick 17 (Sample.mouse 240 260)] in
  let evs := [PageClick 18 (Sample.mouse 100 100); PageMouseMove (Sample.mouse 300 300);
              BoxClick "18"] in
  let s' := run Sample.ext (step Sample.ext s (BoxMouseDown Sample.grab "17")) evs in
  dragging (state s') = Some "17" /\
  selectedAnnotation (state s') = Some "17" /\
  ids (state s') = ids (state s) /\
  (forall e', step Sample.ext (step Sample.ext s' PageMouseUp) (PageMouseMove e')
              = step Sample.ext s' PageMouseUp).
Proof.
  intros s evs.
  apply (no_annotation_is_added_during_a_drag Sample.ext s Sample.grab "17" evs);
    reflexivity.
Defined.

End Gestures.

Section ReplaceClicks.
Import Js Lib PDFEditor.

Lemma find_fmap_same_id (i : string) (f : TextAnnotation.t -> TextAnnotation.t)
    (l : list TextAnnotation.t) :
  (forall a, TextAnnotation.id (f a) = TextAnnotation.id a) ->
  List.find (fun ann => String.eqb (TextAnnotation.id ann) i) (f <$> l) =
  f <$> List.find (fun ann => String.eqb (TextAnnotation.id ann) i) l.
Proof.
  intros Hf. induction l as [|a l IH]; [done|]. rewrite fmap_cons. cbn [List.find].
  rewrite Hf. by destruct (String.eqb _ _).
Qed.

Lemma find_app_last (i : string) (l : list TextAnnotation.t) (a : TextAnnotation.t) :
  List.find (fun ann => String.eqb (TextAnnotation.id ann) i) l = None ->
  TextAnnotation.id a = i ->
  List.find (fun ann => String.eqb (TextAnnotation.id ann) i) (l ++ [a]) = Some a.
Proof.
  intros Hnone Ha. induction l as [|b l IH]; cbn [List.find app] in *.
  - by rewrite Ha, String.eqb_refl.
  - destruct (String.eqb _ _); [discriminate | by apply IH].
Qed.

(** A replace-mode click that found its fragment already annotated. *)
Lemma mark_again (i : string) (l : list TextAnnotation.t) :
  let f := fun ann => if String.eqb (TextAnnotation.id ann) i
                      then assign ann (upd_isEditing true) else ann in
  f <$> (f <$> l) = f <$> l.
Proof.
  intros f. rewrite <- list_fmap_compose. apply list_fmap_ext. intros _ a _.
  unfold f, compose. destruct (String.eqb (TextAnnotation.id a) i) eqn:Ha; [|by rewrite Ha].
  cbn [assign TextAnnotation.id upd_isEditing Partial.id from_option]. by rewrite Ha.
Qed.

(** X15. In replace mode a click is idempotent: the same click again,
    at whatever time, leaves the state that the first one produced.  The
    second click on a fragment finds the annotation the first one made
    and only sets its editing flag, which is already set. *)
Theorem replace_click_twice_is_once :
  forall (now now' : N) (props : Props) (event : MouseEvent.t) (st : State),
    editMode st = replace ->
    handlePDFClick now' props event (handlePDFClick now props event st)
    = handlePDFClick now props event st.
Proof.
  intros now now' props event st Hmode.
  unfold handlePDFClick at 2.
  destruct (truthy (dragging st)) eqn:Hdrag;
    [unfold handlePDFClick; by rewrite Hdrag|].
  destruct (outside (click_position props event st)) eqn:Hout;
    [unfold handlePDFClick; by rewrite Hdrag, Hout|].
  rewrite Hmode.
  destruct (List.find (isInBounds (click_position props event st)) (extractedTexts st))
    as [clickedText|] eqn:Hclicked;
    [|unfold handlePDFClick; by rewrite Hdrag, Hout, Hmode, Hclicked].
  destruct (List.find _ (textAnnotations st)) as [existingAnnotation|] eqn:Hfind.
  - pose proof (find_id_Some _ _ _ Hfind) as Hid.
    unfold handlePDFClick.
    cbn [dragging setSelectedAnnotation updateAnnotation setTextAnnotations editMode
         extractedTexts textAnnotations].
    change (click_position props event
              (setSelectedAnnotation ?v (updateAnnotation ?i ?u st)))
      with (click_position props event st).
    rewrite Hdrag, Hout, Hmode, Hclicked.
    rewrite Hid, find_fmap_same_id, Hfind; [|intros a; by destruct (String.eqb _ _)].
    cbn [fmap option_fmap option_map]. rewrite ?Hid, String.eqb_refl.
    cbn [assign TextAnnotation.id upd_isEditing Partial.id from_option]. rewrite ?Hid.
    unfold setSelectedAnnotation, updateAnnotation, setTextAnnotations.
    cbn [textAnnotations extractedTexts selectedAnnotation sidebarCollapsed dragging
         dragOffset editMode loading pdfScale fullscreen].
    f_equal. apply (mark_again (ExtractedText.id clickedText)).
  - unfold handlePDFClick.
    cbn [dragging setSelectedAnnotation setTextAnnotations editMode
         extractedTexts textAnnotations TextAnnotation.id].
    change (click_position props event
              (setSelectedAnnotation ?v (setTextAnnotations ?l st)))
      with (click_position props event st).
    rewrite Hdrag, Hout, Hmode, Hclicked, Hfind.
    erewrite (find_app_last _ _ _ Hfind); [|reflexivity].
    cbn [TextAnnotation.id].
    unfold setSelectedAnnotation, updateAnnotation, setTextAnnotations.
    cbn [textAnnotations extractedTexts selectedAnnotation sidebarCollapsed dragging
         dragOffset editMode loading pdfScale fullscreen].
    f_equal. rewrite fmap_app. f_equal.
    + apply fmap_unchanged. intros a Ha.
      apply list_elem_of_In in Ha.
      apply (List.find_none _ _ Hfind) in Ha. by rewrite Ha.
    + cbn. by rewrite String.eqb_refl.
Qed.

Lemma replace_click_twice_is_once_witness :
  handlePDFClick 2 Sample.props (Sample.mouse 180 250)
    (handlePDFClick 1 Sample.props (Sample.mouse 180 250)
       (state Sample.annotated_store))
  = handlePDFClick 1 Sample.props (Sample.mouse 180 250) (state Sample.annotated_store).
Proof.
  apply (replace_click_twice_is_once 1 2 Sample.props (Sample.mouse 180 250)
           (state Sample.annotated_store)).
  reflexivity.
Defined.

End ReplaceClicks.

Section ShellRuns.
Import Js App.

Lemma shell_step_keeps_pdf st ev :
  match pdfFile st with
  | Some file => File.type file = "application/pdf"
  | None => st = initial
  end ->
  match pdfFile (Shell.step st ev) with
  | Some file => File.type file = "application/pdf"
  | None => Shell.step st ev = initial
  end.
Proof.
  intros H. destruct ev as [files| | |m]; cbn [Shell.step].
  - unfold handleFileUpload. destruct files as [[|f fs]|]; cbn [lookup list_lookup]; try exact H.
    destruct (String.eqb_spec (File.type f) "application/pdf"); [|exact H].
    cbn [pdfFile]. done.
  - unfold Shell.controls_shown. destruct (pdfFile st) eqn:Hf; [|by rewrite Hf].
    cbn [zoomIn setZoom pdfFile]. by rewrite Hf.
  - unfold Shell.controls_shown. destruct (pdfFile st) eqn:Hf; [|by rewrite Hf].
    cbn [zoomOut setZoom pdfFile]. by rewrite Hf.
  - unfold Shell.controls_shown. destruct (pdfFile st) eqn:Hf; [|by rewrite Hf].
    cbn [setMode pdfFile]. by rewrite Hf.
Qed.

Lemma shell_step_stays_loaded st ev :
  Shell.controls_shown st = true -> Shell.controls_shown (Shell.step st ev) = true.
Proof.
  unfold Shell.controls_shown. destruct (pdfFile st) eqn:Hf; [intros _|discriminate].
  destruct ev as [files| | |m]; cbn [Shell.step]; unfold Shell.controls_shown;
    rewrite ?Hf; cbn [zoomIn zoomOut setZoom setMode pdfFile]; rewrite ?Hf; try done.
  unfold handleFileUpload. destruct files as [[|f fs]|]; cbn [lookup list_lookup];
    rewrite ?Hf; try done.
  destruct (String.eqb _ _); cbn [pdfFile]; by rewrite ?Hf.
Qed.

Lemma shell_run_keeps_pdf evs : forall st,
  match pdfFile st with
  | Some file => File.type file = "application/pdf"
  | None => st = initial
  end ->
  match pdfFile (Shell.run st evs) with
  | Some file => File.type file = "application/pdf"
  | None => Shell.run st evs = initial
  end.
Proof.
  induction evs as [|ev evs IH]; intros st H; [exact H|].
  apply (IH (Shell.step st ev)). by apply shell_step_keeps_pdf.
Qed.

(** X16. In every state the shell reaches from its start, the loaded
    file, if there is one, has the type [application/pdf]; as long as
    there is none, zoom and mode are the initial ones, since their
    buttons are not rendered; and a file once loaded is never unloaded,
    whatever is chosen in the picker afterwards. *)
Theorem shell_holds_a_pdf_or_nothing :
  forall evs : list Shell.Event,
    let st := Shell.run initial evs in
    match pdfFile st with
    | Some file => File.type file = "application/pdf"
    | None => st = initial /\ Shell.content st = Shell.UploadPrompt
    end /\
    (forall more : list Shell.Event,
       Shell.controls_shown st = true ->
       Shell.controls_shown (Shell.run st more) = true).
Proof.
  intros evs. cbv zeta. split.
  - pose proof (shell_run_keeps_pdf evs initial eq_refl) as H.
    destruct (pdfFile (Shell.run initial evs)) eqn:Hf; [exact H|].
    split; [exact H|]. unfold Shell.content. by rewrite Hf.
  - generalize (Shell.run initial evs). intros st more. revert st. unfold Shell.run.
    induction more as [|ev more IH]; intros st H; [exact H|].
    apply (IH (Shell.step st ev)). by apply shell_step_stays_loaded.
Qed.

End ShellRuns.

Section Viewer.
Import Js PDFViewer.

(** X17. Once the viewer has handled its file it never shows the
    spinner.  It shows the error text when [URL.createObjectURL] threw,
    and also when an error was left from an earlier file, since nothing
    clears it; otherwise it shows the frame with the new URL at the zoom
    of the props, or the no-file text when the URL is the empty string.
    Only a failure writes to the console. *)
Theorem viewer_shows_frame_or_error :
  forall (createObjectURL : File.t -> completion string) (props : Props) (s : Store),
    let s' := snd (on_file createObjectURL props s) in
    loading (state s') = false /\
    render props (state s') =
      match createObjectURL (file props) with
      | Throw _ => ErrorText "Failed to load PDF file"
      | Normal url =>
          if truthy (error (state s)) then ErrorText (default EmptyString (error (state s)))
          else if truthy (Some url) then Frame url (zoom props)
          else NoFileText
      end /\
    effects s' = effects s ++
      match createObjectURL (file props) with
      | Throw _ => [ConsoleError "Error creating object URL:"]
      | Normal _ => []
      end.
Proof.
  intros createObjectURL props s. cbv zeta.
  unfold on_file, try_catch, bind, await, update, emit, modify.
  destruct (createObjectURL (file props)) as [url|e]; cbn.
  - split; [done|]. split; [|by rewrite app_nil_r].
    unfold render. cbn. destruct (truthy (error (state s))); [done|].
    by destruct (negb (url =? EmptyString)%string).
  - done.
Qed.

End Viewer.

Section SavedDrawings.
Import Js Lib PDFEditor.

(** A loop whose body always completes with a value computed from the
    accumulator folds that computation over the list. *)
Lemma for_of_fold {S A B} (g : B -> A -> B) (body : B -> A -> M S B)
    (xs : list A) : forall (acc : B) (s : S),
  (forall acc x s, body acc x s = (Normal (g acc x), s)) ->
  for_of xs acc body s = (Normal (foldl g acc xs), s).
Proof.
  induction xs as [|x xs IH]; intros acc s Hbody; [done|].
  cbn [for_of foldl]. unfold bind. rewrite Hbody. by apply IH.
Qed.

Lemma foldl_with_op_height (page : PDFPage.t) (ops : list DrawOp) :
  PDFPage.height (foldl Saved.with_op page ops) = PDFPage.height page.
Proof. revert page. induction ops as [|op ops IH]; intros page; [done|]. cbn. by rewrite IH. Qed.

Lemma covers_fold (ets : list ExtractedText.t) (anns : list TextAnnotation.t) :
  forall page : PDFPage.t,
    foldl (fun page ann =>
             match List.find (fun t => String.eqb (ExtractedText.id t)
                                                  (TextAnnotation.id ann)) ets with
             | Some t =>
                 Saved.with_op page
                   (Rectangle (ExtractedText.x t)
                              (PDFPage.height page - ExtractedText.y t
                               - ExtractedText.height t)%float
                              (ExtractedText.width t) (ExtractedText.height t))
             | None => page
             end)
          page
          (List.filter (fun ann => match TextAnnotation.type ann with
                                   | existing => true
                                   | new => false
                                   end) anns)
    = foldl Saved.with_op page (omap (Saved.cover (PDFPage.height page) ets) anns).
Proof.
  induction anns as [|ann anns IH]; intros page; [done|].
  cbn [List.filter omap list_omap]. unfold Saved.cover at 1.
  destruct (TextAnnotation.type ann); [exact (IH page)|].
  cbn [foldl]. destruct (List.find _ ets) as [t|]; [|exact (IH page)].
  cbn [foldl]. by rewrite IH.
Qed.

Lemma captions_fold (anns : list TextAnnotation.t) :
  forall page : PDFPage.t,
    foldl (fun page ann =>
             Saved.with_op page
               (Text (TextAnnotation.text ann) (TextAnnotation.x ann)
                     (PDFPage.height page - TextAnnotation.y ann - 20)%float
                     (TextAnnotation.fontSize ann)))
          page anns
    = foldl Saved.with_op page (Saved.caption (PDFPage.height page) <$> anns).
Proof.
  induction anns as [|ann anns IH]; intros page; [done|].
  rewrite fmap_cons. cbn [foldl]. by rewrite IH.
Qed.

(** X18. When the library calls succeed, [saveAnnotations] downloads
    the document with these drawings added to its first page and no
    other page touched: first, for each annotation of type [existing]
    whose fragment is still listed, a rectangle over the fragment (at
    the fragment's place, not the annotation's), in the order of the
    annotations; then the text of every annotation at the annotation's
    place, in the same order.  A document without pages is saved as it
    is. *)
Theorem save_draws_covers_then_texts :
  forall (ext : External) (s : Store) (buf : bytes) (doc : PDFDocument) (out : bytes),
    Saved.draws ext ->
    file_arrayBuffer ext (file (props s)) = Normal buf ->
    PDFDocument_load ext buf = Normal doc ->
    save ext (Saved.edited doc (state s)) = Normal out ->
    saveAnnotations ext s =
      (Normal tt,
       {| props := props s; state := state s;
          effects := effects s ++
                     [Download ("edited_" +:+ File.name (file (props s))) out] |}).
Proof.
  intros ext s buf doc out Hdraws Hbuf Hdoc Hout.
  unfold saveAnnotations, try_catch, save_body.
  unfold bind at 1, read at 1. unfold bind at 1, await at 1. rewrite Hbuf.
  unfold bind at 1, await at 1. rewrite Hdoc.
  unfold bind at 1.
  destruct doc as [|page rest]; cbn [getPages].
  - unfold ret at 1. unfold bind, await. cbn [Saved.edited] in Hout. rewrite Hout.
    reflexivity.
  - unfold bind at 1.
    rewrite (for_of_fold
               (fun page ann =>
                  match List.find (fun t => String.eqb (ExtractedText.id t)
                                                       (TextAnnotation.id ann))
                                  (extractedTexts (state s)) with
                  | Some t =>
                      Saved.with_op page
                        (Rectangle (ExtractedText.x t)
                                   (PDFPage.height page - ExtractedText.y t
                                    - ExtractedText.height t)%float
                                   (ExtractedText.width t) (ExtractedText.height t))
                  | None => page
                  end)).
    2:{ intros acc x s0. destruct (List.find _ _) as [t|]; [|done].
        unfold await. by rewrite (proj1 (Hdraws acc _)). }
    unfold bind at 1.
    rewrite (for_of_fold
               (fun page ann =>
                  Saved.with_op page
                    (Text (TextAnnotation.text ann) (TextAnnotation.x ann)
                          (PDFPage.height page - TextAnnotation.y ann - 20)%float
                          (TextAnnotation.fontSize ann)))).
    2:{ intros acc x s0. unfold await. by rewrite (proj2 (Hdraws acc _)). }
    unfold ret at 1. unfold bind, await.
    rewrite covers_fold, captions_fold, foldl_with_op_height, <- foldl_app.
    cbn [Saved.edited] in Hout. unfold Saved.drawings in Hout. rewrite Hout.
    reflexivity.
Qed.

Lemma save_draws_covers_then_texts_witness :
  saveAnnotations Sample.ext Sample.annotated_store =
    (Normal tt,
     {| props := props Sample.annotated_store; state := state Sample.annotated_store;
        effects := effects Sample.annotated_store ++
                   [Download ("edited_" +:+ File.name (file (props Sample.annotated_store)))
                             "ab"] |}).
Proof.
  apply (save_draws_covers_then_texts Sample.ext Sample.annotated_store
           "%PDFab" [Sample.page_of "a"; Sample.page_of "b"] "ab").
  - intros page op. split; reflexivity.
  - reflexivity.
  - reflexivity.
  - vm_compute. reflexivity.
Defined.

End SavedDrawings.

Section AllOrNothing.
Import Js Lib PDFMerger.

Lemma merge_loop_fails ext (arr : array PDFFile.t) (f : PDFFile.t) (e : exn) :
  Elem f ∈ arr ->
  pages_of ext (PDFFile.file f) = Throw e ->
  forall (mergedPdf : PDFDocument) (s : Store),
  exists e',
    for_of (values arr) mergedPdf
      (fun mergedPdf pdfFile =>
         match pdfFile with
         | None => await (Throw TypeError)
         | Some pdfFile =>
             let! arrayBuffer := await (file_arrayBuffer ext (PDFFile.file pdfFile)) in
             let! pdf := await (PDFDocument_load ext arrayBuffer) in
             let! pages := await (copyPages ext mergedPdf pdf (getPageIndices pdf)) in
             ret (foldl addPage mergedPdf pages)
         end) s
    = (Throw e', s).
Proof.
  intros Hin Hf. induction arr as [|x arr IH]; intros mergedPdf s.
  - by apply elem_of_nil in Hin.
  - cbn [values fmap list_fmap for_of]. unfold bind at 1.
    apply elem_of_cons in Hin as [<-|Hin].
    + cbn. unfold bind at 1, await at 1. unfold pages_of in Hf.
      destruct (file_arrayBuffer ext (PDFFile.file f)) as [buf|e0]; [|by eexists].
      unfold bind at 1, await at 1. rewrite Hf. by eexists.
    + destruct x as [g| |]; cbn; try (by eexists).
      unfold bind at 1, await at 1.
      destruct (file_arrayBuffer ext (PDFFile.file g)) as [buf|e0]; [|by eexists].
      unfold bind at 1, await at 1.
      destruct (PDFDocument_load ext buf) as [pdf|e1]; [|by eexists].
      unfold bind at 1, await at 1.
      destruct (copyPages ext mergedPdf pdf _) as [pages|e2]; [|by eexists].
      unfold ret at 1. apply (IH Hin).
Qed.

(** X19. A merge is all or nothing: when one file of the list cannot be
    read or parsed, nothing is downloaded, not even the pages merged so
    far.  The failure is logged, the user is alerted, the list is as it
    was and the merging flag is off again. *)
Theorem one_bad_file_fails_the_whole_merge :
  forall (ext : External) (now : N) (s : Store) (f : PDFFile.t) (e : exn),
    Elem f ∈ pdfFiles (state s) ->
    pages_of ext (PDFFile.file f) = Throw e ->
    mergePDFs ext now s =
      (Normal tt,
       {| state := setMerging false (state s);
          effects := effects s ++
                     [ConsoleError "Failed to merge PDFs:";
                      Alert "Failed to merge PDFs. Please try again."] |}).
Proof.
  intros ext now s f e Hin Hf.
  unfold mergePDFs, bind at 1, read, try_finally, try_catch.
  destruct (merge_body ext now (pdfFiles (state s)) s) as [[[]|e'] s1] eqn:Hbody.
  - exfalso. revert Hbody. unfold merge_body. unfold bind at 1.
    unfold update at 1, modify at 1. unfold bind at 1, await at 1.
    destruct (PDFDocument_create ext) as [mergedPdf|e0]; [|discriminate].
    unfold bind at 1.
    match goal with
    | |- context [for_of ?xs mergedPdf ?body ?s1] =>
        destruct (merge_loop_fails ext _ f e Hin Hf mergedPdf s1) as [e' ->]
    end. discriminate.
  - apply merge_body_throw in Hbody as ->.
    unfold bind, emit, update, modify. cbn. by rewrite <- List.app_assoc.
Qed.

Lemma one_bad_file_fails_the_whole_merge_witness :
  mergePDFs Sample.ext 5 Sample.notes_merger =
    (Normal tt,
     {| state := setMerging false (state Sample.notes_merger);
        effects := effects Sample.notes_merger ++
                   [ConsoleError "Failed to merge PDFs:";
                    Alert "Failed to merge PDFs. Please try again."] |}).
Proof.
  eapply (one_bad_file_fails_the_whole_merge Sample.ext 5 Sample.notes_merger _
            (Error "Failed to parse PDF document")).
  - vm_compute. do 2 apply list_elem_of_further. apply list_elem_of_here.
  - reflexivity.
Defined.

End AllOrNothing.

Section DistinctIds.
Import Js Lib PDFEditor.

(** X20. As long as every add-mode click reads a clock value that is
    not yet the id of an annotation, the annotations of the editor have
    pairwise distinct ids, whatever else happens in between: replace
    mode never gives an id twice, and no other handler writes an id. *)
Theorem ids_distinct_while_the_clock_is_fresh :
  forall (ext : External) (p : Props) (evs : list Event),
    clock_fresh ext (mount p) evs ->
    NoDup (ids (state (run ext (mount p) evs))).
Proof.
  intros ext p evs Hfresh.
  apply unique_ids_while_clock_fresh; [apply NoDup_nil_2 | exact Hfresh].
Qed.

Lemma ids_distinct_while_the_clock_is_fresh_witness :
  NoDup (ids (state (run Sample.ext (mount Sample.props)
                       [ PageClick 1700000000000 (Sample.mouse 240 260);
                         ExtractionSettles;
                         PageClick 1700000000001 (Sample.mouse 500 600);
                         ModeToggle (Some replace);
                         PageClick 1700000000001 (Sample.mouse 180 250) ]))).
Proof.
  apply (ids_distinct_while_the_clock_is_fresh Sample.ext Sample.props).
  cbn [clock_fresh]. repeat split.
  - intros _. vm_compute. apply not_elem_of_nil.
  - intros _. vm_compute. intros H. apply list_elem_of_singleton in H. discriminate H.
  - intros H. vm_compute in H. discriminate H.
Defined.

End DistinctIds.
